(** * Health-report processing pipeline: a shallow embedding and its properties

    The development follows the Python sources

      - [app/services/report_processing.py]  (extraction, classification,
        insights, risk scores, trends),
      - [app/utils/ml_model.py]              (the logistic risk predictor),
      - [app/api/v1/reports.py]              (the upload handler).

    Modelling conventions.

      - A Python [str] is a [string]; texts are taken to be ASCII, so that
        [str.lower] only moves the letters A-Z and [\d] only matches 0-9.
      - A Python [float] is the rational number it denotes ([Q], kept in
        lowest terms by [Qred]); rounding to binary64 is not modelled,
        except in the module [binary64], which gives the arithmetic of
        [calculate_risk_score] in IEEE 754 double precision.
      - A Python [dict] is an association list in insertion order with
        unique keys: assignment to a present key replaces the value in
        place, assignment to a fresh key appends.
      - A function that may raise returns a [result]; the exceptions that
        the sources raise themselves are constructors of [exn]. *)

From Stdlib Require Import List String Ascii Bool Arith ZArith QArith Lia.
From Stdlib Require Import Floats.SpecFloat.
Import ListNotations.

Close Scope Q_scope.
Open Scope string_scope.
Open Scope list_scope.

(* ================================================================== *)
(** * Part I: definitions                                              *)
(* ================================================================== *)

(** ** Exceptions and the error monad *)

Inductive exn : Type :=
| ValueError (msg : string)
| KeyError (key : string)
| IndexError
| LibraryError (what : string)
| HTTPException (status_code : Z) (detail : string).

Inductive result (A : Type) : Type :=
| Ok (a : A)
| Raise (e : exn).

Arguments Ok {A} a.
Arguments Raise {A} e.

Definition bind {A B : Type} (m : result A) (k : A -> result B) : result B :=
  match m with
  | Ok a => k a
  | Raise e => Raise e
  end.

Notation "'let*' x ':=' m 'in' k" := (bind m (fun x => k))
  (at level 10, x name, m at level 100, k at level 200).

(** [str(e)] *)
Definition str_exn (e : exn) : string :=
  match e with
  | ValueError msg => msg
  | KeyError key => "'" ++ key ++ "'"
  | IndexError => "list index out of range"
  | LibraryError what => what
  | HTTPException _ detail => detail
  end.

(** [try: m except Exception: h] *)
Definition try_except {A : Type} (m : result A) (h : exn -> result A) : result A :=
  match m with
  | Ok a => Ok a
  | Raise e => h e
  end.

(** ** Python built-ins used by the sources *)

Module Py.

Definition newline : ascii := "010"%char.

Definition is_upper (c : ascii) : bool :=
  let n := nat_of_ascii c in (65 <=? n)%nat && (n <=? 90)%nat.

Definition is_digit (c : ascii) : bool :=
  let n := nat_of_ascii c in (48 <=? n)%nat && (n <=? 57)%nat.

Definition lower_char (c : ascii) : ascii :=
  if is_upper c then ascii_of_nat (nat_of_ascii c + 32) else c.

(** [s.lower()] *)
Fixpoint lower (s : string) : string :=
  match s with
  | EmptyString => EmptyString
  | String c s' => String (lower_char c) (lower s')
  end.

(** [s.startswith(p)] *)
Definition startswith (s p : string) : bool := String.prefix p s.

(** [sub in s] *)
Fixpoint contains (sub s : string) : bool :=
  if String.prefix sub s then true
  else match s with
       | EmptyString => false
       | String _ s' => contains sub s'
       end.

(** [s.split('\n')] *)
Fixpoint split_newline (s : string) : list string :=
  match s with
  | EmptyString => [EmptyString]
  | String c s' =>
      if Ascii.eqb c newline then EmptyString :: split_newline s'
      else match split_newline s' with
           | l :: ls => String c l :: ls
           | [] => [String c EmptyString]
           end
  end.

(** [re.findall(r'\d+\.?\d*', s)].  The pattern never needs to
    backtrack: a match starts at the first digit not yet consumed,
    takes the whole run of digits, one dot if it follows, and the
    whole run of digits after the dot.  [scan m s] reads [s] in mode
    [m] and gives the remainder of the match in progress together
    with the matches that start later. *)
Inductive mode : Type := Idle | IntPart | FracPart.

Fixpoint scan (m : mode) (s : string) : string * list string :=
  match s with
  | EmptyString => (EmptyString, [])
  | String c s' =>
      match m with
      | Idle =>
          if is_digit c
          then let (t, ts) := scan IntPart s' in (EmptyString, String c t :: ts)
          else scan Idle s'
      | IntPart =>
          if is_digit c
          then let (t, ts) := scan IntPart s' in (String c t, ts)
          else if Ascii.eqb c "."%char
          then let (t, ts) := scan FracPart s' in (String c t, ts)
          else (EmptyString, snd (scan Idle s'))
      | FracPart =>
          if is_digit c
          then let (t, ts) := scan FracPart s' in (String c t, ts)
          else (EmptyString, snd (scan Idle s'))
      end
  end.

Definition findall_number (s : string) : list string := snd (scan Idle s).

(** [float(s)] for the decimal forms [[+-]ddd], [[+-]ddd.], [[+-]ddd.ddd]
    and [[+-].ddd]; every other string raises [ValueError] here
    (exponents, [inf], [nan], blanks and underscores are not
    modelled: the pattern above never produces them). *)
Definition digit_value (c : ascii) : Z := Z.of_nat (nat_of_ascii c - 48).

(** The digits of [s] read after the value [acc]; [None] when [s] has
    a character that is not a digit. *)
Fixpoint read_digits (acc : Z) (s : string) : option Z :=
  match s with
  | EmptyString => Some acc
  | String c s' =>
      if is_digit c then read_digits (10 * acc + digit_value c)%Z s' else None
  end.

(** Splits [s] at its first dot. *)
Fixpoint cut_dot (s : string) : string * option string :=
  match s with
  | EmptyString => (EmptyString, None)
  | String c s' =>
      if Ascii.eqb c "."%char then (EmptyString, Some s')
      else let (a, b) := cut_dot s' in (String c a, b)
  end.

Fixpoint pow10 (n : nat) : positive :=
  match n with
  | O => 1%positive
  | S n' => (10 * pow10 n')%positive
  end.

Definition unsigned_float (s : string) : result Q :=
  let (ip, fp) := cut_dot s in
  let fp := match fp with Some f => f | None => EmptyString end in
  match String.length ip + String.length fp with
  | O => Raise (ValueError "could not convert string to float")
  | _ =>
      match read_digits 0%Z (ip ++ fp) with
      | Some n => Ok (Qred (Qmake n (pow10 (String.length fp))))
      | None => Raise (ValueError "could not convert string to float")
      end
  end.

Definition float (s : string) : result Q :=
  match s with
  | String "-" s' =>
      let* v := unsigned_float s' in Ok (Qred (Qopp v))
  | String "+" s' => unsigned_float s'
  | _ => unsigned_float s
  end.

(** *** Dictionaries in insertion order *)

Definition dict (V : Type) : Type := list (string * V).

Fixpoint get {V : Type} (d : dict V) (k : string) : option V :=
  match d with
  | [] => None
  | (k', v) :: d' => if String.eqb k' k then Some v else get d' k
  end.

(** [k in d] *)
Definition mem {V : Type} (d : dict V) (k : string) : bool :=
  match get d k with Some _ => true | None => false end.

(** [d[k] = v] *)
Fixpoint set {V : Type} (d : dict V) (k : string) (v : V) : dict V :=
  match d with
  | [] => [(k, v)]
  | (k', v') :: d' =>
      if String.eqb k' k then (k', v) :: d' else (k', v') :: set d' k v
  end.

(** [d[k]], which raises [KeyError] on a missing key *)
Definition getitem {V : Type} (d : dict V) (k : string) : result V :=
  match get d k with
  | Some v => Ok v
  | None => Raise (KeyError k)
  end.

Definition keys {V : Type} (d : dict V) : list string := map fst d.

End Py.

(** [x < y] and [x > y] on floats *)
Definition Qltb (x y : Q) : bool := negb (Qle_bool y x).
Definition Qgtb (x y : Q) : bool := Qltb y x.

(** [a[i]] on a list, which raises [IndexError] out of range *)
Definition item {A : Type} (l : list A) (i : nat) : result A :=
  match nth_error l i with
  | Some x => Ok x
  | None => Raise IndexError
  end.

(** ** [app/utils/ml_model.py] *)

Module ml_model.
Import Py.

Definition matrix : Type := list (list Q).

(** The scikit-learn objects, seen through the methods that
    [predict_risk] calls on them; both may raise. *)
Record StandardScaler : Type := { transform : matrix -> result matrix }.
Record LogisticRegression : Type := { predict_proba : matrix -> result matrix }.

Record HealthRiskPredictor : Type := {
  model : option LogisticRegression;
  scaler : StandardScaler;
  is_trained : bool
}.

Definition parameters : list string :=
  ["Hemoglobin"; "WBC"; "RBC"; "Platelets"; "Glucose"; "Cholesterol";
   "HDL"; "LDL"; "Triglycerides"].

Definition default_values : dict Q :=
  [("Hemoglobin", 14%Q); ("WBC", (15 # 2)%Q); ("RBC", (47 # 10)%Q);
   ("Platelets", 300%Q); ("Glucose", 90%Q); ("Cholesterol", 180%Q);
   ("HDL", 50%Q); ("LDL", 100%Q); ("Triglycerides", 120%Q)].

(** The loop of [predict_risk] that builds [features]. *)
Definition extract_features (report_data : dict Q) : list Q :=
  fold_left
    (fun features param =>
       match get report_data param with
       | Some v => features ++ [v]
       | None =>
           features ++ [match get default_values param with
                        | Some d => d
                        | None => 0%Q
                        end]
       end)
    parameters [].

Definition predict_risk (self : HealthRiskPredictor) (report_data : dict Q)
  : result Q :=
  if negb (is_trained self)
     || match model self with None => true | Some _ => false end
  then Ok 50%Q
  else
    let features := extract_features report_data in
    let* features_scaled := transform (scaler self) [features] in
    match model self with
    | None => Raise (LibraryError "AttributeError")
    | Some m =>
        let* proba := predict_proba m features_scaled in
        let* row := item proba 0 in
        let* risk_probability := item row 1 in
        let risk_score := Qred (risk_probability * 100)%Q in
        Ok risk_score
    end.

(** *** Synthetic training data *)

(** [a < c], [a > c] and [a | b] on numpy arrays *)
Definition lt_scalar (a : list Q) (c : Q) : list bool := map (fun x => Qltb x c) a.
Definition gt_scalar (a : list Q) (c : Q) : list bool := map (fun x => Qgtb x c) a.
Definition elementwise_or (a b : list bool) : list bool :=
  map (fun p => fst p || snd p) (combine a b).

(** [a.sum()] on a boolean array *)
Definition sum_bool (a : list bool) : Z :=
  fold_left (fun (n : Z) (b : bool) => if b then (n + 1)%Z else n) a 0%Z.

(** [np.column_stack]: one row per sample *)
Definition column_stack (cols : list (list Q)) : matrix :=
  match cols with
  | [] => []
  | c :: _ =>
      fold_right
        (fun col rows => map (fun p => fst p :: snd p) (combine col rows))
        (repeat [] (List.length c)) cols
  end.

Definition n_samples : nat := 1000.

Section Synthetic.
(** numpy's global generator: its state, [np.random.seed] and
    [np.random.normal(loc, scale, size)]. *)
Variable rng : Type.
Variable seed : Z -> rng.
Variable normal : Q -> Q -> nat -> rng -> list Q * rng.

Definition prepare_data : matrix * Z :=
  let g := seed 42%Z in
  let (hemoglobin, g) := normal 14%Q 2%Q n_samples g in
  let (wbc, g) := normal (15 # 2)%Q 2%Q n_samples g in
  let (rbc, g) := normal (47 # 10)%Q (1 # 2)%Q n_samples g in
  let (platelets, g) := normal 300%Q 100%Q n_samples g in
  let (glucose, g) := normal 90%Q 20%Q n_samples g in
  let (cholesterol, g) := normal 180%Q 50%Q n_samples g in
  let (hdl, g) := normal 50%Q 15%Q n_samples g in
  let (ldl, g) := normal 100%Q 40%Q n_samples g in
  let (triglycerides, g) := normal 120%Q 60%Q n_samples g in
  let risk_factors :=
    elementwise_or
      (elementwise_or
         (elementwise_or
            (elementwise_or
               (elementwise_or (lt_scalar hemoglobin 12%Q)
                               (gt_scalar hemoglobin 16%Q))
               (lt_scalar wbc 4%Q))
            (gt_scalar wbc 11%Q))
         (gt_scalar glucose 100%Q))
      (gt_scalar cholesterol 200%Q) in
  let y := if (2 <? sum_bool risk_factors)%Z then 1%Z else 0%Z in
  let X := column_stack [hemoglobin; wbc; rbc; platelets; glucose;
                         cholesterol; hdl; ldl; triglycerides] in
  (X, y).
End Synthetic.

(** *** [train_model] *)

Definition set_scaler (self : HealthRiskPredictor) (s : StandardScaler)
  : HealthRiskPredictor :=
  {| model := model self; scaler := s; is_trained := is_trained self |}.

Definition set_model (self : HealthRiskPredictor) (m : LogisticRegression)
  : HealthRiskPredictor :=
  {| model := Some m; scaler := scaler self; is_trained := is_trained self |}.

Definition set_is_trained (self : HealthRiskPredictor) (b : bool)
  : HealthRiskPredictor :=
  {| model := model self; scaler := scaler self; is_trained := b |}.

Section Training.
Variable rng : Type.
Variable seed : Z -> rng.
Variable normal : Q -> Q -> nat -> rng -> list Q * rng.

(** scikit-learn, as [train_model] calls it; every call may raise.
    [train_test_split] takes the matrix, the label as [prepare_data]
    returned it, [test_size] and [random_state]; [labels] is what it
    gives back for the label.  [fit_transform] and [fit] work in place:
    they return the fitted object, which takes the place of the old
    one; a call that raises is taken to leave its object as it was. *)
Variable labels : Type.
Variable train_test_split :
  matrix -> Z -> Q -> Z -> result (matrix * matrix * labels * labels).
Variable fit_transform :
  StandardScaler -> matrix -> result (matrix * StandardScaler).
Variable new_LogisticRegression : Z -> LogisticRegression.
Variable fit :
  LogisticRegression -> matrix -> labels -> result LogisticRegression.
Variable predict : LogisticRegression -> matrix -> result labels.
Variable accuracy_score : labels -> labels -> result Q.

(** The method returns the accuracy or raises; either way it leaves
    the predictor in the second component. *)
Definition train_model (self : HealthRiskPredictor)
  : result Q * HealthRiskPredictor :=
  let (X, y) := prepare_data rng seed normal in
  match train_test_split X y (1 # 5)%Q 42%Z with
  | Raise e => (Raise e, self)
  | Ok (X_train, X_test, y_train, y_test) =>
  match fit_transform (scaler self) X_train with
  | Raise e => (Raise e, self)
  | Ok (X_train_scaled, fitted_scaler) =>
  let self := set_scaler self fitted_scaler in
  match transform (scaler self) X_test with
  | Raise e => (Raise e, self)
  | Ok X_test_scaled =>
  let self := set_model self (new_LogisticRegression 42%Z) in
  match fit (new_LogisticRegression 42%Z) X_train_scaled y_train with
  | Raise e => (Raise e, self)
  | Ok fitted_model =>
  let self := set_model self fitted_model in
  match predict fitted_model X_test_scaled with
  | Raise e => (Raise e, self)
  | Ok y_pred =>
  match accuracy_score y_test y_pred with
  | Raise e => (Raise e, self)
  | Ok accuracy =>
  let self := set_is_trained self true in
  (Ok accuracy, self)
  end end end end end end.
End Training.

End ml_model.

(** ** [app/services/report_processing.py] *)

Module report_processing.
Import Py.

Record RangeInfo : Type := {
  min_val : Q;
  max_val : Q;
  range_unit : string
}.

Definition NORMAL_RANGES : dict RangeInfo :=
  [("Hemoglobin", {| min_val := 12%Q; max_val := 16%Q; range_unit := "g/dL" |});
   ("RBC", {| min_val := 4%Q; max_val := (11 # 2)%Q; range_unit := "million/μL" |});
   ("WBC", {| min_val := 4%Q; max_val := 11%Q; range_unit := "thousand/μL" |});
   ("Platelets", {| min_val := 150%Q; max_val := 450%Q; range_unit := "thousand/μL" |});
   ("Glucose", {| min_val := 70%Q; max_val := 100%Q; range_unit := "mg/dL" |});
   ("Cholesterol", {| min_val := 0%Q; max_val := 200%Q; range_unit := "mg/dL" |});
   ("HDL", {| min_val := 40%Q; max_val := 60%Q; range_unit := "mg/dL" |});
   ("LDL", {| min_val := 0%Q; max_val := 130%Q; range_unit := "mg/dL" |});
   ("Triglycerides", {| min_val := 0%Q; max_val := 150%Q; range_unit := "mg/dL" |})].

Record InsightInfo : Type := {
  info_insight : string;
  info_recommendation : string
}.

Definition HEALTH_INSIGHTS : dict (dict InsightInfo) :=
  [("Hemoglobin",
    [("low", {| info_insight := "Possible anemia";
                info_recommendation := "Consult a doctor for possible iron deficiency. Consider iron-rich foods like spinach, red meat, and legumes." |});
     ("high", {| info_insight := "Possible dehydration or other conditions";
                 info_recommendation := "Ensure adequate hydration and consult a doctor for further evaluation." |})]);
   ("Glucose",
    [("high", {| info_insight := "Risk of diabetes";
                 info_recommendation := "Monitor blood sugar levels. Reduce sugar intake and consult a doctor." |});
     ("low", {| info_insight := "Possible hypoglycemia";
                info_recommendation := "Eat regular meals and consult a doctor if symptoms persist." |})]);
   ("Cholesterol",
    [("high", {| info_insight := "Risk of cardiovascular disease";
                 info_recommendation := "Reduce saturated fat intake, exercise regularly, and consult a doctor." |})]);
   ("WBC",
    [("high", {| info_insight := "Possible infection or inflammation";
                 info_recommendation := "Monitor for signs of infection and consult a doctor if symptoms develop." |});
     ("low", {| info_insight := "Possible immune system issues";
                info_recommendation := "Avoid exposure to infections and consult a doctor." |})])].

(** The dictionaries that [classify_data] and [generate_insights] build. *)
Record ReportData : Type := {
  parameter : string;
  value : Q;
  unit : string;
  range_min : Q;
  range_max : Q;
  classification : string
}.

Record ReportInsight : Type := {
  insight_parameter : string;
  insight : string;
  recommendation : string
}.

(** *** [parse_medical_data] *)

(** The inner loop over [NORMAL_RANGES.keys()] for one line: the first
    name found in the line takes the first number of the line, if
    there is one, and the loop breaks. *)
Fixpoint scan_line (line : string) (params : list string) (data : dict Q)
  : result (dict Q) :=
  match params with
  | [] => Ok data
  | parameter :: rest =>
      if contains (lower parameter) (lower line) then
        match findall_number line with
        | first :: _ =>
            let* v := float first in
            Ok (set data parameter v)
        | [] => scan_line line rest data
        end
      else scan_line line rest data
  end.

(** The outer loop over the lines. *)
Fixpoint scan_lines (lines : list string) (data : dict Q) : result (dict Q) :=
  match lines with
  | [] => Ok data
  | line :: rest =>
      let* data' := scan_line line (keys NORMAL_RANGES) data in
      scan_lines rest data'
  end.

Definition parse_medical_data (text : string) : result (dict Q) :=
  scan_lines (split_newline text) [].

(** *** [classify_data] *)

(** The body of the loop over [data.items()]. *)
Definition classify_item (classified_data : list ReportData)
           (item : string * Q) : list ReportData :=
  let parameter := fst item in
  let value := snd item in
  match get NORMAL_RANGES parameter with
  | Some range_info =>
      let min_val := min_val range_info in
      let max_val := max_val range_info in
      let classification :=
        if Qltb value min_val then "Low"
        else if Qgtb value max_val then "High"
        else "Normal" in
      classified_data ++
        [{| parameter := parameter;
            value := value;
            unit := range_unit range_info;
            range_min := min_val;
            range_max := max_val;
            classification := classification |}]
  | None => classified_data
  end.

Definition classify_data (data : dict Q) : list ReportData :=
  fold_left classify_item data [].

(** *** [generate_insights] *)

(** [x in ["Low", "High"]] *)
Definition is_abnormal (classification : string) : bool :=
  existsb (String.eqb classification) ["Low"; "High"].

Fixpoint insights_loop (processed_data : list ReportData)
         (insights : list ReportInsight) : result (list ReportInsight) :=
  match processed_data with
  | [] => Ok insights
  | data :: rest =>
      let parameter := parameter data in
      let classification := classification data in
      if mem HEALTH_INSIGHTS parameter && is_abnormal classification then
        let* by_verdict := getitem HEALTH_INSIGHTS parameter in
        let* insight_info := getitem by_verdict (lower classification) in
        insights_loop rest
          (insights ++
             [{| insight_parameter := parameter;
                 insight := info_insight insight_info;
                 recommendation := info_recommendation insight_info |}])
      else insights_loop rest insights
  end.

Definition generate_insights (processed_data : list ReportData)
  : result (list ReportInsight) :=
  insights_loop processed_data [].

(** *** [calculate_risk_score] *)

(** With floats as rational numbers; the module [binary64] below gives
    the function with the rounding of double precision. *)
Definition calculate_risk_score (processed_data : list ReportData) : Q :=
  let total_parameters := List.length processed_data in
  if (total_parameters =? 0)%nat then 0%Q
  else
    let total_abnormal :=
      fold_left
        (fun (n : nat) data =>
           if is_abnormal (classification data) then (n + 1)%nat else n)
        processed_data 0%nat in
    let risk_score :=
      Qred ((inject_Z (Z.of_nat total_abnormal)
             / inject_Z (Z.of_nat total_parameters)) * 100)%Q in
    risk_score.

(** *** The pipeline *)

Section Pipeline.
(** The three extraction strategies read the file through OCR, the
    PDF library and pandas; the predictor is the module-level
    [health_predictor]. *)
Variable extract_text_from_image : string -> result string.
Variable extract_text_from_pdf : string -> result string.
Variable extract_text_from_csv : string -> result string.
Variable health_predictor : ml_model.HealthRiskPredictor.

Definition calculate_ml_risk_score (extracted_data : dict Q) : result Q :=
  try_except
    (let* risk_score := ml_model.predict_risk health_predictor extracted_data in
     Ok risk_score)
    (fun e => Ok 50%Q).

Definition process_report_file (file_path file_type : string)
  : result (list ReportData * list ReportInsight * Q) :=
  let* text :=
    if startswith file_type "image" then extract_text_from_image file_path
    else if String.eqb file_type "application/pdf" then extract_text_from_pdf file_path
    else if String.eqb file_type "text/csv" then extract_text_from_csv file_path
    else Raise (ValueError ("Unsupported file type: " ++ file_type)) in
  let* extracted_data := parse_medical_data text in
  let processed_data := classify_data extracted_data in
  let* insights := generate_insights processed_data in
  let* risk_score := calculate_ml_risk_score extracted_data in
  Ok (processed_data, insights, risk_score).
End Pipeline.

(** *** [generate_trends] *)

Record TrendEntry : Type := {
  date : string;
  trend_value : Q;
  trend_classification : string
}.

Section Trends.
(** [datetime] and its [isoformat] method. *)
Variable datetime : Type.
Variable isoformat : datetime -> string.

(** The two columns of the [Report] row that [generate_trends] reads;
    [processed_data] is nullable. *)
Record Report : Type := {
  created_at : datetime;
  processed_data : option (list ReportData)
}.

(** The inner loop over [report.processed_data]. *)
Definition add_report (trends : dict (list TrendEntry)) (report : Report)
           (items : list ReportData) : dict (list TrendEntry) :=
  fold_left
    (fun trends data =>
       let parameter := parameter data in
       let trends := if mem trends parameter then trends
                     else set trends parameter [] in
       let series := match get trends parameter with
                     | Some l => l
                     | None => []
                     end in
       set trends parameter
           (series ++ [{| date := isoformat (created_at report);
                          trend_value := value data;
                          trend_classification := classification data |}]))
    items trends.

Definition generate_trends (reports : list Report) : dict (list TrendEntry) :=
  fold_left
    (fun trends report =>
       match processed_data report with
       | Some (d :: ds) => add_report trends report (d :: ds)
       | _ => trends
       end)
    reports [].
End Trends.

Arguments created_at {datetime} r.
Arguments processed_data {datetime} r.
Arguments add_report {datetime} isoformat trends report items.
Arguments generate_trends {datetime} isoformat reports.

End report_processing.

(** ** [calculate_risk_score] in double precision *)

Module binary64.
Import report_processing.

(** Python's [float] is IEEE 754 binary64: 53 bits of precision,
    rounding to nearest, ties to even. *)
Definition prec : Z := 53.
Definition emax : Z := 1024.

Definition float : Type := spec_float.

(** [0.0] *)
Definition zero : float := S754_zero false.

(** The float of an int; the conversion is exact below [2 ^ 53], where
    the lengths of lists are. *)
Definition of_int (n : Z) : float := binary_normalize prec emax n 0 false.

Definition mul (x y : float) : float := SFmul prec emax x y.
Definition div (x y : float) : float := SFdiv prec emax x y.

(** [a / b] on two ints *)
Definition true_divide (a b : Z) : result float :=
  if (b =? 0)%Z then Raise (LibraryError "ZeroDivisionError")
  else Ok (div (of_int a) (of_int b)).

(** The rational number that a finite float denotes. *)
Definition value (x : float) : option Q :=
  match x with
  | S754_zero _ => Some 0%Q
  | S754_finite s m e =>
      Some ((if s then -1 else 1) * inject_Z (Zpos m) * Qpower 2 e)%Q
  | S754_infinity _ => None
  | S754_nan => None
  end.

Definition calculate_risk_score (processed_data : list ReportData)
  : result float :=
  let total_parameters := List.length processed_data in
  if (total_parameters =? 0)%nat then Ok zero
  else
    let total_abnormal :=
      fold_left
        (fun (n : nat) data =>
           if is_abnormal (classification data) then (n + 1)%nat else n)
        processed_data 0%nat in
    let* quotient :=
      true_divide (Z.of_nat total_abnormal) (Z.of_nat total_parameters) in
    let risk_score := mul quotient (of_int 100) in
    Ok risk_score.

End binary64.

(** ** [app/api/v1/reports.py] *)

Module reports.
Import Py.

Record UploadFile : Type := {
  filename : string;
  content_type : string
}.

(** The working directory, as the set of paths that exist. *)
Definition filesystem : Type := list string.

Definition exists_path (fs : filesystem) (path : string) : bool :=
  existsb (String.eqb path) fs.

(** A handler step: it may raise and it may change the file system;
    what it did to the file system before raising stays done. *)
Definition io (A : Type) : Type := filesystem -> result A * filesystem.

Definition io_ret {A : Type} (a : A) : io A := fun fs => (Ok a, fs).

Definition io_raise {A : Type} (e : exn) : io A := fun fs => (Raise e, fs).

Definition io_bind {A B : Type} (m : io A) (k : A -> io B) : io B :=
  fun fs =>
    match m fs with
    | (Ok a, fs') => k a fs'
    | (Raise e, fs') => (Raise e, fs')
    end.

Definition io_lift {A : Type} (r : result A) : io A := fun fs => (r, fs).

Definition io_try {A : Type} (m : io A) (h : exn -> io A) : io A :=
  fun fs =>
    match m fs with
    | (Ok a, fs') => (Ok a, fs')
    | (Raise e, fs') => h e fs'
    end.

Notation "'do' x '<-' m ';' k" := (io_bind m (fun x => k))
  (at level 10, x name, m at level 100, k at level 200).

(** [with open(path, "wb+") as f: f.write(...)] *)
Definition write_file (path : string) : io unit :=
  fun fs => (Ok tt, if exists_path fs path then fs else path :: fs).

(** [os.remove(path)] *)
Definition os_remove (path : string) : io unit :=
  fun fs =>
    if exists_path fs path
    then (Ok tt, filter (fun p => negb (String.eqb path p)) fs)
    else (Raise (LibraryError "FileNotFoundError"), fs).

Section Handler.
(** The persistence layer ([crud_report]) and the libraries behind
    the extraction strategies are collaborators of the handler. *)
Variable DbReport : Type.
Variable create_report : string -> string -> result DbReport.
Variable update_report_data :
  DbReport -> list report_processing.ReportData ->
  list report_processing.ReportInsight -> Q -> result DbReport.
Variable extract_text_from_image : string -> result string.
Variable extract_text_from_pdf : string -> result string.
Variable extract_text_from_csv : string -> result string.
Variable health_predictor : ml_model.HealthRiskPredictor.

Definition upload_report (file : UploadFile) : io DbReport :=
  let file_location := ("temp_" ++ filename file)%string in
  do _ <- write_file file_location;
  do db_report <- io_lift (create_report (filename file) (content_type file));
  io_try
    (do r <- io_lift (report_processing.process_report_file
                        extract_text_from_image extract_text_from_pdf
                        extract_text_from_csv health_predictor
                        file_location (content_type file));
     let '(processed_data, insights, risk_score) := r in
     do updated_report <- io_lift (update_report_data db_report processed_data
                                                      insights risk_score);
     do _ <- os_remove file_location;
     io_ret updated_report)
    (fun e =>
       do _ <- os_remove file_location;
       io_raise (HTTPException 500
                   ("Error processing report: " ++ str_exn e))).
End Handler.

End reports.

(* ================================================================== *)
(** * Part II: notions used to state the properties                    *)
(* ================================================================== *)

Module Spec.
Import Py report_processing.

(** *** Shape of the matches of [\d+\.?\d*] *)

Fixpoint all_digits (s : string) : bool :=
  match s with
  | EmptyString => true
  | String c s' => is_digit c && all_digits s'
  end.

(** What may follow the first digit of a match. *)
Fixpoint number_tail (s : string) : bool :=
  match s with
  | EmptyString => true
  | String c s' =>
      if is_digit c then number_tail s'
      else Ascii.eqb c "."%char && all_digits s'
  end.

Definition is_number (s : string) : bool :=
  match s with
  | EmptyString => false
  | String c s' => is_digit c && number_tail s'
  end.

(** *** Lines and what they contribute *)

(** [line] mentions the parameter name, whatever the case. *)
Definition mentions (line p : string) : bool :=
  contains (lower p) (lower line).

(** The known names in the order of the reference table. *)
Definition known_parameters : list string := keys NORMAL_RANGES.

(** The first name of the reference table that [line] mentions. *)
Definition first_mentioned (line : string) : option string :=
  find (mentions line) known_parameters.

(** [line] carries the numeric token whose value is [v]. *)
Definition first_number (line : string) (v : Q) : Prop :=
  exists tok toks, findall_number line = tok :: toks /\ float tok = Ok v.

(** [line] mentions [p] together with a numeric token of value [v]. *)
Definition offers (line p : string) (v : Q) : Prop :=
  mentions line p = true /\ first_number line v.

(** [line] gives [p] the value [v]: as [offers], and no name earlier
    in the reference table is mentioned by [line]. *)
Definition binds (line p : string) (v : Q) : Prop :=
  first_mentioned line = Some p /\ first_number line v.

(** The reading "first occurrence wins": if [p] is offered a value on
    a line, is offered none on the lines before it, and is offered a
    value again on a later line, the result holds the value of the
    first of these lines. *)
Definition first_occurrence_wins : Prop :=
  forall text before l1 after l2 p v1 v2,
    In p known_parameters ->
    split_newline text = before ++ l1 :: after ->
    (forall l v, In l before -> ~ offers l p v) ->
    offers l1 p v1 ->
    In l2 after -> offers l2 p v2 ->
    exists data, parse_medical_data text = Ok data /\ get data p = Some v1.

(** The example text of the specification: Glucose on the first and
    on the third line. *)
Definition glucose_twice : string :=
  "Glucose 90" ++ String newline ("..." ++ String newline "Glucose 300").

(** *** Classification *)

Definition Low : string := "Low".
Definition High : string := "High".
Definition Normal : string := "Normal".

(** The verdict for [v] against the range [[lo, hi]]. *)
Definition verdict_is (c : string) (v lo hi : Q) : Prop :=
  (c = Low <-> (v < lo)%Q) /\
  (c = High <-> (hi < v)%Q) /\
  (c = Normal <-> (lo <= v)%Q /\ (v <= hi)%Q).

(** The entry that the loop body appends for a known parameter. *)
Definition classified (p : string) (v : Q) (r : RangeInfo) : ReportData :=
  {| parameter := p;
     value := v;
     unit := range_unit r;
     range_min := min_val r;
     range_max := max_val r;
     classification :=
       if Qltb v (min_val r) then "Low"
       else if Qgtb v (max_val r) then "High"
       else "Normal" |}.

(** Number of entries classified Low or High. *)
Definition abnormal_count (l : list ReportData) : nat :=
  List.length
    (filter (fun d => String.eqb (classification d) Low
                      || String.eqb (classification d) High) l).

(** *** Insights *)

(** The knowledge base holds an entry for the pair. *)
Definition knowledge (p verdict : string) : option InsightInfo :=
  match get HEALTH_INSIGHTS p with
  | Some by_verdict => get by_verdict (lower verdict)
  | None => None
  end.

(** What one classified entry contributes to the insights: one
    insight when it is Low or High and the knowledge base has an entry
    for its parameter and verdict, nothing otherwise. *)
Definition insight_for (d : ReportData) : list ReportInsight :=
  if String.eqb (classification d) Low || String.eqb (classification d) High
  then match knowledge (parameter d) (classification d) with
       | Some info => [{| insight_parameter := parameter d;
                          insight := info_insight info;
                          recommendation := info_recommendation info |}]
       | None => []
       end
  else [].

(** A parameter of the knowledge base classified with a verdict for
    which the knowledge base has no entry. *)
Definition verdict_missing (d : ReportData) : bool :=
  mem HEALTH_INSIGHTS (parameter d)
  && is_abnormal (classification d)
  && match knowledge (parameter d) (classification d) with
     | Some _ => false
     | None => true
     end.

(** Cholesterol below its range, as [classify_data] reports it. *)
Definition cholesterol_low : ReportData :=
  {| parameter := "Cholesterol";
     value := (-1)%Q;
     unit := "mg/dL";
     range_min := 0%Q;
     range_max := 200%Q;
     classification := "Low" |}.

(** *** Extraction strategies *)

(** What an extraction strategy raises comes from the library it
    calls. *)
Definition library_errors (extract : string -> result string) : Prop :=
  forall path e, extract path = Raise e -> exists what, e = LibraryError what.

(** *** Trends *)

Section Trends.
Variable datetime : Type.
Variable isoformat : datetime -> string.

Definition items (r : Report datetime) : list ReportData :=
  match processed_data r with
  | Some l => l
  | None => []
  end.

Definition entry_of (r : Report datetime) (d : ReportData) : TrendEntry :=
  {| date := isoformat (created_at r);
     trend_value := value d;
     trend_classification := classification d |}.

Definition has_parameter (p : string) (d : ReportData) : bool :=
  String.eqb (parameter d) p.

(** A parameter with no entry is absent from the mapping. *)
Definition series (l : list TrendEntry) : option (list TrendEntry) :=
  match l with
  | [] => None
  | _ => Some l
  end.

(** The series of a parameter after more entries [es] came in. *)
Definition extend (o : option (list TrendEntry)) (es : list TrendEntry)
  : option (list TrendEntry) :=
  match es with
  | [] => o
  | _ => Some (match o with Some l => l | None => [] end ++ es)
  end.

(** Every item with parameter [p], report after report. *)
Definition entries_of (reports : list (Report datetime)) (p : string)
  : list TrendEntry :=
  flat_map (fun r => map (entry_of r) (filter (has_parameter p) (items r)))
           reports.

(** One entry for each report that contains [p], report after report. *)
Definition one_per_report (reports : list (Report datetime)) (p : string)
  : list TrendEntry :=
  flat_map (fun r => match find (has_parameter p) (items r) with
                     | Some d => [entry_of r d]
                     | None => []
                     end)
           reports.
End Trends.

Arguments items {datetime} r.
Arguments entry_of {datetime} isoformat r d.
Arguments entries_of {datetime} isoformat reports p.
Arguments one_per_report {datetime} isoformat reports p.

(** Three reports of one owner, each with Glucose; the time stamps are
    already in ISO format. *)
Definition three_reports : list (Report string) :=
  [{| created_at := "2024-01-05T09:00:00";
      processed_data := Some (classify_data [("Glucose", 90%Q); ("HDL", 45%Q)]) |};
   {| created_at := "2024-02-05T09:00:00";
      processed_data := Some (classify_data [("Glucose", 120%Q)]) |};
   {| created_at := "2024-02-05T09:00:00";
      processed_data := Some (classify_data [("WBC", 6%Q); ("Glucose", 60%Q)]) |}].

(** *** Synthetic batch *)

(** One of the six threshold rules fires on the sample [row] (the
    columns are hemoglobin, wbc, rbc, platelets, glucose, cholesterol,
    hdl, ldl, triglycerides). *)
Definition risk_factor (row : list Q) : bool :=
  match row with
  | hemoglobin :: wbc :: _ :: _ :: glucose :: cholesterol :: _ =>
      Qltb hemoglobin 12%Q || Qgtb hemoglobin 16%Q
      || Qltb wbc 4%Q || Qgtb wbc 11%Q
      || Qgtb glucose 100%Q
      || Qgtb cholesterol 200%Q
  | _ => false
  end.

(** A generator to run [prepare_data] with: its state counts the
    draws, and a draw returns the values [loc - 2 scale], [loc - scale],
    [loc], [loc + scale], [loc + 2 scale] in turn. *)
Definition cycle_normal (loc scale : Q) (size : nat) (g : nat) : list Q * nat :=
  (map (fun i => (loc + scale * (inject_Z (Z.of_nat (i mod 5)) - 2))%Q)
       (seq 0 size),
   S g).

(** *** Upload handler *)

Definition temp_path (file : reports.UploadFile) : string :=
  ("temp_" ++ reports.filename file)%string.

(** An upload and a predictor to run the handler with. *)
Definition pdf_upload : reports.UploadFile :=
  {| reports.filename := "report.pdf";
     reports.content_type := "application/pdf" |}.

Definition untrained : ml_model.HealthRiskPredictor :=
  {| ml_model.model := None;
     ml_model.scaler :=
       {| ml_model.transform := fun _ => Raise (LibraryError "NotFittedError") |};
     ml_model.is_trained := false |}.

(** *** The rule-based score in double precision *)

(** The score is the number [100 K / N]: read strictly, the float
    that the code returns denotes that rational number. *)
Definition score_is_ratio : Prop :=
  forall processed_data : list ReportData,
    processed_data <> [] ->
    exists x q,
      binary64.calculate_risk_score processed_data = Ok x
      /\ binary64.value x = Some q
      /\ (q == 100 * inject_Z (Z.of_nat (abnormal_count processed_data))
               / inject_Z (Z.of_nat (List.length processed_data)))%Q.

(** Read with the rounding that no float can avoid: the code returns
    the double nearest to [100 K / N], which is the quotient of the
    ints [100 * K] and [N]. *)
Definition score_is_nearest_ratio : Prop :=
  forall processed_data : list ReportData,
    processed_data <> [] ->
    binary64.calculate_risk_score processed_data
    = binary64.true_divide
        (100 * Z.of_nat (abnormal_count processed_data))
        (Z.of_nat (List.length processed_data)).

(** Twenty-five classified entries, seven of them High. *)
Definition seven_of_25 : list ReportData :=
  repeat (classified "Glucose" 120%Q
            {| min_val := 70%Q; max_val := 100%Q; range_unit := "mg/dL" |}) 7
  ++ repeat (classified "Glucose" 90%Q
               {| min_val := 70%Q; max_val := 100%Q; range_unit := "mg/dL" |}) 18.

(** The float [x] is within [tol] of the rational [q]. *)
Definition within (tol : Q) (x : binary64.float) (q : Q) : bool :=
  match binary64.value x with
  | Some v => Qle_bool (v - q) tol && Qle_bool (q - v) tol
  | None => false
  end.

(** [(K / N) * 100] as the code computes it. *)
Definition percentage (K N : nat) : binary64.float :=
  binary64.mul
    (binary64.div (binary64.of_int (Z.of_nat K)) (binary64.of_int (Z.of_nat N)))
    (binary64.of_int 100).

(** *** The label of the synthetic batch, and its training *)

(** How many of the six threshold rules fire on the sample [row]. *)
Definition rules_fired (row : list Q) : nat :=
  match row with
  | hemoglobin :: wbc :: _ :: _ :: glucose :: cholesterol :: _ =>
      List.length
        (filter (fun b : bool => b)
           [Qltb hemoglobin 12%Q; Qgtb hemoglobin 16%Q;
            Qltb wbc 4%Q; Qgtb wbc 11%Q;
            Qgtb glucose 100%Q;
            Qgtb cholesterol 200%Q])
  | _ => 0%nat
  end.

(** The triggering events of the six rules, summed over the batch. *)
Definition triggering_events (X : ml_model.matrix) : nat :=
  list_sum (map rules_fired X).

(** [np.random.normal(loc, scale, size)] draws [size] values. *)
Definition draws_size {rng : Type}
           (normal : Q -> Q -> nat -> rng -> list Q * rng) : Prop :=
  forall loc scale size g, List.length (fst (normal loc scale size g)) = size.

(** The label is 1 exactly when the triggering events of the batch
    are more than two. *)
Definition label_counts_events : Prop :=
  forall (rng : Type) (seed : Z -> rng)
         (normal : Q -> Q -> nat -> rng -> list Q * rng),
    draws_size normal ->
    (snd (ml_model.prepare_data rng seed normal) = 1%Z
     <-> (2 < triggering_events (fst (ml_model.prepare_data rng seed normal)))%nat).

(** Mean and standard deviation of the nine columns, in the order of
    the draws. *)
Definition columns : list (Q * Q) :=
  [(14%Q, 2%Q); ((15 # 2)%Q, 2%Q); ((47 # 10)%Q, (1 # 2)%Q);
   (300%Q, 100%Q); (90%Q, 20%Q); (180%Q, 50%Q);
   (50%Q, 15%Q); (100%Q, 40%Q); (120%Q, 60%Q)].

Section Draws.
Variable rng : Type.
Variable seed : Z -> rng.
Variable normal : Q -> Q -> nat -> rng -> list Q * rng.

(** One draw of [n_samples] values for each column, each draw from
    the state that the draw before it left. *)
Fixpoint draw_columns (specs : list (Q * Q)) (g : rng) : list (list Q) :=
  match specs with
  | [] => []
  | (loc, scale) :: rest =>
      let (col, g') := normal loc scale ml_model.n_samples g in
      col :: draw_columns rest g'
  end.

(** The columns of the batch: the generator is seeded with 42. *)
Definition draws : list (list Q) := draw_columns columns (seed 42%Z).
End Draws.

(** Sample [i] of the batch holds value [i] of every column. *)
Definition sample (cols : list (list Q)) (i : nat) : list Q :=
  map (fun col => nth i col 0%Q) cols.

Definition samples (cols : list (list Q)) : ml_model.matrix :=
  map (sample cols) (seq 0 ml_model.n_samples).

(** A generator whose first two values of a draw lie two standard
    deviations off the mean (below it for hemoglobin and wbc, above it
    for glucose and cholesterol) and whose other values are the mean. *)
Definition two_outliers (loc scale : Q) (size : nat) (g : nat) : list Q * nat :=
  (map (fun i => if (i <? 2)%nat
                 then if Qltb loc 50%Q then (loc - 2 * scale)%Q
                      else (loc + 2 * scale)%Q
                 else loc)
       (seq 0 size),
   S g).

(** A [train_test_split] that takes no scalar for the label, with the
    other calls of scikit-learn doing nothing. *)
Definition rejects_scalar (X : ml_model.matrix) (y : Z) (test_size : Q)
           (random_state : Z)
  : result (ml_model.matrix * ml_model.matrix * list Z * list Z) :=
  Raise (LibraryError "TypeError").

Definition idle_fit_transform (s : ml_model.StandardScaler) (X : ml_model.matrix)
  : result (ml_model.matrix * ml_model.StandardScaler) :=
  Ok (X, s).

Definition unfitted (random_state : Z) : ml_model.LogisticRegression :=
  {| ml_model.predict_proba := fun _ => Raise (LibraryError "NotFittedError") |}.

Definition idle_fit (m : ml_model.LogisticRegression) (X : ml_model.matrix)
           (y : list Z) : result ml_model.LogisticRegression :=
  Ok m.

Definition idle_predict (m : ml_model.LogisticRegression) (X : ml_model.matrix)
  : result (list Z) :=
  Ok (map (fun _ => 0%Z) X).

Definition idle_accuracy_score (y_true y_pred : list Z) : result Q :=
  Ok 1%Q.

End Spec.

(* ================================================================== *)
(** * Part II, continued: the rest of the sources                      *)
(* ================================================================== *)

(** ** [app/models/user.py] and [app/models/report.py] *)

(** The rows of the two tables, with the columns that the code below
    reads or writes. *)
Module models_user.

Record User : Type := {
  id : Z;
  email : string;
  first_name : string;
  last_name : string
}.

End models_user.

Module models_report.

Record Report (datetime : Type) : Type := {
  id : Z;
  user_id : Z;
  file_name : string;
  file_type : string;
  original_data : option (Py.dict string);
  processed_data : option (list report_processing.ReportData);
  insights : option (list report_processing.ReportInsight);
  risk_score : option Q;
  created_at : datetime
}.

Arguments id {datetime} r.
Arguments user_id {datetime} r.
Arguments file_name {datetime} r.
Arguments file_type {datetime} r.
Arguments original_data {datetime} r.
Arguments processed_data {datetime} r.
Arguments insights {datetime} r.
Arguments risk_score {datetime} r.
Arguments created_at {datetime} r.

(** The row as [generate_trends] reads it. *)
Definition as_trend_source {datetime : Type} (r : Report datetime)
  : report_processing.Report datetime :=
  {| report_processing.created_at := created_at r;
     report_processing.processed_data := processed_data r |}.

End models_report.

(** ** [app/crud/user.py] and [app/crud/report.py] *)

(** A table is the list of its rows; a query without [ORDER BY] is
    taken to return them in that order.  Failures of the database
    itself are not modelled. *)
Module crud_user.
Import models_user.

(** [db.query(User).filter(User.id == user_id).first()] *)
Definition get_user (db : list User) (user_id : Z) : option User :=
  find (fun u => (id u =? user_id)%Z) db.

(** [db.query(User).filter(User.email == email).first()] *)
Definition get_user_by_email (db : list User) (email : string) : option User :=
  find (fun u => String.eqb (models_user.email u) email) db.

(** [db.query(User).offset(skip).limit(limit).all()] *)
Definition get_users (db : list User) (skip limit : nat) : list User :=
  firstn limit (skipn skip db).

End crud_user.

Module crud_report.
Import models_report.

Section Crud.
Variable datetime : Type.

Definition get_report (db : list (Report datetime)) (report_id : Z)
  : option (Report datetime) :=
  find (fun r => (id r =? report_id)%Z) db.

Definition get_reports_by_user (db : list (Report datetime)) (user_id : Z)
           (skip limit : nat) : list (Report datetime) :=
  firstn limit
         (skipn skip (filter (fun r => (models_report.user_id r =? user_id)%Z) db)).

(** The assignments of [update_report_data] to the columns of one row:
    an argument that is [None] leaves its column alone. *)
Definition assign_columns (db_report : Report datetime)
           (original_data : option (Py.dict string))
           (processed_data : option (list report_processing.ReportData))
           (insights : option (list report_processing.ReportInsight))
           (risk_score : option Q) : Report datetime :=
  {| id := id db_report;
     user_id := models_report.user_id db_report;
     file_name := file_name db_report;
     file_type := file_type db_report;
     original_data :=
       match original_data with
       | Some v => Some v
       | None => models_report.original_data db_report
       end;
     processed_data :=
       match processed_data with
       | Some v => Some v
       | None => models_report.processed_data db_report
       end;
     insights :=
       match insights with
       | Some v => Some v
       | None => models_report.insights db_report
       end;
     risk_score :=
       match risk_score with
       | Some v => Some v
       | None => models_report.risk_score db_report
       end;
     created_at := created_at db_report |}.

(** The commit writes the columns to the rows with the primary key of
    the fetched row. *)
Definition update_report_data (db : list (Report datetime)) (report_id : Z)
           (original_data : option (Py.dict string))
           (processed_data : option (list report_processing.ReportData))
           (insights : option (list report_processing.ReportInsight))
           (risk_score : option Q)
  : option (Report datetime) * list (Report datetime) :=
  match get_report db report_id with
  | Some db_report =>
      (Some (assign_columns db_report original_data processed_data insights
                            risk_score),
       map (fun r =>
              if (id r =? id db_report)%Z
              then assign_columns r original_data processed_data insights risk_score
              else r)
           db)
  | None => (None, db)
  end.
End Crud.

Arguments get_report {datetime} db report_id.
Arguments get_reports_by_user {datetime} db user_id skip limit.
Arguments assign_columns {datetime} db_report original_data processed_data
  insights risk_score.
Arguments update_report_data {datetime} db report_id original_data
  processed_data insights risk_score.

End crud_report.

(** ** [app/api/deps.py] *)

Module deps.
Import models_user.

(** [JWTError] and its subclasses, as the library raises them. *)
Definition JWTError : exn := LibraryError "JWTError".

Definition is_JWTError (e : exn) : bool :=
  match e with
  | LibraryError what => String.eqb what "JWTError"
  | _ => false
  end.

Definition credentials_exception : exn :=
  HTTPException 401 "Could not validate credentials".

Section Deps.
(** [jwt.decode(token, settings.SECRET_KEY, algorithms=[settings.ALGORITHM])],
    with the claims of the payload as strings. *)
Variable jwt_decode : string -> result (Py.dict string).

Definition get_current_user (db : list User) (token : string) : result User :=
  let* email :=
    match (let* payload := jwt_decode token in
           match Py.get payload "sub" with
           | None => Raise credentials_exception
           | Some email => Ok email
           end) with
    | Ok email => Ok email
    | Raise e => if is_JWTError e then Raise credentials_exception else Raise e
    end in
  match crud_user.get_user_by_email db email with
  | None => Raise credentials_exception
  | Some user => Ok user
  end.
End Deps.

End deps.

(** ** [app/api/v1/users.py] *)

Module users.

Definition read_users (db : list models_user.User) (skip limit : nat)
  : list models_user.User :=
  crud_user.get_users db skip limit.

Definition read_user (db : list models_user.User) (user_id : Z)
  : result models_user.User :=
  match crud_user.get_user db user_id with
  | None => Raise (HTTPException 404 "User not found")
  | Some db_user => Ok db_user
  end.

End users.

(** ** [generate_pdf_report] of [app/services/report_processing.py] *)

Module report_rendering.
Import report_processing.

(** The flowables of the story; the table style is the same for every
    table and is left out. *)
Inductive Flowable : Type :=
| Paragraph (text style : string)
| Spacer (width height : Z)
| Table (data : list (list string)).

Section Rendering.
Variable datetime : Type.
(** [str] on the id, on the time stamp and on a float, and the format
    [.2f]. *)
Variable str_int : Z -> string.
Variable str_datetime : datetime -> string.
Variable str_float : Q -> string.
Variable format_2f : Q -> string.
(** [doc.build(story)] followed by [buffer.getvalue()]. *)
Variable build : list Flowable -> result string.

Definition table_row (item : ReportData) : list string :=
  [parameter item;
   str_float (value item);
   unit item;
   (str_float (range_min item) ++ "-" ++ str_float (range_max item))%string;
   classification item].

Definition insight_flowables (insight : ReportInsight) : list Flowable :=
  [Paragraph ("<b>" ++ insight_parameter insight ++ ":</b> "
              ++ report_processing.insight insight)%string "Normal";
   Paragraph ("Recommendation: " ++ recommendation insight)%string "Italic";
   Spacer 1 6].

(** The story as the appends build it. *)
Definition story_of (report : models_report.Report datetime) : list Flowable :=
  let story :=
    [Paragraph "Health Analytics Report" "Title";
     Spacer 1 12;
     Paragraph ("Report ID: " ++ str_int (models_report.id report)
                ++ " | Date: " ++ str_datetime (models_report.created_at report))%string
               "Normal";
     Spacer 1 12] in
  let story :=
    match models_report.processed_data report with
    | Some (item :: items) =>
        let data :=
          ["Parameter"; "Value"; "Unit"; "Range"; "Classification"]
          :: map table_row (item :: items) in
        story ++ [Paragraph "Test Results" "Heading2"; Table data; Spacer 1 12]
    | _ => story
    end in
  let story :=
    match models_report.insights report with
    | Some (insight :: insights) =>
        (story ++ [Paragraph "Health Insights" "Heading2"])
        ++ flat_map insight_flowables (insight :: insights)
    | _ => story
    end in
  let story :=
    match models_report.risk_score report with
    | Some risk_score =>
        story ++ [Paragraph "Risk Score" "Heading2";
                  Paragraph ("Overall Risk Score: " ++ format_2f risk_score ++ "%")%string
                            "Normal"]
    | None => story
    end in
  story.

Definition generate_pdf_report (report : models_report.Report datetime)
  : result string :=
  build (story_of report).
End Rendering.

Arguments story_of {datetime} str_int str_datetime str_float format_2f report.
Arguments generate_pdf_report {datetime} str_int str_datetime str_float format_2f
  build report.

End report_rendering.

(** ** The other handlers of [app/api/v1/reports.py] *)

Module report_routes.
Import models_report.

Record ReportHistory (datetime : Type) : Type := {
  reports : list (Report datetime);
  trends : Py.dict (list report_processing.TrendEntry)
}.

Arguments reports {datetime} r.
Arguments trends {datetime} r.

Record Response : Type := {
  content : string;
  media_type : string;
  headers : Py.dict string
}.

Section Routes.
Variable datetime : Type.
Variable isoformat : datetime -> string.
Variable str_int : Z -> string.
Variable str_datetime : datetime -> string.
Variable str_float : Q -> string.
Variable format_2f : Q -> string.
Variable build : list report_rendering.Flowable -> result string.

Definition read_report (db : list (Report datetime)) (report_id : Z)
           (current_user : models_user.User) : result (Report datetime) :=
  match crud_report.get_report db report_id with
  | None => Raise (HTTPException 404 "Report not found")
  | Some db_report =>
      if negb (user_id db_report =? models_user.id current_user)%Z
      then Raise (HTTPException 403 "Not authorized to access this report")
      else Ok db_report
  end.

Definition get_report_history (db : list (Report datetime))
           (current_user : models_user.User) : ReportHistory datetime :=
  let db_reports :=
    crud_report.get_reports_by_user db (models_user.id current_user) 0 100 in
  let trends :=
    report_processing.generate_trends isoformat (map as_trend_source db_reports) in
  {| reports := db_reports; trends := trends |}.

Definition download_report (db : list (Report datetime)) (report_id : Z)
           (current_user : models_user.User) : result Response :=
  match crud_report.get_report db report_id with
  | None => Raise (HTTPException 404 "Report not found")
  | Some db_report =>
      if negb (user_id db_report =? models_user.id current_user)%Z
      then Raise (HTTPException 403 "Not authorized to access this report")
      else
        let* pdf_data :=
          report_rendering.generate_pdf_report str_int str_datetime str_float
            format_2f build db_report in
        Ok {| content := pdf_data;
              media_type := "application/pdf";
              headers :=
                [("Content-Disposition",
                  ("attachment; filename=report_" ++ str_int report_id ++ ".pdf")%string)] |}
  end.
End Routes.

Arguments read_report {datetime} db report_id current_user.
Arguments get_report_history {datetime} isoformat db current_user.
Arguments download_report {datetime} str_int str_datetime str_float format_2f
  build db report_id current_user.

End report_routes.

(** ** [save_model] and [load_model] of [app/utils/ml_model.py] *)

Module model_store.
Import ml_model.

(** The dictionary that [save_model] dumps. *)
Record model_data : Type := {
  stored_model : option LogisticRegression;
  stored_scaler : StandardScaler;
  stored_is_trained : bool
}.

(** The files that [joblib] wrote, by path; [joblib.load] gives back
    what [joblib.dump] was given. *)
Definition disk : Type := Py.dict model_data.

Definition save_model (self : HealthRiskPredictor) (filepath : string)
           (files : disk) : disk :=
  if is_trained self
     && match model self with Some _ => true | None => false end
  then Py.set files filepath
              {| stored_model := model self;
                 stored_scaler := scaler self;
                 stored_is_trained := is_trained self |}
  else files.

Definition load_model (self : HealthRiskPredictor) (filepath : string)
           (files : disk) : result HealthRiskPredictor :=
  match Py.get files filepath with
  | None => Raise (LibraryError "FileNotFoundError")
  | Some data =>
      Ok {| model := stored_model data;
            scaler := stored_scaler data;
            is_trained := stored_is_trained data |}
  end.

End model_store.

(** ** [load_env] of [init_db.py] *)

Module init_db.
Import Py.

(** [str.isspace] on an ASCII character *)
Definition is_space (c : ascii) : bool :=
  let n := nat_of_ascii c in
  ((9 <=? n)%nat && (n <=? 13)%nat)
  || ((28 <=? n)%nat && (n <=? 32)%nat).

Fixpoint lstrip (s : string) : string :=
  match s with
  | EmptyString => EmptyString
  | String c s' => if is_space c then lstrip s' else s
  end.

Fixpoint rstrip (s : string) : string :=
  match s with
  | EmptyString => EmptyString
  | String c s' =>
      match rstrip s' with
      | EmptyString => if is_space c then EmptyString else String c EmptyString
      | r => String c r
      end
  end.

(** [s.strip()] *)
Definition strip (s : string) : string := lstrip (rstrip s).

(** [s.split("=", 1)] *)
Fixpoint split_once (s : string) : list string :=
  match s with
  | EmptyString => [EmptyString]
  | String c s' =>
      if Ascii.eqb c "="%char then [EmptyString; s']
      else match split_once s' with
           | first :: rest => String c first :: rest
           | [] => [String c EmptyString]
           end
  end.

(** The lines that iterating over a text file yields, each with its
    newline. *)
Fixpoint file_lines (s : string) : list string :=
  match s with
  | EmptyString => []
  | String c s' =>
      if Ascii.eqb c newline then String c EmptyString :: file_lines s'
      else match file_lines s' with
           | l :: ls => String c l :: ls
           | [] => [String c EmptyString]
           end
  end.

Fixpoint has_nul (s : string) : bool :=
  match s with
  | EmptyString => false
  | String c s' => Ascii.eqb c zero || has_nul s'
  end.

(** [os.environ[key] = value], with the checks of [putenv]. *)
Definition environ_setitem (environ : dict string) (key value : string)
  : result (dict string) :=
  if has_nul key || has_nul value
  then Raise (ValueError "embedded null byte")
  else if String.eqb key EmptyString || contains "=" key
  then Raise (ValueError "illegal environment variable name")
  else Ok (set environ key value).

(** The loop over the lines; what was assigned before an exception
    stays assigned. *)
Fixpoint load_lines (lines : list string) (environ : dict string)
  : result unit * dict string :=
  match lines with
  | [] => (Ok tt, environ)
  | line :: rest =>
      if negb (String.eqb (strip line) EmptyString) && negb (startswith line "#")
      then
        match split_once (strip line) with
        | [key; value] =>
            match environ_setitem environ key value with
            | Ok environ' => load_lines rest environ'
            | Raise e => (Raise e, environ)
            end
        | _ =>
            (Raise (ValueError "not enough values to unpack (expected 2, got 1)"),
             environ)
        end
      else load_lines rest environ
  end.

(** [dotenv] is the content of the file [.env], [None] when there is
    no such file. *)
Definition load_env (dotenv : option string) (environ : dict string)
  : result unit * dict string :=
  match dotenv with
  | Some content => load_lines (file_lines content) environ
  | None => (Ok tt, environ)
  end.

End init_db.

(** ** Further notions used to state properties *)

Module Notions.
Import Py report_processing Spec.

(** *** Further notions on texts *)

(** [s] holds a digit. *)
Fixpoint has_digit (s : string) : bool :=
  match s with
  | EmptyString => false
  | String c s' => is_digit c || has_digit s'
  end.

(** The value that wins when a later source may override an earlier one. *)
Definition override {V : Type} (later earlier : option V) : option V :=
  match later with
  | Some v => Some v
  | None => earlier
  end.

(** *** Further notions on insights and scores *)

(** The entry is Low or High and its parameter is in the knowledge base. *)
Definition wants_insight (d : ReportData) : bool :=
  mem HEALTH_INSIGHTS (parameter d) && is_abnormal (classification d).

(** What [process_report_file] gives once the selected strategy has
    run: its exception as it is, or the analysis of its text. *)
Definition after_extraction (hp : ml_model.HealthRiskPredictor)
           (extracted : result string)
           (outcome : result (list ReportData * list ReportInsight * Q)) : Prop :=
  match extracted with
  | Raise e => outcome = Raise e
  | Ok text =>
      exists data score,
        parse_medical_data text = Ok data
        /\ calculate_ml_risk_score hp data = Ok score
        /\ outcome = Ok (classify_data data,
                         flat_map insight_for (classify_data data), score)
  end.

(** *** The upload handler and its collaborators *)

Record Collaborators (DbReport : Type) : Type := {
  the_create_report : string -> string -> result DbReport;
  the_update_report_data :
    DbReport -> list ReportData -> list ReportInsight -> Q -> result DbReport;
  the_image_strategy : string -> result string;
  the_pdf_strategy : string -> result string;
  the_csv_strategy : string -> result string;
  the_predictor : ml_model.HealthRiskPredictor
}.

Arguments the_create_report {DbReport} c.
Arguments the_update_report_data {DbReport} c.
Arguments the_image_strategy {DbReport} c.
Arguments the_pdf_strategy {DbReport} c.
Arguments the_csv_strategy {DbReport} c.
Arguments the_predictor {DbReport} c.

(** [upload_report] with these collaborators. *)
Definition run_upload {DbReport : Type} (w : Collaborators DbReport)
           (file : reports.UploadFile) (fs : reports.filesystem)
  : result DbReport * reports.filesystem :=
  reports.upload_report DbReport (the_create_report w) (the_update_report_data w)
    (the_image_strategy w) (the_pdf_strategy w) (the_csv_strategy w)
    (the_predictor w) file fs.

(** The call of [process_report_file] that the handler makes. *)
Definition run_pipeline {DbReport : Type} (w : Collaborators DbReport)
           (file : reports.UploadFile)
  : result (list ReportData * list ReportInsight * Q) :=
  process_report_file (the_image_strategy w) (the_pdf_strategy w)
    (the_csv_strategy w) (the_predictor w) (temp_path file)
    (reports.content_type file).

(** A working database, a PDF library that reads one line, and no
    trained model. *)
Definition plain_world : Collaborators nat :=
  {| the_create_report := fun _ _ => Ok 1%nat;
     the_update_report_data := fun r _ _ _ => Ok r;
     the_image_strategy := fun _ => Ok "";
     the_pdf_strategy := fun _ => Ok "Glucose 90";
     the_csv_strategy := fun _ => Ok "";
     the_predictor := untrained |}.

(** *** A small database *)

Definition alice : models_user.User :=
  {| models_user.id := 7; models_user.email := "alice@example.org";
     models_user.first_name := "Alice"; models_user.last_name := "A" |}.

Definition bob : models_user.User :=
  {| models_user.id := 8; models_user.email := "bob@example.org";
     models_user.first_name := "Bob"; models_user.last_name := "B" |}.

(** A report of Alice that was processed and one of Bob that was not. *)
Definition report_of_alice : models_report.Report string :=
  {| models_report.id := 1;
     models_report.user_id := 7;
     models_report.file_name := "january.pdf";
     models_report.file_type := "application/pdf";
     models_report.original_data := Some [("file_name", "january.pdf")];
     models_report.processed_data := Some (classify_data [("Glucose", 250%Q)]);
     models_report.insights := Some (flat_map insight_for (classify_data [("Glucose", 250%Q)]));
     models_report.risk_score := Some 50%Q;
     models_report.created_at := "2024-01-05T09:00:00" |}.

Definition report_of_bob : models_report.Report string :=
  {| models_report.id := 2;
     models_report.user_id := 8;
     models_report.file_name := "scan.png";
     models_report.file_type := "image/png";
     models_report.original_data := None;
     models_report.processed_data := None;
     models_report.insights := None;
     models_report.risk_score := None;
     models_report.created_at := "2024-01-06T10:30:00" |}.

Definition small_table : list (models_report.Report string) :=
  [report_of_alice; report_of_bob].

(** *** Rendering *)

Definition table_header : list string :=
  ["Parameter"; "Value"; "Unit"; "Range"; "Classification"].

(** How many flowables a section adds to the story. *)
Definition results_size (processed_data : option (list ReportData)) : nat :=
  match processed_data with
  | Some (_ :: _) => 3
  | _ => 0
  end.

Definition insights_size (insights : option (list ReportInsight)) : nat :=
  match insights with
  | Some (i :: l) => 1 + 3 * List.length (i :: l)
  | _ => 0
  end.

Definition score_size (risk_score : option Q) : nat :=
  match risk_score with
  | Some _ => 2
  | None => 0
  end.

(** A predictor that was trained: its model gives the high-risk class
    the probability 1/4. *)
Definition trained : ml_model.HealthRiskPredictor :=
  {| ml_model.model :=
       Some {| ml_model.predict_proba := fun _ => Ok [[(3 # 4)%Q; (1 # 4)%Q]] |};
     ml_model.scaler := {| ml_model.transform := fun m => Ok m |};
     ml_model.is_trained := true |}.

(** *** Lines of an environment file *)

(** [line] is read as the assignment of [value] to [key]: it is not
    blank, it does not start with "#", and without the blanks at its
    ends it is [key], the first "=", and [value]. *)
Definition assigns (line key value : string) : Prop :=
  init_db.strip line <> EmptyString
  /\ startswith line "#" = false
  /\ init_db.strip line = (key ++ String "="%char value)%string
  /\ contains "=" key = false.

(** [line] is skipped: it is blank or starts with "#". *)
Definition skipped (line : string) : bool :=
  String.eqb (init_db.strip line) EmptyString || startswith line "#".

End Notions.

(* ================================================================== *)
(** * Part III: properties                                             *)
(* ================================================================== *)

Import Py report_processing Spec.

(** ** The error monad *)

Lemma bind_Ok {A B : Type} (m : result A) (k : A -> result B) (b : B) :
  bind m k = Ok b -> exists a, m = Ok a /\ k a = Ok b.
Proof.
  destruct m as [a | e]; simpl; intros H.
  - exists a. split; [reflexivity | exact H].
  - discriminate H.
Qed.

(** ** Dictionaries *)

Lemma get_set_same {V : Type} (d : dict V) (k : string) (v : V) :
  get (set d k v) k = Some v.
Proof.
  induction d as [| [k' v'] d IH]; simpl.
  - now rewrite String.eqb_refl.
  - destruct (String.eqb k' k) eqn:E; simpl; rewrite E; auto.
Qed.

Lemma get_set_other {V : Type} (d : dict V) (k k' : string) (v : V) :
  k <> k' -> get (set d k v) k' = get d k'.
Proof.
  intros Hne. induction d as [| [k0 v0] d IH]; simpl.
  - destruct (String.eqb k k') eqn:E; [| reflexivity].
    apply String.eqb_eq in E. contradiction.
  - destruct (String.eqb k0 k) eqn:E; simpl.
    + apply String.eqb_eq in E. subst k0.
      destruct (String.eqb k k') eqn:E'; [| reflexivity].
      apply String.eqb_eq in E'. contradiction.
    + destruct (String.eqb k0 k'); auto.
Qed.

Lemma get_In {V : Type} (d : dict V) (k : string) (v : V) :
  get d k = Some v -> In (k, v) d.
Proof.
  induction d as [| [k' v'] d IH]; simpl; [discriminate |].
  destruct (String.eqb k' k) eqn:E.
  - apply String.eqb_eq in E. intros [= ->]. subst. now left.
  - intros H. right. auto.
Qed.

Lemma In_set {V : Type} (d : dict V) (k : string) (v : V) (x : string * V) :
  In x (set d k v) -> x = (k, v) \/ In x d.
Proof.
  induction d as [| [k' v'] d IH]; simpl.
  - intros [H | []]. now left.
  - destruct (String.eqb k' k) eqn:E; simpl.
    + apply String.eqb_eq in E. subst k'. intros [H | H]; auto.
    + intros [H | H]; auto. destruct (IH H); auto.
Qed.

(** ** Numeric tokens *)

Lemma scan_shape (s : string) :
  forall m,
    (match m with
     | Idle => fst (scan m s) = EmptyString
     | IntPart => number_tail (fst (scan m s)) = true
     | FracPart => all_digits (fst (scan m s)) = true
     end)
    /\ Forall (fun t => is_number t = true) (snd (scan m s)).
Proof.
  induction s as [| c s IH]; intros m.
  - destruct m; simpl; auto.
  - pose proof (IH Idle) as [_ HI].
    pose proof (IH IntPart) as [HtN HfN].
    pose proof (IH FracPart) as [HtF HfF].
    destruct m; simpl.
    + destruct (is_digit c) eqn:D.
      * destruct (scan IntPart s) as [t ts]; simpl in *. split; [reflexivity |].
        constructor; [| assumption]. simpl. now rewrite D.
      * exact (IH Idle).
    + destruct (is_digit c) eqn:D.
      * destruct (scan IntPart s) as [t ts]; simpl in *. now rewrite D.
      * destruct (Ascii.eqb c ".") eqn:E.
        -- destruct (scan FracPart s) as [t ts]; simpl in *.
           now rewrite D, E.
        -- simpl. auto.
    + destruct (is_digit c) eqn:D.
      * destruct (scan FracPart s) as [t ts]; simpl in *. now rewrite D.
      * simpl. auto.
Qed.

Lemma findall_number_shape (s : string) :
  Forall (fun t => is_number t = true) (findall_number s).
Proof. exact (proj2 (scan_shape s Idle)). Qed.

Lemma digit_is_no_sign (c : ascii) (s : string) :
  is_digit c = true -> float (String c s) = unsigned_float (String c s).
Proof.
  destruct c as [[] [] [] [] [] [] [] []]; intros H;
    try discriminate H; reflexivity.
Qed.

Lemma digit_is_no_dot (c : ascii) :
  is_digit c = true -> Ascii.eqb c "." = false.
Proof.
  destruct c as [[] [] [] [] [] [] [] []]; intros H;
    try discriminate H; reflexivity.
Qed.

Lemma digit_value_nonneg (c : ascii) : (0 <= digit_value c)%Z.
Proof. unfold digit_value. lia. Qed.

Lemma read_digits_all (s : string) :
  forall acc, all_digits s = true -> (0 <= acc)%Z ->
              exists n, read_digits acc s = Some n /\ (0 <= n)%Z.
Proof.
  induction s as [| c s IH]; cbn [read_digits all_digits]; intros acc Hd Hacc.
  - eauto.
  - apply andb_true_iff in Hd as [Hc Hs]. rewrite Hc.
    apply IH; [assumption |]. pose proof (digit_value_nonneg c). lia.
Qed.

Lemma all_digits_app (a b : string) :
  all_digits a = true -> all_digits b = true -> all_digits (a ++ b) = true.
Proof.
  induction a as [| c a IH]; simpl; intros Ha Hb; [assumption |].
  apply andb_true_iff in Ha as [Hc Ha]. rewrite Hc. simpl. auto.
Qed.

Lemma cut_dot_tail (s : string) :
  number_tail s = true ->
  all_digits (fst (cut_dot s)) = true
  /\ all_digits (match snd (cut_dot s) with Some f => f | None => EmptyString end) = true.
Proof.
  induction s as [| c s IH]; simpl; intros H; [auto |].
  destruct (is_digit c) eqn:D.
  - rewrite (digit_is_no_dot c D).
    destruct (cut_dot s) as [a b]; simpl in *. rewrite D. simpl. auto.
  - apply andb_true_iff in H as [E Hs]. rewrite E. simpl. auto.
Qed.

Lemma Qred_nonneg (n : Z) (d : positive) :
  (0 <= n)%Z -> (0 <= Qred (n # d))%Q.
Proof.
  intros H. rewrite Qred_correct. unfold Qle. simpl. lia.
Qed.

Lemma float_number (t : string) :
  is_number t = true -> exists v, float t = Ok v /\ (0 <= v)%Q.
Proof.
  destruct t as [| c t]; [discriminate |].
  cbn [is_number]. intros H. apply andb_true_iff in H as [D Ht].
  rewrite (digit_is_no_sign c t D). unfold unsigned_float.
  cbn [cut_dot]. rewrite (digit_is_no_dot c D).
  destruct (cut_dot_tail t Ht) as [Ha Hb].
  destruct (cut_dot t) as [a b]; cbn [fst snd] in *.
  cbn [String.length Nat.add String.append read_digits]. rewrite D.
  destruct (read_digits_all (a ++ match b with Some f => f | None => "" end)
              (10 * 0 + digit_value c)%Z) as [n [Hn Hpos]].
  - now apply all_digits_app.
  - pose proof (digit_value_nonneg c). lia.
  - rewrite Hn. eexists. split; [reflexivity |]. now apply Qred_nonneg.
Qed.
(** ** [parse_medical_data] *)

Lemma scan_line_find (line : string) (params : list string) (data : dict Q) :
  scan_line line params data =
  match find (mentions line) params, findall_number line with
  | Some p, tok :: _ => let* v := float tok in Ok (set data p v)
  | _, _ => Ok data
  end.
Proof.
  induction params as [| q params IH]; cbn [scan_line find].
  - reflexivity.
  - unfold mentions at 1. destruct (contains (lower q) (lower line)).
    + destruct (findall_number line) as [| tok toks] eqn:E; [| reflexivity].
      rewrite IH. now destruct (find (mentions line) params).
    + exact IH.
Qed.

(** A line either gives one parameter a non-negative value or leaves
    the dictionary as it is; it never raises. *)
Lemma scan_line_cases (line : string) (data : dict Q) :
  (exists p v, binds line p v /\ (0 <= v)%Q
               /\ scan_line line known_parameters data = Ok (set data p v))
  \/ ((forall p v, ~ binds line p v)
      /\ scan_line line known_parameters data = Ok data).
Proof.
  rewrite scan_line_find. fold (first_mentioned line).
  destruct (first_mentioned line) as [p |] eqn:F.
  - destruct (findall_number line) as [| tok toks] eqn:E.
    + right. split; [| reflexivity].
      intros q v [_ [tok [toks [H _]]]]. rewrite E in H. discriminate H.
    + left. pose proof (findall_number_shape line) as S. rewrite E in S.
      inversion S as [| ? ? Htok _]; subst.
      destruct (float_number tok Htok) as [v [Hv Hpos]].
      exists p, v. rewrite Hv. repeat split; auto.
      exists tok, toks. auto.
  - right. split.
    + intros q v [H _]. rewrite F in H. discriminate H.
    + now destruct (findall_number line).
Qed.

Lemma scan_lines_app (a b : list string) (data : dict Q) :
  scan_lines (a ++ b) data = let* d := scan_lines a data in scan_lines b d.
Proof.
  revert data. induction a as [| l a IH]; intros data; cbn [scan_lines app].
  - reflexivity.
  - destruct (scan_line l (keys NORMAL_RANGES) data) as [d | e]; simpl; auto.
Qed.

Lemma scan_lines_total (lines : list string) :
  forall data, exists data', scan_lines lines data = Ok data'.
Proof.
  induction lines as [| l lines IH]; intros data; cbn [scan_lines].
  - eauto.
  - destruct (scan_line_cases l data) as [[p [v [_ [_ H]]]] | [_ H]];
      unfold known_parameters in H; rewrite H; simpl; apply IH.
Qed.

Lemma scan_lines_nonneg (lines : list string) :
  forall data data',
    (forall p v, In (p, v) data -> (0 <= v)%Q) ->
    scan_lines lines data = Ok data' ->
    forall p v, In (p, v) data' -> (0 <= v)%Q.
Proof.
  induction lines as [| l lines IH]; intros data data' Hd; cbn [scan_lines].
  - intros [= <-]. exact Hd.
  - destruct (scan_line_cases l data) as [[q [w [_ [Hw H]]]] | [_ H]];
      unfold known_parameters in H; rewrite H; simpl; apply IH; auto.
    intros p v Hin. apply In_set in Hin as [[= -> ->] | Hin]; eauto.
Qed.

(** Lines that give [p] no value leave the value of [p] alone. *)
Lemma scan_lines_keep (lines : list string) (p : string) :
  (forall l v, In l lines -> ~ binds l p v) ->
  forall data data',
    scan_lines lines data = Ok data' -> get data' p = get data p.
Proof.
  induction lines as [| l lines IH]; intros Hno data data'; cbn [scan_lines].
  - now intros [= <-].
  - assert (Hrest : forall l' v, In l' lines -> ~ binds l' p v)
      by (intros l' v Hin; apply Hno; now right).
    destruct (scan_line_cases l data) as [[q [w [Hb [_ H]]]] | [_ H]];
      unfold known_parameters in H; rewrite H; simpl; intros Hs.
    + rewrite (IH Hrest _ _ Hs). apply get_set_other.
      intros ->. apply (Hno l w); [now left | exact Hb].
    + exact (IH Hrest _ _ Hs).
Qed.

Lemma parse_medical_data_total (text : string) :
  exists data, parse_medical_data text = Ok data.
Proof. apply scan_lines_total. Qed.

(** ** [classify_data] *)

Lemma Qltb_lt (x y : Q) : Qltb x y = true <-> (x < y)%Q.
Proof.
  unfold Qltb. rewrite negb_true_iff. split.
  - intros H. apply Qnot_le_lt. intros Hle.
    apply Qle_bool_iff in Hle. congruence.
  - intros H. destruct (Qle_bool y x) eqn:E; [| reflexivity].
    apply Qle_bool_iff in E. exfalso. exact (Qlt_not_le _ _ H E).
Qed.

Lemma Qltb_ge (x y : Q) : Qltb x y = false <-> (y <= x)%Q.
Proof.
  unfold Qltb. rewrite negb_false_iff. apply Qle_bool_iff.
Qed.

(** Every range of the reference table has [min <= max]. *)
Lemma NORMAL_RANGES_ordered (p : string) (r : RangeInfo) :
  get NORMAL_RANGES p = Some r -> (min_val r <= max_val r)%Q.
Proof.
  unfold NORMAL_RANGES. cbn [get].
  repeat match goal with
         | |- context [String.eqb ?a p] => destruct (String.eqb a p)
         end;
    intros [= <-] || discriminate; cbn; unfold Qle; cbn; lia.
Qed.

Lemma classify_item_known (acc : list ReportData) (p : string) (v : Q) (r : RangeInfo) :
  get NORMAL_RANGES p = Some r ->
  classify_item acc (p, v) = acc ++ [classified p v r].
Proof. unfold classify_item. cbn [fst snd]. now intros ->. Qed.

Lemma classify_item_unknown (acc : list ReportData) (p : string) (v : Q) :
  get NORMAL_RANGES p = None -> classify_item acc (p, v) = acc.
Proof. unfold classify_item. cbn [fst snd]. now intros ->. Qed.

Lemma classify_fold_In (data : dict Q) :
  forall acc c,
    In c (fold_left classify_item data acc) <->
    In c acc \/ exists p v r, In (p, v) data
                              /\ get NORMAL_RANGES p = Some r
                              /\ c = classified p v r.
Proof.
  induction data as [| [p v] data IH]; intros acc c; cbn [fold_left].
  - split; [auto |]. intros [H | [? [? [? [[] _]]]]]. exact H.
  - rewrite IH. destruct (get NORMAL_RANGES p) as [r |] eqn:G.
    + rewrite (classify_item_known acc p v r G), in_app_iff. cbn [In].
      split.
      * intros [[H | [H | []]] | [q [w [s [Hin H]]]]]; auto.
        -- right. exists p, v, r. auto.
        -- right. exists q, w, s. split; [now right | exact H].
      * intros [H | [q [w [s [[Heq | Hin] [Hg Hc]]]]]]; auto.
        -- injection Heq as <- <-. rewrite G in Hg. injection Hg as <-.
           left. right. left. now symmetry.
        -- right. exists q, w, s. auto.
    + rewrite (classify_item_unknown acc p v G). split.
      * intros [H | [q [w [s [Hin H]]]]]; auto.
        right. exists q, w, s. split; [now right | exact H].
      * intros [H | [q [w [s [[Heq | Hin] [Hg Hc]]]]]]; auto.
        -- injection Heq as <- <-. rewrite G in Hg. discriminate Hg.
        -- right. exists q, w, s. auto.
Qed.

Lemma classify_data_In (data : dict Q) (c : ReportData) :
  In c (classify_data data) <->
  exists p v r, In (p, v) data /\ get NORMAL_RANGES p = Some r
                /\ c = classified p v r.
Proof.
  unfold classify_data. rewrite classify_fold_In. cbn [In]. tauto.
Qed.

Ltac q_absurd :=
  exfalso;
  match goal with
  | H1 : (?a < ?b)%Q, H2 : (?b <= ?a)%Q |- _ => exact (Qlt_not_le _ _ H1 H2)
  | H1 : (?a < ?b)%Q, H2 : (?b <= ?c)%Q, H3 : (?c < ?a)%Q |- _ =>
      exact (Qlt_irrefl _ (Qlt_trans _ _ _ H1 (Qle_lt_trans _ _ _ H2 H3)))
  end.

Lemma classified_verdict (p : string) (v : Q) (r : RangeInfo) :
  (min_val r <= max_val r)%Q ->
  verdict_is (classification (classified p v r)) v (min_val r) (max_val r).
Proof.
  intros Hr. unfold verdict_is, classified, Low, High, Normal, Qgtb.
  cbn [classification].
  destruct (Qltb v (min_val r)) eqn:L; [| destruct (Qltb (max_val r) v) eqn:H].
  - apply Qltb_lt in L.
    split; [| split]; split; intros X; try discriminate X;
      try reflexivity; try assumption; try (match type of X with _ /\ _ => destruct X as [X1 X2] end); q_absurd.
  - apply Qltb_ge in L. apply Qltb_lt in H.
    split; [| split]; split; intros X; try discriminate X;
      try reflexivity; try assumption; try (match type of X with _ /\ _ => destruct X as [X1 X2] end); q_absurd.
  - apply Qltb_ge in L. apply Qltb_ge in H.
    split; [| split]; split; intros X; try discriminate X;
      try reflexivity; try assumption; try (now split); q_absurd.
Qed.

Lemma classified_boundary (p : string) (v : Q) (r : RangeInfo) :
  (min_val r <= max_val r)%Q ->
  (v == min_val r)%Q \/ (v == max_val r)%Q ->
  classification (classified p v r) = Normal.
Proof.
  intros Hr Hb. apply (classified_verdict p v r Hr).
  destruct Hb as [-> | ->]; split; auto; apply Qle_refl.
Qed.

(** C5.  [classify_data] gives every extracted pair whose parameter has
    a reference range one entry, whose verdict is Low exactly when the
    value is below the range minimum, High exactly when it is above the
    range maximum and Normal otherwise; it gives no other entry; a value
    equal to the minimum or to the maximum is Normal. *)
Theorem classify_data_verdict (data : dict Q) :
  (forall p v r,
      In (p, v) data -> get NORMAL_RANGES p = Some r ->
      exists c, In c (classify_data data)
                /\ parameter c = p /\ value c = v
                /\ verdict_is (classification c) v (min_val r) (max_val r))
  /\ (forall c,
         In c (classify_data data) ->
         exists r, get NORMAL_RANGES (parameter c) = Some r
                   /\ In (parameter c, value c) data
                   /\ range_min c = min_val r /\ range_max c = max_val r
                   /\ verdict_is (classification c) (value c) (min_val r) (max_val r)
                   /\ ((value c == min_val r)%Q \/ (value c == max_val r)%Q ->
                       classification c = Normal)).
Proof.
  split.
  - intros p v r Hin Hg. exists (classified p v r). split.
    + apply classify_data_In. exists p, v, r. auto.
    + split; [reflexivity | split; [reflexivity |]].
      exact (classified_verdict p v r (NORMAL_RANGES_ordered p r Hg)).
  - intros c Hc. apply classify_data_In in Hc as [p [v [r [Hin [Hg ->]]]]].
    pose proof (NORMAL_RANGES_ordered p r Hg) as Hr.
    exists r. cbn [parameter value range_min range_max].
    split; [exact Hg | split; [exact Hin |]].
    split; [reflexivity | split; [reflexivity |]].
    split; [exact (classified_verdict p v r Hr) |].
    now apply classified_boundary.
Qed.

Lemma classify_data_verdict_witness :
  exists c, In c (classify_data [("Glucose", 70%Q)])
            /\ parameter c = "Glucose" /\ value c = 70%Q
            /\ verdict_is (classification c) 70%Q 70%Q 100%Q.
Proof.
  apply (proj1 (classify_data_verdict [("Glucose", 70%Q)]) "Glucose" 70%Q
               {| min_val := 70%Q; max_val := 100%Q; range_unit := "mg/dL" |}).
  - simpl. auto.
  - reflexivity.
Defined.

(** ** Which occurrence of a parameter wins *)

Lemma binds_functional (line p q : string) (v w : Q) :
  binds line p v -> binds line q w -> p = q /\ v = w.
Proof.
  intros [Hp [t [ts [Ht Hv]]]] [Hq [u [us [Hu Hw]]]].
  rewrite Hp in Hq. rewrite Ht in Hu.
  injection Hq as <-. injection Hu as <- <-.
  rewrite Hv in Hw. injection Hw as <-. auto.
Qed.

(** C1, as stated, fails: on the text of the specification's own
    example the result holds 300.0 for Glucose, the value of the last
    line, and not 90.0. *)
Lemma first_occurrence_wins_fails : ~ first_occurrence_wins.
Proof.
  intros H.
  destruct (H glucose_twice [] "Glucose 90" ["..."; "Glucose 300"]
              "Glucose 300" "Glucose" 90%Q 300%Q) as [data [Hp Hg]].
  - unfold known_parameters. simpl. tauto.
  - reflexivity.
  - intros l v [].
  - split; [reflexivity |]. exists "90", []. split; reflexivity.
  - simpl. auto.
  - split; [reflexivity |]. exists "300", []. split; reflexivity.
  - vm_compute in Hp. injection Hp as <-. vm_compute in Hg. discriminate Hg.
Qed.

(** C1, amended.  The value of a parameter comes from the last line
    that gives it one: if a line of the text gives [p] the value [v]
    (it mentions no name that is earlier in the reference table, and its
    first numeric token is [v]) and no later line gives [p] a value,
    the result holds [v] for [p], whatever the earlier lines held. *)
Theorem last_occurrence_wins (text : string) (before : list string) (l : string)
        (after : list string) (p : string) (v : Q) :
  split_newline text = before ++ l :: after ->
  binds l p v ->
  (forall l' v', In l' after -> ~ binds l' p v') ->
  exists data, parse_medical_data text = Ok data /\ get data p = Some v.
Proof.
  intros Hsplit Hb Hafter. unfold parse_medical_data. rewrite Hsplit.
  rewrite scan_lines_app.
  destruct (scan_lines_total before []) as [d1 H1]. rewrite H1.
  cbn [bind scan_lines].
  destruct (scan_line_cases l d1) as [[q [w [Hq [_ H]]]] | [Hno _]].
  - destruct (binds_functional _ _ _ _ _ Hb Hq) as [<- <-].
    unfold known_parameters in H. rewrite H. cbn [bind].
    destruct (scan_lines_total after (set d1 p v)) as [d2 H2].
    exists d2. split; [exact H2 |].
    rewrite (scan_lines_keep after p Hafter _ _ H2). apply get_set_same.
  - exfalso. exact (Hno p v Hb).
Qed.

Lemma last_occurrence_wins_witness :
  exists data, parse_medical_data glucose_twice = Ok data
               /\ get data "Glucose" = Some 300%Q.
Proof.
  apply (last_occurrence_wins glucose_twice ["Glucose 90"; "..."]
                              "Glucose 300" [] "Glucose" 300%Q).
  - reflexivity.
  - split; [reflexivity |]. exists "300", []. split; reflexivity.
  - intros l' v' [].
Defined.

(** ** Values are never negative *)

Lemma range_min_zero_not_low (p : string) (v : Q) (r : RangeInfo) :
  (0 <= v)%Q -> (min_val r == 0)%Q -> classification (classified p v r) <> Low.
Proof.
  intros Hv Hr. unfold classified. cbn [classification].
  destruct (Qltb v (min_val r)) eqn:L.
  - apply Qltb_lt in L. rewrite Hr in L. exfalso. exact (Qlt_not_le _ _ L Hv).
  - unfold Low. destruct (Qgtb v (max_val r)); discriminate.
Qed.

Lemma parse_medical_data_nonneg (text : string) :
  exists data,
    parse_medical_data text = Ok data
    /\ (forall p v, In (p, v) data -> (0 <= v)%Q).
Proof.
  destruct (parse_medical_data_total text) as [data Hd]. exists data.
  split; [exact Hd |].
  apply (scan_lines_nonneg (split_newline text) [] data); [| exact Hd].
  intros p v [].
Qed.

(** C10.  [parse_medical_data] returns (it does not raise), and every
    value it returns is non-negative; so a classified entry of the
    pipeline whose range minimum is 0, as for Cholesterol, LDL and
    Triglycerides, is never Low. *)
Theorem parsed_values_nonnegative (text : string) :
  exists data,
    parse_medical_data text = Ok data
    /\ (forall p v, In (p, v) data -> (0 <= v)%Q)
    /\ (forall c, In c (classify_data data) ->
                  (range_min c == 0)%Q -> classification c <> Low)
    /\ (forall c, In c (classify_data data) ->
                  In (parameter c) ["Cholesterol"; "LDL"; "Triglycerides"] ->
                  classification c <> Low).
Proof.
  destruct (parse_medical_data_nonneg text) as [data [Hd Hpos]]. exists data.
  assert (Hzero : forall c, In c (classify_data data) ->
                            (range_min c == 0)%Q -> classification c <> Low).
  { intros c Hc Hz. apply classify_data_In in Hc as [p [v [r [Hin [_ ->]]]]].
    apply range_min_zero_not_low; eauto. }
  repeat split; auto.
  intros c Hc Hp. apply Hzero; [exact Hc |].
  apply classify_data_In in Hc as [p [v [r [_ [Hg ->]]]]].
  unfold classified in Hp |- *. cbn [parameter range_min] in Hp |- *.
  destruct Hp as [<- | [<- | [<- | []]]]; vm_compute in Hg;
    injection Hg as <-; reflexivity.
Qed.

Lemma parsed_values_nonnegative_witness :
  exists data,
    parse_medical_data "Cholesterol: 0 mg/dL" = Ok data
    /\ (In ("Cholesterol", 0%Q) data -> (0 <= 0)%Q)
    /\ (forall c, In c (classify_data data) ->
                  In (parameter c) ["Cholesterol"; "LDL"; "Triglycerides"] ->
                  classification c <> Low).
Proof.
  destruct (parsed_values_nonnegative "Cholesterol: 0 mg/dL")
    as [data [Hd [Hpos [_ Hlow]]]].
  exists data. split; [exact Hd |]. split; [apply Hpos | exact Hlow].
Defined.

(** ** [calculate_risk_score] *)

Lemma is_abnormal_spec (c : string) :
  is_abnormal c = String.eqb c Low || String.eqb c High.
Proof. unfold is_abnormal. cbn [existsb]. now rewrite orb_false_r. Qed.

Lemma count_abnormal_loop (l : list ReportData) :
  forall acc,
    fold_left (fun (n : nat) data =>
                 if is_abnormal (classification data) then (n + 1)%nat else n)
              l acc
    = (acc + abnormal_count l)%nat.
Proof.
  unfold abnormal_count.
  induction l as [| d l IH]; intros acc; cbn [fold_left filter].
  - cbn. lia.
  - rewrite IH, is_abnormal_spec.
    destruct (String.eqb (classification d) Low
              || String.eqb (classification d) High); cbn [List.length]; lia.
Qed.

(** *** In double precision *)

Lemma risk_score_percentage (processed_data : list ReportData) :
  processed_data <> [] ->
  binary64.calculate_risk_score processed_data
  = Ok (percentage (abnormal_count processed_data)
                   (List.length processed_data)).
Proof.
  intros Hne. unfold binary64.calculate_risk_score.
  destruct (Nat.eqb_spec (List.length processed_data) 0) as [E | Hn].
  - apply length_zero_iff_nil in E. contradiction.
  - rewrite count_abnormal_loop. cbn [Nat.add].
    unfold binary64.true_divide.
    destruct (Z.eqb_spec (Z.of_nat (List.length processed_data)) 0)
      as [E | _]; [lia |].
    reflexivity.
Qed.

(** C6, as stated, fails.  On twenty-five entries of which seven are
    High the code returns 28.000000000000004, the double next above
    28.0, while [100 * 7 / 25] is 28: the float is not that number,
    and it is not the double nearest to it either. *)
Lemma risk_score_is_not_the_ratio :
  ~ score_is_ratio /\ ~ score_is_nearest_ratio.
Proof.
  split; intros H.
  - destruct (H seven_of_25) as [x [q [Hx [Hv Hq]]]]; [discriminate |].
    vm_compute in Hx. injection Hx as <-.
    vm_compute in Hv. injection Hv as <-.
    vm_compute in Hq. discriminate Hq.
  - assert (Hne : seven_of_25 <> []) by discriminate.
    specialize (H seven_of_25 Hne). vm_compute in H. discriminate H.
Qed.

(** C6, amended.  On [N > 0] classified entries of which [K] are Low or
    High the rule-based score is the double [(K / N) * 100]: the
    quotient of the two ints, rounded, times 100.0, rounded again.  On
    the empty sequence it is 0.0, and no division takes place. *)
Theorem risk_score_binary64 (processed_data : list ReportData) :
  let N := List.length processed_data in
  let K := abnormal_count processed_data in
  (N = 0%nat -> binary64.calculate_risk_score processed_data = Ok binary64.zero)
  /\ (N <> 0%nat ->
      binary64.calculate_risk_score processed_data
      = Ok (binary64.mul
              (binary64.div (binary64.of_int (Z.of_nat K))
                            (binary64.of_int (Z.of_nat N)))
              (binary64.of_int 100))).
Proof.
  intros N K. split; intros HN.
  - apply length_zero_iff_nil in HN. now rewrite HN.
  - apply risk_score_percentage. intros E. apply HN. subst N. now rewrite E.
Qed.

Lemma risk_score_binary64_witness :
  binary64.calculate_risk_score [] = Ok binary64.zero
  /\ binary64.calculate_risk_score seven_of_25
     = Ok (S754_finite false 7881299347898369 (-48)).
Proof.
  split.
  - apply (proj1 (risk_score_binary64 [])). reflexivity.
  - rewrite (proj2 (risk_score_binary64 seven_of_25)); [| discriminate].
    vm_compute. reflexivity.
Defined.

(** One abnormal entry of four gives 25.0, the ratio itself; one of
    three gives 33.33333333333333, the double below the one nearest
    to [100 / 3]. *)
Lemma percentage_examples :
  percentage 1 4 = binary64.of_int 25
  /\ percentage 1 3 = S754_finite false 4691249611844266 (-47)
  /\ binary64.true_divide 100 3
     = Ok (S754_finite false 4691249611844267 (-47)).
Proof. repeat split; vm_compute; reflexivity. Qed.

Lemma abnormal_among_entries (l : list ReportData) :
  (abnormal_count l <= List.length l)%nat.
Proof. unfold abnormal_count. apply filter_length_le. Qed.

(** The reference table has nine parameters.  On at most nine entries
    the score lies within [2 ^ -46] of [100 K / N]. *)
Lemma risk_score_near_ratio (processed_data : list ReportData) :
  let N := List.length processed_data in
  let K := abnormal_count processed_data in
  (0 < N <= 9)%nat ->
  exists x,
    binary64.calculate_risk_score processed_data = Ok x
    /\ within (1 # 2 ^ 46)%Q x
         (100 * inject_Z (Z.of_nat K) / inject_Z (Z.of_nat N))%Q = true.
Proof.
  intros N K HN.
  exists (percentage K N). split.
  - apply risk_score_percentage. intros E. subst N. rewrite E in HN.
    cbn in HN. lia.
  - pose proof (abnormal_among_entries processed_data) as HK. fold N K in HK.
    assert (Hall :
      forallb (fun n =>
                 forallb (fun k =>
                            within (1 # 2 ^ 46)%Q (percentage k n)
                              (100 * inject_Z (Z.of_nat k)
                               / inject_Z (Z.of_nat n))%Q)
                         (seq 0 (S n)))
              (seq 1 9) = true) by (vm_compute; reflexivity).
    rewrite forallb_forall in Hall.
    assert (Hn : In N (seq 1 9)) by (apply in_seq; lia).
    specialize (Hall N Hn). cbv beta in Hall. rewrite forallb_forall in Hall.
    apply Hall. apply in_seq. lia.
Qed.

(** ** [generate_insights] *)

Lemma mem_knowledge (p verdict : string) :
  mem HEALTH_INSIGHTS p = false -> knowledge p verdict = None.
Proof.
  unfold mem, knowledge. now destruct (get HEALTH_INSIGHTS p).
Qed.

(** One turn of the loop: it raises on an entry whose verdict the
    knowledge base lacks, and otherwise appends [insight_for]. *)
Lemma insights_loop_step (d : ReportData) (rest : list ReportData)
      (insights : list ReportInsight) :
  insights_loop (d :: rest) insights =
  if verdict_missing d then Raise (KeyError (lower (classification d)))
  else insights_loop rest (insights ++ insight_for d).
Proof.
  cbn [insights_loop]. unfold verdict_missing, insight_for, getitem.
  rewrite <- is_abnormal_spec.
  destruct (mem HEALTH_INSIGHTS (parameter d)) eqn:M; cbn [andb].
  - destruct (is_abnormal (classification d)); cbn [andb].
    + unfold knowledge. unfold mem in M.
      destruct (get HEALTH_INSIGHTS (parameter d)) as [by_verdict |];
        [| discriminate M].
      cbn [bind].
      now destruct (get by_verdict (lower (classification d))).
    + now rewrite app_nil_r.
  - destruct (is_abnormal (classification d));
      rewrite ?(mem_knowledge _ _ M), app_nil_r; reflexivity.
Qed.

Lemma insights_loop_ok (l : list ReportData) :
  forall insights,
    (forall d, In d l -> verdict_missing d = false) ->
    insights_loop l insights = Ok (insights ++ flat_map insight_for l).
Proof.
  induction l as [| d l IH]; intros insights Hl.
  - cbn. now rewrite app_nil_r.
  - rewrite insights_loop_step, (Hl d (or_introl eq_refl)).
    rewrite IH by (intros; apply Hl; now right).
    cbn [flat_map]. now rewrite app_assoc.
Qed.

(** Where no verdict is missing from the knowledge base the insights are
    those of [insight_for], entry after entry. *)
Lemma generate_insights_ok (l : list ReportData) :
  (forall d, In d l -> verdict_missing d = false) ->
  generate_insights l = Ok (flat_map insight_for l).
Proof. intros H. unfold generate_insights. now rewrite insights_loop_ok. Qed.

(** C2.  Cholesterol classified Low, for which the knowledge base has
    only a "high" entry, makes [generate_insights] raise [KeyError]
    where the claim has it emit no insight: the entry is the one that
    [classify_data] builds for the value -1. *)
Theorem generate_insights_raises_on_missing_verdict :
  classify_data [("Cholesterol", (-1)%Q)] = [cholesterol_low]
  /\ mem HEALTH_INSIGHTS "Cholesterol" = true
  /\ knowledge "Cholesterol" "Low" = None
  /\ generate_insights [cholesterol_low] = Raise (KeyError "low").
Proof. repeat split; reflexivity. Qed.

(** ** The pipeline after text extraction *)

(** No entry that the pipeline classifies lacks its verdict in the
    knowledge base: Cholesterol, the one parameter with a single
    verdict there, has range minimum 0 and is never Low. *)
Lemma classified_verdict_present (p : string) (v : Q) (r : RangeInfo) :
  (0 <= v)%Q -> get NORMAL_RANGES p = Some r ->
  verdict_missing (classified p v r) = false.
Proof.
  intros Hv Hg. apply get_In in Hg. unfold NORMAL_RANGES in Hg. cbn [In] in Hg.
  repeat (destruct Hg as [Hg | Hg]); try contradiction;
    injection Hg as <- <-;
    unfold verdict_missing, classified;
    cbn [parameter classification min_val max_val];
    (destruct (Qltb v _) eqn:L; [| destruct (Qgtb v _) eqn:H]);
    try reflexivity.
  apply Qltb_lt in L. exfalso. exact (Qlt_not_le _ _ L Hv).
Qed.

Lemma calculate_ml_risk_score_total (hp : ml_model.HealthRiskPredictor)
      (data : dict Q) :
  exists r, calculate_ml_risk_score hp data = Ok r.
Proof.
  unfold calculate_ml_risk_score.
  destruct (ml_model.predict_risk hp data); cbn; eauto.
Qed.

(** Once the text is there, the rest of [process_report_file] returns. *)
Lemma analysis_total (hp : ml_model.HealthRiskPredictor) (text : string) :
  exists out,
    (let* extracted_data := parse_medical_data text in
     let processed_data := classify_data extracted_data in
     let* insights := generate_insights processed_data in
     let* risk_score := calculate_ml_risk_score hp extracted_data in
     Ok (processed_data, insights, risk_score)) = Ok out.
Proof.
  destruct (parse_medical_data_nonneg text) as [data [Hd Hpos]].
  rewrite Hd. cbn [bind]. rewrite generate_insights_ok.
  - cbn [bind]. destruct (calculate_ml_risk_score_total hp data) as [r ->].
    cbn [bind]. eauto.
  - intros d Hin. apply classify_data_In in Hin as [p [v [r [Hin [Hg ->]]]]].
    apply classified_verdict_present; eauto.
Qed.

(** ** [process_report_file]: the unsupported format *)

Section Unsupported.
Variable extract_text_from_image : string -> result string.
Variable extract_text_from_pdf : string -> result string.
Variable extract_text_from_csv : string -> result string.
Variable health_predictor : ml_model.HealthRiskPredictor.

Hypothesis image_errors : library_errors extract_text_from_image.
Hypothesis pdf_errors : library_errors extract_text_from_pdf.
Hypothesis csv_errors : library_errors extract_text_from_csv.

Lemma extracted_not_unsupported (extract : string -> result string)
      (file_path file_type : string) :
  library_errors extract ->
  (let* text := extract file_path in
   let* extracted_data := parse_medical_data text in
   let processed_data := classify_data extracted_data in
   let* insights := generate_insights processed_data in
   let* risk_score := calculate_ml_risk_score health_predictor extracted_data in
   Ok (processed_data, insights, risk_score))
  <> Raise (ValueError ("Unsupported file type: " ++ file_type)).
Proof.
  intros Hlib. destruct (extract file_path) as [text | e] eqn:E.
  - intros Hc. destruct (analysis_total health_predictor text) as [out Hout].
    assert (Habs : Ok out = Raise (ValueError ("Unsupported file type: " ++ file_type)))
      by (rewrite <- Hout; exact Hc).
    discriminate Habs.
  - destruct (Hlib _ _ E) as [what ->]. discriminate.
Qed.

(** C8.  [process_report_file] fails with the unsupported-format error
    exactly when the declared content type neither starts with
    "image" nor is "application/pdf" nor is "text/csv"; and the
    content type alone selects the strategy: the result does not
    depend on what the strategies not selected would do with the
    file. *)
Theorem unsupported_format_iff (file_path file_type : string) :
  (process_report_file extract_text_from_image extract_text_from_pdf
                          extract_text_from_csv health_predictor
                          file_path file_type
   = Raise (ValueError ("Unsupported file type: " ++ file_type))
   <-> startswith file_type "image" = false
       /\ file_type <> "application/pdf"
       /\ file_type <> "text/csv")
  /\ (startswith file_type "image" = true ->
      forall pdf' csv',
        process_report_file extract_text_from_image pdf' csv'
                            health_predictor file_path file_type
        = process_report_file extract_text_from_image extract_text_from_pdf
                          extract_text_from_csv health_predictor
                          file_path file_type)
  /\ (startswith file_type "image" = false -> file_type = "application/pdf" ->
      forall image' csv',
        process_report_file image' extract_text_from_pdf csv'
                            health_predictor file_path file_type
        = process_report_file extract_text_from_image extract_text_from_pdf
                          extract_text_from_csv health_predictor
                          file_path file_type)
  /\ (startswith file_type "image" = false -> file_type = "text/csv" ->
      forall image' pdf',
        process_report_file image' pdf' extract_text_from_csv
                            health_predictor file_path file_type
        = process_report_file extract_text_from_image extract_text_from_pdf
                          extract_text_from_csv health_predictor
                          file_path file_type).
Proof.
  unfold process_report_file.
  destruct (startswith file_type "image") eqn:I.
  - split; [| repeat split; intros; try discriminate; reflexivity].
    split; [| intros [H _]; discriminate H].
    intros H. exfalso.
    exact (extracted_not_unsupported _ file_path file_type image_errors H).
  - destruct (String.eqb_spec file_type "application/pdf") as [-> | Npdf].
    + split; [| repeat split; intros; try discriminate; reflexivity].
      split; [| intros [_ [H _]]; now contradiction H].
      intros H. exfalso.
      exact (extracted_not_unsupported _ file_path _ pdf_errors H).
    + destruct (String.eqb_spec file_type "text/csv") as [-> | Ncsv].
      * split; [| repeat split; intros; try discriminate; reflexivity].
        split; [| intros [_ [_ H]]; now contradiction H].
        intros H. exfalso.
        exact (extracted_not_unsupported _ file_path _ csv_errors H).
      * split; [split; auto |].
        repeat split; intros; try discriminate; try contradiction.
Qed.
End Unsupported.

Lemma unsupported_format_iff_witness :
  process_report_file (fun _ => Ok "Glucose 90") (fun _ => Ok "") (fun _ => Ok "")
                      {| ml_model.model := None;
                         ml_model.scaler := {| ml_model.transform := fun m => Ok m |};
                         ml_model.is_trained := false |}
                      "temp_report.docx" "application/msword"
  = Raise (ValueError "Unsupported file type: application/msword").
Proof.
  assert (Hlib : forall t, library_errors (fun _ => Ok t))
    by (intros t path e H; discriminate H).
  apply (proj1 (unsupported_format_iff
                  (fun _ => Ok "Glucose 90") (fun _ => Ok "") (fun _ => Ok "") _
                  (Hlib _) (Hlib _) (Hlib _)
                  "temp_report.docx" "application/msword")).
  split; [reflexivity | split; discriminate].
Defined.

(** ** The model-based score and its fallback *)

Section ModelScore.
Import ml_model.
Variable hp : HealthRiskPredictor.
Variable report_data : dict Q.

Lemma predict_risk_untrained :
  is_trained hp = false \/ model hp = None ->
  predict_risk hp report_data = Ok 50%Q.
Proof.
  unfold predict_risk. intros [-> | ->]; cbn [negb orb]; [reflexivity |].
  now rewrite orb_true_r.
Qed.

Lemma fallback_on_raise (e : exn) :
  predict_risk hp report_data = Raise e ->
  calculate_ml_risk_score hp report_data = Ok 50%Q.
Proof. unfold calculate_ml_risk_score. now intros ->. Qed.

Lemma score_of_predict (r : Q) :
  predict_risk hp report_data = Ok r ->
  calculate_ml_risk_score hp report_data = Ok r.
Proof. unfold calculate_ml_risk_score. now intros ->. Qed.

(** C4.  [predict_risk] is 50.0 on every input when the model is
    untrained or absent; [calculate_ml_risk_score] never raises, and is
    50.0 whenever [predict_risk] raises, in particular when scaling or
    inference raises; otherwise the score is the probability that the
    model gives the high-risk class (row 0, column 1 of
    [predict_proba]) times 100. *)
Theorem model_score_fallback :
  (is_trained hp = false \/ model hp = None ->
   predict_risk hp report_data = Ok 50%Q
   /\ calculate_ml_risk_score hp report_data = Ok 50%Q)
  /\ (exists r, calculate_ml_risk_score hp report_data = Ok r)
  /\ (forall e, predict_risk hp report_data = Raise e ->
                calculate_ml_risk_score hp report_data = Ok 50%Q)
  /\ (forall e, transform (scaler hp) [extract_features report_data] = Raise e ->
                calculate_ml_risk_score hp report_data = Ok 50%Q)
  /\ (forall m features_scaled e,
         model hp = Some m ->
         transform (scaler hp) [extract_features report_data] = Ok features_scaled ->
         predict_proba m features_scaled = Raise e ->
         calculate_ml_risk_score hp report_data = Ok 50%Q)
  /\ (forall m features_scaled proba row risk_probability,
         is_trained hp = true -> model hp = Some m ->
         transform (scaler hp) [extract_features report_data] = Ok features_scaled ->
         predict_proba m features_scaled = Ok proba ->
         nth_error proba 0 = Some row ->
         nth_error row 1 = Some risk_probability ->
         exists risk_score,
           calculate_ml_risk_score hp report_data = Ok risk_score
           /\ (risk_score == risk_probability * 100)%Q).
Proof.
  split; [| split; [| split; [| split; [| split]]]].
  - intros H. pose proof (predict_risk_untrained H) as Hp.
    split; [exact Hp | now apply score_of_predict].
  - apply calculate_ml_risk_score_total.
  - exact fallback_on_raise.
  - intros e He.
    destruct (predict_risk hp report_data) as [r | e'] eqn:P;
      [| now apply (fallback_on_raise e')].
    apply score_of_predict. revert P. unfold predict_risk.
    destruct (negb (is_trained hp)
              || match model hp with None => true | Some _ => false end);
      [now intros [= <-] |].
    rewrite He. discriminate.
  - intros m fs e Hm Ht Hp.
    destruct (predict_risk hp report_data) as [r | e'] eqn:P;
      [| now apply (fallback_on_raise e')].
    apply score_of_predict. revert P. unfold predict_risk.
    destruct (negb (is_trained hp)
              || match model hp with None => true | Some _ => false end);
      [now intros [= <-] |].
    rewrite Ht, Hm. cbn [bind]. rewrite Hp. discriminate.
  - intros m fs proba row p Htr Hm Ht Hp Hrow Hcol.
    exists (Qred (p * 100)%Q). split; [| apply Qred_correct].
    apply score_of_predict. unfold predict_risk, item.
    rewrite Htr, Hm, Ht. cbn [negb orb bind].
    rewrite Hp. cbn [bind]. rewrite Hrow. cbn [bind]. now rewrite Hcol.
Qed.
End ModelScore.

Lemma model_score_fallback_witness :
  ml_model.predict_risk
    {| ml_model.model := None;
       ml_model.scaler := {| ml_model.transform := fun _ => Raise (LibraryError "NotFittedError") |};
       ml_model.is_trained := false |}
    [("Glucose", 300%Q)] = Ok 50%Q
  /\ calculate_ml_risk_score
       {| ml_model.model := None;
          ml_model.scaler := {| ml_model.transform := fun _ => Raise (LibraryError "NotFittedError") |};
          ml_model.is_trained := false |}
       [("Glucose", 300%Q)] = Ok 50%Q.
Proof.
  apply (proj1 (model_score_fallback _ [("Glucose", 300%Q)])).
  left. reflexivity.
Defined.

(** ** [generate_trends] *)

Section TrendFacts.
Variable datetime : Type.
Variable isoformat : datetime -> string.

Lemma extend_extend (o : option (list TrendEntry)) (a b : list TrendEntry) :
  extend (extend o a) b = extend o (a ++ b).
Proof.
  destruct a as [| x a]; [reflexivity |].
  destruct b as [| y b]; cbn [extend app].
  - now rewrite app_nil_r.
  - now rewrite <- app_assoc.
Qed.

Lemma mem_get {V : Type} (d : dict V) (k : string) :
  mem d k = false -> get d k = None.
Proof. unfold mem. now destruct (get d k). Qed.

(** One turn of the inner loop. *)
Lemma add_report_get (r : Report datetime) (l : list ReportData) (p : string) :
  forall trends,
    get (add_report isoformat trends r l) p
    = extend (get trends p) (map (entry_of isoformat r) (filter (has_parameter p) l)).
Proof.
  induction l as [| d l IH]; intros trends; [reflexivity |].
  unfold add_report in *. cbn [fold_left filter]. rewrite IH. clear IH.
  unfold has_parameter at 2.
  destruct (String.eqb (parameter d) p) eqn:E.
  - apply String.eqb_eq in E. rewrite <- E, get_set_same. cbn [map].
    change (entry_of isoformat r d :: ?t) with ([entry_of isoformat r d] ++ t).
    rewrite <- extend_extend. f_equal. cbn [extend]. unfold entry_of.
    destruct (mem trends (parameter d)) eqn:M; [reflexivity |].
    now rewrite get_set_same, (mem_get _ _ M).
  - apply String.eqb_neq in E. f_equal. rewrite (get_set_other _ _ _ _ E).
    destruct (mem trends (parameter d)); [reflexivity |].
    now apply get_set_other.
Qed.

Lemma generate_trends_get (reports : list (Report datetime)) (p : string) :
  forall trends,
    get (fold_left
           (fun trends report =>
              match processed_data report with
              | Some (d :: ds) => add_report isoformat trends report (d :: ds)
              | _ => trends
              end)
           reports trends) p
    = extend (get trends p) (entries_of isoformat reports p).
Proof.
  induction reports as [| r reports IH]; intros trends; [reflexivity |].
  cbn [fold_left]. rewrite IH. unfold entries_of. cbn [flat_map].
  rewrite <- extend_extend. f_equal. unfold items.
  destruct (processed_data r) as [[| d ds] |];
    try reflexivity.
  apply add_report_get.
Qed.

(** Where the parameters of a report are distinct, at most one of its
    items has the parameter [p]: the first one found. *)
Lemma filter_distinct (r : Report datetime) (p : string) (l : list ReportData) :
  NoDup (map parameter l) ->
  map (entry_of isoformat r) (filter (has_parameter p) l)
  = match find (has_parameter p) l with
    | Some d => [entry_of isoformat r d]
    | None => []
    end.
Proof.
  induction l as [| d l IH]; cbn [map filter find]; intros Hnd; [reflexivity |].
  inversion Hnd as [| ? ? Hnotin Hnd']; subst.
  destruct (has_parameter p d) eqn:Hd; [| auto].
  cbn [map]. f_equal.
  rewrite IH by assumption.
  destruct (find (has_parameter p) l) as [d' |] eqn:F; [| reflexivity].
  exfalso. apply find_some in F as [Hin Hp']. apply Hnotin.
  unfold has_parameter in Hd, Hp'.
  apply String.eqb_eq in Hd, Hp'. rewrite Hd, <- Hp'. now apply in_map.
Qed.

(** C9.  The series of a parameter holds the entries of the items
    with that parameter, report after report in the order of the
    input, each with the date of its report and the value and the
    classification of its item, none merged or dropped; a parameter
    of no report is absent; and where the parameters of each report
    are distinct, as [classify_data] makes them, that is one entry for
    each report that contains the parameter. *)
Theorem trends_follow_reports (reports : list (Report datetime)) (p : string) :
  get (generate_trends isoformat reports) p = series (entries_of isoformat reports p)
  /\ ((forall r, In r reports -> NoDup (map parameter (items r))) ->
      get (generate_trends isoformat reports) p = series (one_per_report isoformat reports p)).
Proof.
  assert (H : get (generate_trends isoformat reports) p = series (entries_of isoformat reports p)).
  { unfold generate_trends. rewrite generate_trends_get.
    cbn [get]. now destruct (entries_of isoformat reports p). }
  split; [exact H |].
  intros Hnd. rewrite H. f_equal. clear H.
  unfold entries_of, one_per_report.
  induction reports as [| r reports IH]; [reflexivity |].
  cbn [flat_map]. rewrite filter_distinct by (apply Hnd; now left).
  f_equal. apply IH. intros r' Hr'. apply Hnd. now right.
Qed.
End TrendFacts.

Lemma trends_follow_reports_witness :
  get (generate_trends (fun t => t) three_reports) "Glucose"
  = Some [{| date := "2024-01-05T09:00:00"; trend_value := 90%Q;
             trend_classification := "Normal" |};
          {| date := "2024-02-05T09:00:00"; trend_value := 120%Q;
             trend_classification := "High" |};
          {| date := "2024-02-05T09:00:00"; trend_value := 60%Q;
             trend_classification := "Low" |}]
  /\ get (generate_trends (fun t => t) three_reports) "LDL" = None.
Proof.
  assert (Hnd : forall r, In r three_reports -> NoDup (map parameter (items r))).
  { intros r [<- | [<- | [<- | []]]]; cbn;
      repeat constructor; cbn; intuition discriminate. }
  split.
  - exact (proj2 (trends_follow_reports string (fun t => t) three_reports "Glucose") Hnd).
  - exact (proj2 (trends_follow_reports string (fun t => t) three_reports "LDL") Hnd).
Defined.

(** ** The parameters of one report are distinct *)

Lemma In_keys_set {V : Type} (d : dict V) (k k' : string) (v : V) :
  In k' (keys (set d k v)) -> k' = k \/ In k' (keys d).
Proof.
  unfold keys. intros H. apply in_map_iff in H as [[k0 v0] [<- H]].
  apply In_set in H as [[= -> ->] | H]; [now left | right].
  now apply (in_map fst) in H.
Qed.

Lemma set_keys_NoDup {V : Type} (d : dict V) (k : string) (v : V) :
  NoDup (keys d) -> NoDup (keys (set d k v)).
Proof.
  induction d as [| [k0 v0] d IH]; cbn [set keys map fst]; intros Hnd.
  - repeat constructor. intros [].
  - inversion Hnd as [| ? ? Hnotin Hnd']; subst.
    destruct (String.eqb k0 k) eqn:E; cbn [map fst]; [now constructor |].
    constructor; [| now apply IH].
    intros Hin. apply In_keys_set in Hin as [-> | Hin]; [| contradiction].
    now rewrite String.eqb_refl in E.
Qed.

Lemma scan_lines_NoDup (lines : list string) :
  forall data data',
    NoDup (keys data) -> scan_lines lines data = Ok data' -> NoDup (keys data').
Proof.
  induction lines as [| l lines IH]; intros data data' Hnd; cbn [scan_lines].
  - now intros [= <-].
  - destruct (scan_line_cases l data) as [[q [w [_ [_ H]]]] | [_ H]];
      unfold known_parameters in H; rewrite H; cbn [bind]; apply IH; auto.
    now apply set_keys_NoDup.
Qed.

Lemma classify_fold_parameters (data : dict Q) :
  forall acc,
    map parameter (fold_left classify_item data acc)
    = map parameter acc ++ filter (mem NORMAL_RANGES) (keys data).
Proof.
  induction data as [| [p v] data IH]; intros acc; cbn [fold_left keys map filter fst].
  - now rewrite app_nil_r.
  - rewrite IH. unfold mem at 2.
    destruct (get NORMAL_RANGES p) as [r |] eqn:G.
    + rewrite (classify_item_known acc p v r G), map_app, <- app_assoc.
      reflexivity.
    + now rewrite (classify_item_unknown acc p v G).
Qed.

(** The classified entries of a parsed text have distinct parameters. *)
Lemma pipeline_parameters_distinct (text : string) (data : dict Q) :
  parse_medical_data text = Ok data ->
  NoDup (map parameter (classify_data data)).
Proof.
  intros Hd. unfold classify_data. rewrite classify_fold_parameters.
  cbn [map app]. apply NoDup_filter.
  apply (scan_lines_NoDup (split_newline text) [] data); [constructor | exact Hd].
Qed.

(** ** The label of the synthetic batch *)

Lemma sum_bool_acc (l : list bool) :
  forall acc,
    fold_left (fun (n : Z) (b : bool) => if b then (n + 1)%Z else n) l acc
    = (acc + ml_model.sum_bool l)%Z.
Proof.
  unfold ml_model.sum_bool.
  induction l as [| b l IH]; intros acc; cbn [fold_left]; [lia |].
  rewrite IH, (IH (if b then _ else _)). destruct b; lia.
Qed.

Lemma sum_bool_cons (b : bool) (l : list bool) :
  ml_model.sum_bool (b :: l) = ((if b then 1 else 0) + ml_model.sum_bool l)%Z.
Proof.
  unfold ml_model.sum_bool at 1. cbn [fold_left]. rewrite sum_bool_acc.
  destruct b; lia.
Qed.

Lemma repeat_seq {A : Type} (x : A) (n : nat) :
  forall s, repeat x n = map (fun _ => x) (seq s n).
Proof.
  induction n as [| n IH]; intros s; cbn [repeat seq map]; [reflexivity |].
  now rewrite <- IH.
Qed.

(** Putting a column in front of rows that are given by their index. *)
Lemma stack_column (f : nat -> list Q) (col : list Q) :
  forall s,
    map (fun p => fst p :: snd p)
        (combine col (map f (seq s (List.length col))))
    = map (fun i => nth (i - s) col 0%Q :: f i) (seq s (List.length col)).
Proof.
  induction col as [| x col IH]; intros s; cbn [List.length seq map combine];
    [reflexivity |].
  cbn [fst snd]. rewrite Nat.sub_diag. cbn [nth]. f_equal.
  rewrite IH. apply map_ext_in. intros i Hi. apply in_seq in Hi.
  replace (i - s)%nat with (S (i - S s)) by lia. reflexivity.
Qed.

(** [np.column_stack] on columns of one length: row [i] holds value
    [i] of every column. *)
Lemma stack_samples (n : nat) (cols : list (list Q)) :
  Forall (fun col => List.length col = n) cols ->
  fold_right (fun col rows => map (fun p => fst p :: snd p) (combine col rows))
             (repeat [] n) cols
  = map (sample cols) (seq 0 n).
Proof.
  induction 1 as [| col cols Hc _ IH]; cbn [fold_right].
  - apply repeat_seq.
  - rewrite IH. subst n. rewrite stack_column.
    apply map_ext. intros i. now rewrite Nat.sub_0_r.
Qed.

Section Batch.
Import ml_model.

(** The vector [risk_factors] of [prepare_data] and the rows of [X]. *)
Lemma risk_factors_rows (n : nat) :
  forall hemoglobin wbc rbc platelets glucose cholesterol hdl ldl triglycerides,
    List.length hemoglobin = n -> List.length wbc = n -> List.length rbc = n ->
    List.length platelets = n -> List.length glucose = n ->
    List.length cholesterol = n -> List.length hdl = n -> List.length ldl = n ->
    List.length triglycerides = n ->
    let rows :=
      fold_right
        (fun col rows => map (fun p => fst p :: snd p) (combine col rows))
        (repeat [] n)
        [hemoglobin; wbc; rbc; platelets; glucose; cholesterol; hdl; ldl;
         triglycerides] in
    sum_bool
      (elementwise_or
         (elementwise_or
            (elementwise_or
               (elementwise_or
                  (elementwise_or (lt_scalar hemoglobin 12%Q)
                                  (gt_scalar hemoglobin 16%Q))
                  (lt_scalar wbc 4%Q))
               (gt_scalar wbc 11%Q))
            (gt_scalar glucose 100%Q))
         (gt_scalar cholesterol 200%Q))
    = Z.of_nat (List.length (filter risk_factor rows))
    /\ List.length rows = n.
Proof.
  induction n as [| n IH];
    intros [| x1 c1] [| x2 c2] [| x3 c3] [| x4 c4] [| x5 c5] [| x6 c6]
           [| x7 c7] [| x8 c8] [| x9 c9];
    cbn [List.length]; intros H1 H2 H3 H4 H5 H6 H7 H8 H9;
    try discriminate.
  - cbn. auto.
  - injection H1 as H1. injection H2 as H2. injection H3 as H3.
    injection H4 as H4. injection H5 as H5. injection H6 as H6.
    injection H7 as H7. injection H8 as H8. injection H9 as H9.
    specialize (IH c1 c2 c3 c4 c5 c6 c7 c8 c9 H1 H2 H3 H4 H5 H6 H7 H8 H9).
    cbn zeta in IH. destruct IH as [IHs IHl].
    unfold elementwise_or, lt_scalar, gt_scalar in IHs |- *.
    cbn [fold_right repeat combine map fst snd] in IHs, IHl |- *.
    rewrite sum_bool_cons, IHs. cbn [filter risk_factor List.length].
    split; [| now rewrite IHl].
    destruct (Qltb x1 12 || Qgtb x1 16 || Qltb x2 4 || Qgtb x2 11
              || Qgtb x5 100 || Qgtb x6 200); cbn [List.length]; lia.
Qed.

Variable rng : Type.
Variable seed : Z -> rng.
Variable normal : Q -> Q -> nat -> rng -> list Q * rng.

(** [np.random.normal(loc, scale, size)] draws [size] values. *)
Hypothesis normal_size : draws_size normal.

(** The label against the rows of the matrix: it is 1 exactly when
    more than two rows fire one of the six rules. *)
Lemma label_of_rows :
  let X := fst (prepare_data rng seed normal) in
  let y := snd (prepare_data rng seed normal) in
  List.length X = n_samples
  /\ (y = 1%Z <-> (2 < List.length (filter risk_factor X))%nat)
  /\ (y = 0%Z <-> (List.length (filter risk_factor X) <= 2)%nat).
Proof.
  unfold prepare_data.
  repeat match goal with
         | |- context [normal ?a ?b ?c ?g] =>
             let H := fresh "L" in
             pose proof (normal_size a b c g) as H;
             destruct (normal a b c g); cbn [fst] in H
         end.
  cbn [fst snd column_stack].
  match goal with
  | |- context [fold_right _ (repeat [] (List.length ?h)) _] =>
      replace (List.length h) with n_samples by (symmetry; assumption)
  end.
  destruct (risk_factors_rows n_samples l l0 l1 l2 l3 l4 l5 l6 l7)
    as [Hs Hl]; try assumption.
  cbn zeta in Hs, Hl. rewrite Hs. split; [exact Hl |].
  destruct (Z.ltb_spec 2 (Z.of_nat (List.length (filter risk_factor
             (fold_right
                (fun col rows => map (fun p => fst p :: snd p) (combine col rows))
                (repeat [] n_samples) [l; l0; l1; l2; l3; l4; l5; l6; l7])))));
    split; split; intros; try discriminate; try reflexivity; lia.
Qed.

(** The matrix holds the nine draws, one sample per row. *)
Lemma matrix_of_draws :
  fst (prepare_data rng seed normal) = samples (draws rng seed normal).
Proof.
  unfold prepare_data, draws, columns, samples. cbn [draw_columns].
  repeat match goal with
         | |- context [normal ?a ?b ?c ?g] =>
             let H := fresh "L" in
             pose proof (normal_size a b c g) as H;
             destruct (normal a b c g); cbn [fst] in H
         end.
  cbn [fst column_stack draw_columns].
  match goal with
  | |- context [fold_right _ (repeat [] (List.length ?h)) _] =>
      replace (List.length h) with n_samples by (symmetry; assumption)
  end.
  apply stack_samples. repeat constructor; assumption.
Qed.

(** scikit-learn, as in [train_model]. *)
Variable labels : Type.
Variable train_test_split :
  matrix -> Z -> Q -> Z -> result (matrix * matrix * labels * labels).
Variable fit_transform :
  StandardScaler -> matrix -> result (matrix * StandardScaler).
Variable new_LogisticRegression : Z -> LogisticRegression.
Variable fit :
  LogisticRegression -> matrix -> labels -> result LogisticRegression.
Variable predict : LogisticRegression -> matrix -> result labels.
Variable accuracy_score : labels -> labels -> result Q.

End Batch.

Lemma cycle_normal_size (loc scale : Q) (size : nat) (g : nat) :
  List.length (fst (cycle_normal loc scale size g)) = size.
Proof. unfold cycle_normal. cbn [fst]. now rewrite length_map, length_seq. Qed.

Lemma two_outliers_size (loc scale : Q) (size : nat) (g : nat) :
  List.length (fst (two_outliers loc scale size g)) = size.
Proof. unfold two_outliers. cbn [fst]. now rewrite length_map, length_seq. Qed.



Lemma two_outliers_batch :
  let batch := ml_model.prepare_data nat (fun _ => 0%nat) two_outliers in
  triggering_events (fst batch) = 8%nat
  /\ List.length (filter risk_factor (fst batch)) = 2%nat
  /\ snd batch = 0%Z.
Proof. repeat split; vm_compute; reflexivity. Qed.

(** In the batch of [cycle_normal] the third sample holds the mean of
    every column and fires no rule, while the label of the batch is 1:
    the label is no verdict on the sample. *)
Lemma label_is_not_per_sample :
  exists row,
    nth_error (fst (ml_model.prepare_data nat (fun _ => 0%nat) cycle_normal)) 2
    = Some row
    /\ risk_factor row = false
    /\ snd (ml_model.prepare_data nat (fun _ => 0%nat) cycle_normal) = 1%Z.
Proof.
  eexists. split; [vm_compute; reflexivity |].
  split; vm_compute; reflexivity.
Qed.

(** ** The temporary file of the upload handler *)

Lemma exists_path_write (path : string) (fs : reports.filesystem) :
  reports.exists_path (snd (reports.write_file path fs)) path = true.
Proof.
  unfold reports.write_file. cbn [snd].
  destruct (reports.exists_path fs path) eqn:E; [exact E |].
  unfold reports.exists_path. cbn [existsb]. now rewrite String.eqb_refl.
Qed.

Lemma exists_path_filter (path : string) (fs : reports.filesystem) :
  reports.exists_path (filter (fun p => negb (String.eqb path p)) fs) path = false.
Proof.
  unfold reports.exists_path.
  induction fs as [| p fs IH]; cbn [filter existsb]; [reflexivity |].
  destruct (String.eqb path p) eqn:E; cbn [negb existsb]; [exact IH |].
  now rewrite E.
Qed.

Lemma os_remove_present (path : string) (fs : reports.filesystem) :
  reports.exists_path fs path = true ->
  fst (reports.os_remove path fs) = Ok tt
  /\ reports.exists_path (snd (reports.os_remove path fs)) path = false.
Proof.
  unfold reports.os_remove. intros ->. cbn [fst snd].
  split; [reflexivity | apply exists_path_filter].
Qed.

Section HandlerFacts.
Variable DbReport : Type.
Variable create_report : string -> string -> result DbReport.
Variable update_report_data :
  DbReport -> list ReportData -> list ReportInsight -> Q -> result DbReport.
Variable extract_text_from_image : string -> result string.
Variable extract_text_from_pdf : string -> result string.
Variable extract_text_from_csv : string -> result string.
Variable health_predictor : ml_model.HealthRiskPredictor.

(** Once the report row is there, the handler removes the temporary
    file whether the pipeline and the update return or raise. *)
Lemma upload_report_removes_after_create
      (file : reports.UploadFile) (fs : reports.filesystem) (db_report : DbReport) :
  create_report (reports.filename file) (reports.content_type file) = Ok db_report ->
  reports.exists_path
    (snd (reports.upload_report DbReport create_report update_report_data
            extract_text_from_image extract_text_from_pdf extract_text_from_csv
            health_predictor file fs))
    (temp_path file) = false.
Proof.
  intros Hc. unfold reports.upload_report.
  fold (temp_path file).
  pose proof (exists_path_write (temp_path file) fs) as Hw.
  unfold reports.io_bind at 1.
  destruct (reports.write_file (temp_path file) fs) as [[[] | e] fs1] eqn:W;
    [| unfold reports.write_file in W; discriminate W].
  cbn [snd] in Hw.
  unfold reports.io_bind at 1, reports.io_lift at 1. rewrite Hc.
  destruct (os_remove_present _ _ Hw) as [Hr Hgone].
  unfold reports.io_try, reports.io_bind, reports.io_lift,
    reports.io_ret, reports.io_raise.
  destruct (process_report_file _ _ _ _ _ _) as [[[pd ins] rs] | e].
  - destruct (update_report_data db_report pd ins rs) as [u | e].
    + destruct (reports.os_remove (temp_path file) fs1) as [[[] | e] fs2];
        cbn [fst snd] in *; [exact Hgone | discriminate Hr].
    + destruct (reports.os_remove (temp_path file) fs1) as [[[] | e'] fs2];
        cbn [fst snd] in *; [exact Hgone | discriminate Hr].
  - destruct (reports.os_remove (temp_path file) fs1) as [[[] | e'] fs2];
      cbn [fst snd] in *; [exact Hgone | discriminate Hr].
Qed.

(** When creating the report row raises, the exception leaves the
    handler as it is and the temporary file stays. *)
Lemma upload_report_keeps_when_create_raises
      (file : reports.UploadFile) (fs : reports.filesystem) (e : exn) :
  create_report (reports.filename file) (reports.content_type file) = Raise e ->
  fst (reports.upload_report DbReport create_report update_report_data
         extract_text_from_image extract_text_from_pdf extract_text_from_csv
         health_predictor file fs) = Raise e
  /\ reports.exists_path
       (snd (reports.upload_report DbReport create_report update_report_data
               extract_text_from_image extract_text_from_pdf extract_text_from_csv
               health_predictor file fs))
       (temp_path file) = true.
Proof.
  intros Hc. unfold reports.upload_report.
  fold (temp_path file).
  pose proof (exists_path_write (temp_path file) fs) as Hw.
  unfold reports.io_bind, reports.io_lift.
  unfold reports.write_file in Hw |- *. cbn beta iota.
  rewrite Hc. cbn [fst snd] in Hw |- *. split; [reflexivity | exact Hw].
Qed.
End HandlerFacts.

(** C3.  An upload whose report row cannot be created: the handler
    propagates the database error and the temporary file is still there
    when it does, where an upload whose row is created and whose
    pipeline then fails has its file removed. *)
Theorem upload_keeps_temp_file_when_create_report_raises :
  reports.upload_report nat
    (fun _ _ => Raise (LibraryError "OperationalError"))
    (fun r _ _ _ => Ok r)
    (fun _ => Ok "") (fun _ => Ok "Glucose 90") (fun _ => Ok "")
    untrained pdf_upload []
  = (Raise (LibraryError "OperationalError"), ["temp_report.pdf"])
  /\ reports.upload_report nat
       (fun _ _ => Ok 1%nat)
       (fun r _ _ _ => Ok r)
       (fun _ => Ok "") (fun _ => Raise (LibraryError "FileDataError")) (fun _ => Ok "")
       untrained pdf_upload []
     = (Raise (HTTPException 500 "Error processing report: FileDataError"), []).
Proof. split; reflexivity. Qed.

(* ================================================================== *)
(** * Part IV: further properties                                      *)
(* ================================================================== *)

Import Notions.

(** ** More on [parse_medical_data] *)

Lemma length_set {V : Type} (d : dict V) (k : string) (v : V) :
  (List.length (set d k v) <= S (List.length d))%nat.
Proof.
  induction d as [| [k' v'] d IH]; cbn [set List.length]; [lia |].
  destruct (String.eqb k' k); cbn [List.length]; lia.
Qed.

Lemma binds_known (line p : string) (v : Q) :
  binds line p v -> In p known_parameters.
Proof.
  intros [H _]. unfold first_mentioned in H. now apply find_some in H.
Qed.

Lemma scan_lines_keys (lines : list string) :
  forall data data',
    scan_lines lines data = Ok data' ->
    (forall k, In k (keys data') -> In k (keys data) \/ In k known_parameters)
    /\ (List.length data' <= List.length data + List.length lines)%nat.
Proof.
  induction lines as [| l lines IH]; intros data data'; cbn [scan_lines].
  - intros [= <-]. split; [auto | lia].
  - destruct (scan_line_cases l data) as [[q [w [Hb [_ H]]]] | [_ H]];
      unfold known_parameters in H; rewrite H; cbn [bind]; intros Hs;
      destruct (IH _ _ Hs) as [Hk Hl]; cbn [List.length].
    + split.
      * intros k Hin. destruct (Hk k Hin) as [Hin' | Hin']; [| auto].
        apply In_keys_set in Hin' as [-> | Hin']; [right | auto].
        exact (binds_known _ _ _ Hb).
      * pose proof (length_set data q w). lia.
    + split; [exact Hk | lia].
Qed.

(** X1.  The result holds names of the reference table only, each once, and
    no more of them than the text has lines; so [classify_data] keeps
    every one of them, in the same order. *)
Theorem parse_keys_known (text : string) (data : dict Q) :
  parse_medical_data text = Ok data ->
  (forall k, In k (keys data) -> In k (keys NORMAL_RANGES))
  /\ NoDup (keys data)
  /\ (List.length data <= List.length (split_newline text))%nat
  /\ map parameter (classify_data data) = keys data.
Proof.
  intros Hd. destruct (scan_lines_keys _ _ _ Hd) as [Hk Hl].
  assert (Hknown : forall k, In k (keys data) -> In k (keys NORMAL_RANGES)).
  { intros k Hin. destruct (Hk k Hin) as [[] | H]. exact H. }
  split; [exact Hknown |]. split; [| split; [exact Hl |]].
  - apply (scan_lines_NoDup (split_newline text) [] data); [constructor | exact Hd].
  - unfold classify_data. rewrite classify_fold_parameters. cbn [map app].
    clear Hd Hk Hl. induction (keys data) as [| k ks IH]; [reflexivity |].
    cbn [filter].
    assert (Hm : mem NORMAL_RANGES k = true).
    { specialize (Hknown k (or_introl eq_refl)).
      unfold NORMAL_RANGES, keys in Hknown. cbn [map fst In] in Hknown.
      repeat (destruct Hknown as [<- | Hknown]; [reflexivity |]).
      contradiction. }
    rewrite Hm. f_equal. apply IH. intros k' Hin. apply Hknown. now right.
Qed.

Lemma parse_keys_known_witness :
  (List.length [("Glucose", 250%Q); ("Hemoglobin", 9%Q)] <= 2)%nat
  /\ map parameter (classify_data [("Glucose", 250%Q); ("Hemoglobin", 9%Q)])
     = ["Glucose"; "Hemoglobin"].
Proof.
  destruct (parse_keys_known
              ("Glucose: 250 mg/dL" ++ String newline "Hemoglobin level 9")
              [("Glucose", 250%Q); ("Hemoglobin", 9%Q)] eq_refl)
    as [_ [_ [Hl Hc]]].
  split; [exact Hl | exact Hc].
Defined.

(** *** Texts one after the other *)

Lemma split_newline_nonempty (s : string) : split_newline s <> [].
Proof.
  induction s as [| c s IH]; cbn [split_newline]; [discriminate |].
  destruct (Ascii.eqb c newline); [discriminate |].
  destruct (split_newline s); [contradiction | discriminate].
Qed.

Lemma split_newline_app (a b : string) :
  split_newline (a ++ String newline b) = split_newline a ++ split_newline b.
Proof.
  induction a as [| c a IH]; cbn [String.append split_newline].
  - now rewrite Ascii.eqb_refl.
  - destruct (Ascii.eqb c newline); [now rewrite IH |].
    rewrite IH. pose proof (split_newline_nonempty a) as Hne.
    destruct (split_newline a) as [| l ls]; [contradiction | reflexivity].
Qed.

Lemma get_override_set {V : Type} (d e : dict V) (base : option V)
      (p q : string) (v : V) :
  get d p = override (get e p) base ->
  get (set d q v) p = override (get (set e q v) p) base.
Proof.
  intros H. destruct (String.eqb_spec q p) as [-> | Hne].
  - now rewrite !get_set_same.
  - now rewrite !(get_set_other _ _ _ _ Hne).
Qed.

(** Scanning the same lines from two dictionaries. *)
Lemma scan_lines_override (lines : list string) (base : dict Q) :
  forall d e d' e',
    (forall p, get d p = override (get e p) (get base p)) ->
    scan_lines lines d = Ok d' -> scan_lines lines e = Ok e' ->
    forall p, get d' p = override (get e' p) (get base p).
Proof.
  induction lines as [| l lines IH]; intros d e d' e' Hde; cbn [scan_lines].
  - now intros [= <-] [= <-].
  - destruct (scan_line_cases l d) as [[q [w [Hb [_ Hd]]]] | [Hno Hd]];
      destruct (scan_line_cases l e) as [[q' [w' [Hb' [_ He]]]] | [Hno' He]];
      unfold known_parameters in Hd, He; rewrite Hd, He; cbn [bind].
    + destruct (binds_functional _ _ _ _ _ Hb Hb') as [<- <-].
      apply IH. intros p. now apply get_override_set.
    + exfalso. exact (Hno' _ _ Hb).
    + exfalso. exact (Hno _ _ Hb').
    + now apply IH.
Qed.

(** X2.  For a text followed by a newline and a second text, a parameter has
    the value that the second text gives it, and where the second text
    gives it none, the value that the first text gives it. *)
Theorem parse_later_text_overrides (a b : string) (da db dab : dict Q) :
  parse_medical_data a = Ok da ->
  parse_medical_data b = Ok db ->
  parse_medical_data (a ++ String newline b) = Ok dab ->
  forall p, get dab p = override (get db p) (get da p).
Proof.
  unfold parse_medical_data. rewrite split_newline_app, scan_lines_app.
  intros Ha Hb Hab. rewrite Ha in Hab. cbn [bind] in Hab.
  apply (scan_lines_override (split_newline b) da da [] dab db);
    [| exact Hab | exact Hb].
  intros p. reflexivity.
Qed.

Lemma parse_later_text_overrides_witness :
  get [("Glucose", 300%Q); ("HDL", 45%Q)] "Glucose" = Some 300%Q
  /\ get [("Glucose", 300%Q); ("HDL", 45%Q)] "HDL" = Some 45%Q.
Proof.
  pose proof (parse_later_text_overrides
                ("Glucose 90" ++ String newline "HDL 45") "Glucose 300"
                [("Glucose", 90%Q); ("HDL", 45%Q)] [("Glucose", 300%Q)]
                [("Glucose", 300%Q); ("HDL", 45%Q)] eq_refl eq_refl eq_refl) as H.
  split; [exact (H "Glucose") | exact (H "HDL")].
Defined.

(** *** Texts without numbers *)

Lemma scan_Idle_no_digit (s : string) :
  has_digit s = false -> scan Idle s = (EmptyString, []).
Proof.
  induction s as [| c s IH]; cbn [has_digit scan]; [reflexivity |].
  intros H. apply orb_false_iff in H as [Hc Hs]. rewrite Hc. auto.
Qed.

Lemma split_newline_no_digit (s : string) :
  has_digit s = false ->
  Forall (fun l => has_digit l = false) (split_newline s).
Proof.
  induction s as [| c s IH]; cbn [has_digit split_newline]; intros H.
  - repeat constructor.
  - apply orb_false_iff in H as [Hc Hs]. specialize (IH Hs).
    destruct (Ascii.eqb c newline); [now constructor |].
    destruct (split_newline s) as [| l ls]; [repeat constructor; cbn; now rewrite Hc |].
    inversion IH; subst. constructor; [| assumption].
    cbn [has_digit]. rewrite Hc. assumption.
Qed.

(** X3.  A text without a digit yields the empty dictionary, whatever
    parameter names it mentions. *)
Theorem parse_without_digits (text : string) :
  has_digit text = false -> parse_medical_data text = Ok [].
Proof.
  intros H. apply split_newline_no_digit in H. unfold parse_medical_data.
  generalize (@nil (string * Q)) as data.
  induction H as [| l ls Hl _ IH]; intros data; cbn [scan_lines]; [reflexivity |].
  rewrite scan_line_find. unfold findall_number.
  rewrite (scan_Idle_no_digit l Hl). cbn [snd].
  destruct (find (mentions l) (keys NORMAL_RANGES)); cbn [bind]; apply IH.
Qed.

Lemma parse_without_digits_witness :
  parse_medical_data ("Glucose: pending" ++ String newline "Hemoglobin n/a") = Ok [].
Proof. apply parse_without_digits. reflexivity. Defined.

(** *** Letter case *)

Lemma lower_char_idempotent (c : ascii) : lower_char (lower_char c) = lower_char c.
Proof. destruct c as [[] [] [] [] [] [] [] []]; reflexivity. Qed.

Lemma lower_char_newline (c : ascii) :
  Ascii.eqb (lower_char c) newline = Ascii.eqb c newline.
Proof. destruct c as [[] [] [] [] [] [] [] []]; reflexivity. Qed.

Lemma lower_char_dot (c : ascii) :
  Ascii.eqb (lower_char c) "." = Ascii.eqb c ".".
Proof. destruct c as [[] [] [] [] [] [] [] []]; reflexivity. Qed.

Lemma lower_char_is_digit (c : ascii) : is_digit (lower_char c) = is_digit c.
Proof. destruct c as [[] [] [] [] [] [] [] []]; reflexivity. Qed.

Lemma lower_char_digit (c : ascii) : is_digit c = true -> lower_char c = c.
Proof.
  destruct c as [[] [] [] [] [] [] [] []]; intros H;
    try discriminate H; reflexivity.
Qed.

Lemma lower_char_of_dot (c : ascii) : Ascii.eqb c "." = true -> lower_char c = c.
Proof. intros H. apply Ascii.eqb_eq in H. now subst c. Qed.

Lemma lower_idempotent (s : string) : lower (lower s) = lower s.
Proof.
  induction s as [| c s IH]; cbn [lower]; [reflexivity |].
  now rewrite lower_char_idempotent, IH.
Qed.

Lemma split_newline_lower (s : string) :
  split_newline (lower s) = map lower (split_newline s).
Proof.
  induction s as [| c s IH]; cbn [lower split_newline]; [reflexivity |].
  rewrite lower_char_newline, IH.
  destruct (Ascii.eqb c newline); [reflexivity |].
  now destruct (split_newline s).
Qed.

Lemma scan_lower (s : string) : forall m, scan m (lower s) = scan m s.
Proof.
  induction s as [| c s IH]; intros m; cbn [lower scan]; [reflexivity |].
  rewrite lower_char_is_digit, lower_char_dot, !IH.
  destruct (is_digit c) eqn:D.
  - now rewrite (lower_char_digit c D).
  - destruct m; try reflexivity.
    destruct (Ascii.eqb c ".") eqn:E; [| reflexivity].
    now rewrite (lower_char_of_dot c E).
Qed.

Lemma scan_line_lower (line : string) (params : list string) (data : dict Q) :
  scan_line (lower line) params data = scan_line line params data.
Proof.
  rewrite !scan_line_find. unfold mentions, findall_number.
  now rewrite lower_idempotent, scan_lower.
Qed.

Lemma scan_lines_lower (lines : list string) :
  forall data, scan_lines (map lower lines) data = scan_lines lines data.
Proof.
  induction lines as [| l lines IH]; intros data; cbn [map scan_lines];
    [reflexivity |].
  rewrite scan_line_lower.
  destruct (scan_line l (keys NORMAL_RANGES) data); cbn [bind]; auto.
Qed.

Lemma parse_medical_data_lower (text : string) :
  parse_medical_data (lower text) = parse_medical_data text.
Proof.
  unfold parse_medical_data. now rewrite split_newline_lower, scan_lines_lower.
Qed.

(** X4.  Two texts that differ only in the case of their letters yield the
    same dictionary. *)
Theorem parse_ignores_case (a b : string) :
  lower a = lower b -> parse_medical_data a = parse_medical_data b.
Proof.
  intros H. now rewrite <- (parse_medical_data_lower a), H, parse_medical_data_lower.
Qed.

Lemma parse_ignores_case_witness :
  parse_medical_data "GLUCOSE 90 MG/DL" = parse_medical_data "glucose 90 mg/dl".
Proof. apply parse_ignores_case. reflexivity. Defined.

(** ** More on [classify_data] *)

Lemma classify_fold_pairs (data : dict Q) :
  forall acc,
    map (fun c => (parameter c, value c)) (fold_left classify_item data acc)
    = map (fun c => (parameter c, value c)) acc
      ++ filter (fun item => mem NORMAL_RANGES (fst item)) data.
Proof.
  induction data as [| [p v] data IH]; intros acc; cbn [fold_left filter fst].
  - now rewrite app_nil_r.
  - rewrite IH. unfold mem at 2.
    destruct (get NORMAL_RANGES p) as [r |] eqn:G.
    + rewrite (classify_item_known acc p v r G), map_app, <- app_assoc.
      reflexivity.
    + now rewrite (classify_item_unknown acc p v G).
Qed.

(** X5.  The classified entries are the pairs of the dictionary whose name
    is in the reference table, in the order of the dictionary; the other
    pairs are dropped. *)
Theorem classify_data_keeps_order (data : dict Q) :
  map (fun c => (parameter c, value c)) (classify_data data)
  = filter (fun item => mem NORMAL_RANGES (fst item)) data.
Proof. unfold classify_data. now rewrite classify_fold_pairs. Qed.

(** ** More on [generate_insights] *)

Lemma verdict_missing_iff (d : ReportData) :
  verdict_missing d = true
  <-> parameter d = "Cholesterol" /\ classification d = "Low".
Proof.
  unfold verdict_missing. split.
  - intros H. apply andb_true_iff in H as [H Hk].
    apply andb_true_iff in H as [Hm Ha].
    rewrite is_abnormal_spec in Ha. unfold Low, High in Ha.
    unfold mem in Hm.
    destruct (get HEALTH_INSIGHTS (parameter d)) as [bv |] eqn:G;
      [| discriminate Hm].
    apply get_In in G. unfold HEALTH_INSIGHTS in G. cbn [In] in G.
    unfold knowledge in Hk.
    apply orb_true_iff in Ha as [Ha | Ha]; apply String.eqb_eq in Ha;
      rewrite Ha in Hk;
      repeat (destruct G as [G | G]); try contradiction;
      injection G as Hp _; rewrite <- Hp in Hk |- *;
      try discriminate Hk; auto.
  - intros [-> ->]. reflexivity.
Qed.

Lemma insights_loop_raises (l : list ReportData) :
  forall insights e,
    insights_loop l insights = Raise e ->
    e = KeyError "low" /\ exists d, In d l /\ verdict_missing d = true.
Proof.
  induction l as [| d l IH]; intros insights e; [discriminate |].
  rewrite insights_loop_step. destruct (verdict_missing d) eqn:M.
  - intros [= <-]. split.
    + apply verdict_missing_iff in M as [_ ->]. reflexivity.
    + exists d. split; [now left | exact M].
  - intros H. destruct (IH _ _ H) as [He [d' [Hin Hd']]].
    split; [exact He |]. exists d'. split; [now right | exact Hd'].
Qed.

Lemma insights_loop_missing (l : list ReportData) :
  forall insights d,
    In d l -> verdict_missing d = true ->
    insights_loop l insights = Raise (KeyError "low").
Proof.
  induction l as [| d0 l IH]; intros insights d Hin Hd; [contradiction |].
  rewrite insights_loop_step. destruct (verdict_missing d0) eqn:M.
  - apply verdict_missing_iff in M as [_ ->]. reflexivity.
  - destruct Hin as [-> | Hin]; [congruence |]. eauto.
Qed.

(** X6.  [generate_insights] raises exactly when some entry is Cholesterol
    classified Low, and what it raises then is [KeyError('low')]. *)
Theorem generate_insights_raises_iff (l : list ReportData) :
  ((exists e, generate_insights l = Raise e)
   <-> exists d, In d l /\ parameter d = "Cholesterol" /\ classification d = "Low")
  /\ (forall e, generate_insights l = Raise e -> e = KeyError "low").
Proof.
  unfold generate_insights. split; [split |].
  - intros [e H]. destruct (insights_loop_raises _ _ _ H) as [_ [d [Hin Hd]]].
    exists d. split; [exact Hin | now apply verdict_missing_iff].
  - intros [d [Hin Hd]]. exists (KeyError "low").
    apply (insights_loop_missing l [] d Hin). now apply verdict_missing_iff.
  - intros e H. now destruct (insights_loop_raises _ _ _ H).
Qed.

Lemma generate_insights_raises_iff_witness :
  exists e, generate_insights [cholesterol_low] = Raise e.
Proof.
  apply (proj1 (generate_insights_raises_iff [cholesterol_low])).
  exists cholesterol_low. repeat split. now left.
Defined.

Lemma insight_for_wanted (d : ReportData) :
  verdict_missing d = false ->
  map insight_parameter (insight_for d)
  = if wants_insight d then [parameter d] else [].
Proof.
  unfold verdict_missing, insight_for, wants_insight.
  rewrite <- is_abnormal_spec.
  destruct (mem HEALTH_INSIGHTS (parameter d)) eqn:M; cbn [andb].
  - destruct (is_abnormal (classification d)); cbn [andb]; [| reflexivity].
    destruct (knowledge (parameter d) (classification d)); [reflexivity | discriminate].
  - rewrite (mem_knowledge _ _ M). now destruct (is_abnormal (classification d)).
Qed.

(** X7.  When [generate_insights] returns, it has one insight for each entry
    that is Low or High with a parameter of the knowledge base, in the
    order of the entries, and none for any other entry. *)
Theorem generate_insights_one_per_abnormal (l : list ReportData)
        (insights : list ReportInsight) :
  generate_insights l = Ok insights ->
  map insight_parameter insights = map parameter (filter wants_insight l)
  /\ (List.length insights <= abnormal_count l)%nat.
Proof.
  intros H.
  assert (Hok : forall d, In d l -> verdict_missing d = false).
  { intros d Hin. destruct (verdict_missing d) eqn:M; [| reflexivity].
    unfold generate_insights in H.
    rewrite (insights_loop_missing l [] d Hin M) in H. discriminate H. }
  rewrite (generate_insights_ok l Hok) in H. injection H as <-.
  assert (Hmap : map insight_parameter (flat_map insight_for l)
                 = map parameter (filter wants_insight l)).
  { clear - Hok. induction l as [| d l IH]; [reflexivity |].
    cbn [flat_map filter]. rewrite map_app, insight_for_wanted, IH.
    - now destruct (wants_insight d).
    - intros d' Hin. apply Hok. now right.
    - apply Hok. now left. }
  split; [exact Hmap |].
  rewrite <- (length_map insight_parameter), Hmap, length_map.
  unfold abnormal_count. clear. induction l as [| d l IH]; [cbn; lia |].
  cbn [filter]. unfold wants_insight at 1. rewrite is_abnormal_spec.
  destruct (mem HEALTH_INSIGHTS (parameter d)); cbn [andb];
    destruct (String.eqb (classification d) Low || String.eqb (classification d) High);
    cbn [List.length]; lia.
Qed.

Lemma generate_insights_one_per_abnormal_witness :
  map insight_parameter
      [{| insight_parameter := "Glucose"; insight := "Risk of diabetes";
          recommendation := "Monitor blood sugar levels. Reduce sugar intake and consult a doctor." |}]
  = map parameter (filter wants_insight (classify_data [("HDL", 20%Q); ("Glucose", 250%Q)])).
Proof.
  apply (generate_insights_one_per_abnormal
           (classify_data [("HDL", 20%Q); ("Glucose", 250%Q)])).
  reflexivity.
Defined.

(** ** More on [calculate_risk_score] *)

Lemma abnormal_count_le (l : list ReportData) :
  (abnormal_count l <= List.length l)%nat.
Proof. unfold abnormal_count. apply filter_length_le. Qed.

Lemma risk_score_nonempty (d : ReportData) (l : list ReportData) :
  (calculate_risk_score (d :: l)
   == inject_Z (Z.of_nat (abnormal_count (d :: l))) * 100
      / inject_Z (Z.of_nat (S (List.length l))))%Q.
Proof.
  unfold calculate_risk_score. cbn [List.length Nat.eqb].
  rewrite Qred_correct, count_abnormal_loop. cbn [Nat.add].
  field. unfold Qeq. cbn. lia.
Qed.


(** ** More on [predict_risk]: the feature vector *)

Lemma features_loop (report_data : dict Q) (params : list string) :
  forall features,
    fold_left
      (fun features param =>
         match get report_data param with
         | Some v => features ++ [v]
         | None =>
             features ++ [match get ml_model.default_values param with
                          | Some d => d
                          | None => 0%Q
                          end]
         end)
      params features
    = features
      ++ map (fun p => match get report_data p with
                       | Some v => v
                       | None => match get ml_model.default_values p with
                                 | Some d => d
                                 | None => 0%Q
                                 end
                       end)
             params.
Proof.
  induction params as [| p ps IH]; intros features; cbn [fold_left map].
  - now rewrite app_nil_r.
  - rewrite IH. destruct (get report_data p); now rewrite <- app_assoc.
Qed.

Lemma extract_features_map (report_data : dict Q) :
  ml_model.extract_features report_data
  = map (fun p => match get report_data p with
                  | Some v => v
                  | None => match get ml_model.default_values p with
                            | Some d => d
                            | None => 0%Q
                            end
                  end)
        ml_model.parameters.
Proof. unfold ml_model.extract_features. now rewrite features_loop. Qed.

(** X9.  [extract_features] gives nine features in the order of
    [parameters]: the value of the report where the report has the
    parameter, the default of that parameter otherwise (each of the
    nine parameters has a default, so the fallback 0.0 is never taken);
    other names in the report do not matter. *)
Theorem extract_features_nine (report_data : dict Q) :
  List.length (ml_model.extract_features report_data) = 9%nat
  /\ (forall i p,
         nth_error ml_model.parameters i = Some p ->
         exists default,
           get ml_model.default_values p = Some default
           /\ nth_error (ml_model.extract_features report_data) i
              = Some (match get report_data p with
                      | Some v => v
                      | None => default
                      end))
  /\ (forall other,
         (forall p, In p ml_model.parameters -> get other p = get report_data p) ->
         ml_model.extract_features other = ml_model.extract_features report_data).
Proof.
  rewrite extract_features_map. split; [now rewrite length_map |]. split.
  - intros i p H. rewrite nth_error_map, H. cbn [option_map].
    apply nth_error_In in H. unfold ml_model.parameters in H. cbn [In] in H.
    repeat (destruct H as [<- | H]; [eexists; split; reflexivity |]).
    contradiction.
  - intros other H. rewrite extract_features_map.
    apply map_ext_in. intros p Hin. now rewrite (H p Hin).
Qed.

Lemma extract_features_nine_witness :
  nth_error (ml_model.extract_features [("Glucose", 250%Q); ("Sodium", 140%Q)]) 4
  = Some 250%Q
  /\ nth_error (ml_model.extract_features [("Glucose", 250%Q); ("Sodium", 140%Q)]) 0
     = Some 14%Q.
Proof.
  split.
  - destruct (proj1 (proj2 (extract_features_nine
                              [("Glucose", 250%Q); ("Sodium", 140%Q)]))
                    4%nat "Glucose" eq_refl) as [dv [_ H]].
    exact H.
  - destruct (proj1 (proj2 (extract_features_nine
                              [("Glucose", 250%Q); ("Sodium", 140%Q)]))
                    0%nat "Hemoglobin" eq_refl) as [dv [Hd H]].
    injection Hd as <-. exact H.
Defined.

(** ** The outcome of [process_report_file] *)

Lemma analysis_result (hp : ml_model.HealthRiskPredictor) (extracted : result string) :
  after_extraction hp extracted
    (let* text := extracted in
     let* extracted_data := parse_medical_data text in
     let processed_data := classify_data extracted_data in
     let* insights := generate_insights processed_data in
     let* risk_score := calculate_ml_risk_score hp extracted_data in
     Ok (processed_data, insights, risk_score)).
Proof.
  destruct extracted as [text | e]; cbn [after_extraction bind]; [| reflexivity].
  destruct (parse_medical_data_nonneg text) as [data [Hd Hpos]].
  destruct (calculate_ml_risk_score_total hp data) as [score Hs].
  exists data, score. split; [exact Hd |]. split; [exact Hs |].
  rewrite Hd. cbn [bind]. rewrite generate_insights_ok.
  - cbn [bind]. rewrite Hs. reflexivity.
  - intros d Hin. apply classify_data_In in Hin as [p [v [r [Hin [Hg ->]]]]].
    apply classified_verdict_present; eauto.
Qed.

(** X10.  For a supported content type the only failure of
    [process_report_file] is the exception of the selected strategy,
    passed on as it is; when the strategy returns a text the result is
    the classified entries of the parsed text, their insights and the
    model score. *)
Theorem process_report_file_outcome
        (image pdf csv : string -> result string)
        (hp : ml_model.HealthRiskPredictor) (file_path file_type : string) :
  (startswith file_type "image" = true ->
   after_extraction hp (image file_path)
     (process_report_file image pdf csv hp file_path file_type))
  /\ (startswith file_type "image" = false -> file_type = "application/pdf" ->
      after_extraction hp (pdf file_path)
        (process_report_file image pdf csv hp file_path file_type))
  /\ (startswith file_type "image" = false -> file_type = "text/csv" ->
      after_extraction hp (csv file_path)
        (process_report_file image pdf csv hp file_path file_type)).
Proof.
  unfold process_report_file. repeat split.
  - intros ->. apply analysis_result.
  - intros -> ->. cbn. apply analysis_result.
  - intros -> ->. cbn. apply analysis_result.
Qed.

Lemma process_report_file_outcome_witness :
  after_extraction untrained (Raise (LibraryError "FileDataError"))
    (process_report_file (fun _ => Ok "") (fun _ => Raise (LibraryError "FileDataError"))
                         (fun _ => Ok "") untrained "temp_report.pdf" "application/pdf").
Proof.
  apply (proj1 (proj2 (process_report_file_outcome
                         (fun _ => Ok "") (fun _ => Raise (LibraryError "FileDataError"))
                         (fun _ => Ok "") untrained
                         "temp_report.pdf" "application/pdf")));
    reflexivity.
Defined.

(** ** More on [generate_trends] *)

Section MoreTrends.
Variable datetime : Type.
Variable isoformat : datetime -> string.

Lemma extend_Some (s es : list TrendEntry) :
  exists tail, extend (Some s) es = Some (s ++ tail).
Proof.
  destruct es as [| e es]; cbn [extend].
  - exists []. now rewrite app_nil_r.
  - now exists (e :: es).
Qed.

(** X11.  Reports that come after others only add to the end of a series:
    the series of the earlier reports stays as its beginning. *)
Theorem generate_trends_appends (earlier later : list (Report datetime))
        (p : string) :
  get (generate_trends isoformat (earlier ++ later)) p
  = extend (get (generate_trends isoformat earlier) p)
           (entries_of isoformat later p)
  /\ (forall s, get (generate_trends isoformat earlier) p = Some s ->
                exists tail,
                  get (generate_trends isoformat (earlier ++ later)) p
                  = Some (s ++ tail)).
Proof.
  assert (H : get (generate_trends isoformat (earlier ++ later)) p
              = extend (get (generate_trends isoformat earlier) p)
                       (entries_of isoformat later p)).
  { unfold generate_trends. rewrite fold_left_app.
    now rewrite (generate_trends_get datetime isoformat later p). }
  split; [exact H |].
  intros s Hs. rewrite H, Hs. apply extend_Some.
Qed.

Lemma In_keys_get {V : Type} (d : dict V) (k : string) :
  In k (keys d) <-> get d k <> None.
Proof.
  induction d as [| [k' v'] d IH]; cbn [keys map fst In get].
  - split; [intros [] | intros H; now contradiction H].
  - destruct (String.eqb_spec k' k) as [-> | Hne].
    + split; [discriminate | auto].
    + rewrite <- IH. unfold keys. split; [intros [H | H]; [contradiction | exact H] | auto].
Qed.

Lemma add_report_NoDup (r : Report datetime) (l : list ReportData) :
  forall trends,
    NoDup (keys trends) -> NoDup (keys (add_report isoformat trends r l)).
Proof.
  unfold add_report.
  induction l as [| d l IH]; intros trends Hnd; cbn [fold_left]; [exact Hnd |].
  apply IH. apply set_keys_NoDup.
  destruct (mem trends (parameter d)); [exact Hnd | now apply set_keys_NoDup].
Qed.

Lemma generate_trends_NoDup (reports : list (Report datetime)) :
  NoDup (keys (generate_trends isoformat reports)).
Proof.
  unfold generate_trends.
  assert (H : forall trends : dict (list TrendEntry),
             NoDup (keys trends) ->
             NoDup (keys (fold_left
                            (fun trends report =>
                               match processed_data report with
                               | Some (d :: ds) =>
                                   add_report isoformat trends report (d :: ds)
                               | _ => trends
                               end)
                            reports trends))).
  { induction reports as [| r reports IH]; intros trends Hnd; cbn [fold_left];
      [exact Hnd |].
    apply IH. destruct (processed_data r) as [[| d ds] |]; try exact Hnd.
    now apply add_report_NoDup. }
  apply H. constructor.
Qed.

Lemma entries_of_nonempty (reports : list (Report datetime)) (p : string) :
  entries_of isoformat reports p <> []
  <-> exists r d, In r reports /\ In d (items r) /\ parameter d = p.
Proof.
  unfold entries_of. split.
  - intros H.
    destruct (flat_map _ reports) as [| e es] eqn:E; [contradiction |].
    assert (Hin : In e (flat_map
                          (fun r => map (entry_of isoformat r)
                                        (filter (has_parameter p) (items r)))
                          reports))
      by (rewrite E; now left).
    apply in_flat_map in Hin as [r [Hr Hin]].
    apply in_map_iff in Hin as [d [_ Hd]].
    apply filter_In in Hd as [Hd Hp]. apply String.eqb_eq in Hp.
    exists r, d. auto.
  - intros [r [d [Hr [Hd Hp]]]] E.
    assert (Hin : In (entry_of isoformat r d)
                     (flat_map
                        (fun r => map (entry_of isoformat r)
                                      (filter (has_parameter p) (items r)))
                        reports)).
    { apply in_flat_map. exists r. split; [exact Hr |].
      apply in_map. apply filter_In. split; [exact Hd |].
      now apply String.eqb_eq. }
    rewrite E in Hin. contradiction.
Qed.

(** X12.  The mapping has each parameter once; its parameters are those that
    some item of some report has; and no series is empty. *)
Theorem generate_trends_keys (reports : list (Report datetime)) :
  NoDup (keys (generate_trends isoformat reports))
  /\ (forall p, In p (keys (generate_trends isoformat reports))
                <-> exists r d, In r reports /\ In d (items r) /\ parameter d = p)
  /\ (forall p s, get (generate_trends isoformat reports) p = Some s -> s <> []).
Proof.
  assert (Hget : forall p, get (generate_trends isoformat reports) p
                           = series (entries_of isoformat reports p)).
  { intros p. unfold generate_trends. rewrite generate_trends_get.
    cbn [get]. now destruct (entries_of isoformat reports p). }
  split; [apply generate_trends_NoDup |]. split.
  - intros p. rewrite In_keys_get, Hget, <- entries_of_nonempty.
    destruct (entries_of isoformat reports p); cbn [series];
      split; congruence.
  - intros p s. rewrite Hget.
    destruct (entries_of isoformat reports p); cbn [series]; [discriminate |].
    intros [= <-]. discriminate.
Qed.
End MoreTrends.

Lemma generate_trends_keys_witness :
  In "WBC" (keys (generate_trends (fun t => t) three_reports)).
Proof.
  apply (proj1 (proj2 (generate_trends_keys string (fun t => t) three_reports))).
  eexists. eexists. split; [right; right; left; reflexivity |].
  split; [left; reflexivity | reflexivity].
Defined.

Lemma generate_trends_appends_witness :
  exists tail,
    get (generate_trends (fun t => t) (firstn 1 three_reports ++ skipn 1 three_reports))
        "Glucose"
    = Some ([{| date := "2024-01-05T09:00:00"; trend_value := 90%Q;
                trend_classification := "Normal" |}] ++ tail).
Proof.
  apply (proj2 (generate_trends_appends string (fun t => t)
                  (firstn 1 three_reports) (skipn 1 three_reports) "Glucose")).
  reflexivity.
Defined.

(** ** More on the upload handler *)

Lemma exists_path_write_other (path other : string) (fs : reports.filesystem) :
  other <> path ->
  reports.exists_path (snd (reports.write_file path fs)) other
  = reports.exists_path fs other.
Proof.
  intros Hne. unfold reports.write_file. cbn [snd].
  destruct (reports.exists_path fs path); [reflexivity |].
  unfold reports.exists_path. cbn [existsb].
  destruct (String.eqb_spec other path); [contradiction | reflexivity].
Qed.

Lemma exists_path_filter_other (path other : string) (fs : reports.filesystem) :
  other <> path ->
  reports.exists_path (filter (fun p => negb (String.eqb path p)) fs) other
  = reports.exists_path fs other.
Proof.
  intros Hne. unfold reports.exists_path.
  induction fs as [| p fs IH]; cbn [filter existsb]; [reflexivity |].
  destruct (String.eqb_spec path p) as [<- | Hp]; cbn [negb existsb].
  - destruct (String.eqb_spec other path); [contradiction | exact IH].
  - now rewrite IH.
Qed.

Lemma os_remove_other (path other : string) (fs : reports.filesystem) :
  other <> path ->
  reports.exists_path (snd (reports.os_remove path fs)) other
  = reports.exists_path fs other.
Proof.
  intros Hne. unfold reports.os_remove.
  destruct (reports.exists_path fs path); cbn [snd]; [| reflexivity].
  now apply exists_path_filter_other.
Qed.

Section MoreHandler.
Variable DbReport : Type.
Variable w : Collaborators DbReport.

(** The handler as a case analysis on what its collaborators do. *)
Lemma run_upload_cases (file : reports.UploadFile) (fs : reports.filesystem) :
  let fs1 := snd (reports.write_file (temp_path file) fs) in
  let fs2 := snd (reports.os_remove (temp_path file) fs1) in
  run_upload w file fs =
  match the_create_report w (reports.filename file) (reports.content_type file) with
  | Raise e => (Raise e, fs1)
  | Ok db_report =>
      match run_pipeline w file with
      | Raise e =>
          (Raise (HTTPException 500 ("Error processing report: " ++ str_exn e)), fs2)
      | Ok (processed_data, insights, risk_score) =>
          match the_update_report_data w db_report processed_data insights risk_score with
          | Raise e =>
              (Raise (HTTPException 500 ("Error processing report: " ++ str_exn e)),
               fs2)
          | Ok updated_report => (Ok updated_report, fs2)
          end
      end
  end.
Proof.
  intros fs1 fs2. unfold run_upload, run_pipeline, reports.upload_report.
  fold (temp_path file).
  pose proof (exists_path_write (temp_path file) fs) as Hw. fold fs1 in Hw.
  destruct (os_remove_present _ _ Hw) as [Hr _]. fold fs2 in Hr.
  unfold reports.io_bind at 1.
  assert (W : reports.write_file (temp_path file) fs = (Ok tt, fs1))
    by reflexivity.
  rewrite W. unfold reports.io_bind at 1, reports.io_lift at 1.
  destruct (the_create_report w _ _) as [db_report | e]; [| reflexivity].
  assert (R : reports.os_remove (temp_path file) fs1 = (Ok tt, fs2)).
  { subst fs2. destruct (reports.os_remove (temp_path file) fs1) as [[[] | e] f];
      cbn [fst snd] in *; [reflexivity | discriminate Hr]. }
  unfold reports.io_try, reports.io_bind, reports.io_lift,
    reports.io_ret, reports.io_raise.
  destruct (process_report_file _ _ _ _ _ _) as [[[pd ins] rs] | e].
  - destruct (the_update_report_data w db_report pd ins rs) as [u | e];
      now rewrite R.
  - now rewrite R.
Qed.

(** X13.  Whatever happens, the handler leaves every path other than that of
    its temporary file as it found it. *)
Theorem upload_report_touches_only_temp_file
        (file : reports.UploadFile) (fs : reports.filesystem) (path : string) :
  path <> temp_path file ->
  reports.exists_path (snd (run_upload w file fs)) path = reports.exists_path fs path.
Proof.
  intros Hne. rewrite run_upload_cases. cbn zeta.
  assert (H1 : reports.exists_path
                 (snd (reports.write_file (temp_path file) fs)) path
               = reports.exists_path fs path)
    by now apply exists_path_write_other.
  assert (H2 : reports.exists_path
                 (snd (reports.os_remove (temp_path file)
                         (snd (reports.write_file (temp_path file) fs)))) path
               = reports.exists_path fs path)
    by (rewrite os_remove_other; assumption).
  destruct (the_create_report w _ _) as [db_report | e]; [| exact H1].
  destruct (run_pipeline w file) as [[[pd ins] rs] | e]; [| exact H2].
  destruct (the_update_report_data w db_report pd ins rs); exact H2.
Qed.

(** X14.  Once the report row is created, a failure of the pipeline or of the
    update reaches the client as status 500 with the text of the
    exception, and a run without failure returns the updated row. *)
Theorem upload_report_outcome (file : reports.UploadFile) (fs : reports.filesystem)
        (db_report : DbReport) :
  the_create_report w (reports.filename file) (reports.content_type file) = Ok db_report ->
  (forall e,
      run_pipeline w file = Raise e ->
      fst (run_upload w file fs)
      = Raise (HTTPException 500 ("Error processing report: " ++ str_exn e)))
  /\ (forall processed_data insights risk_score e,
         run_pipeline w file = Ok (processed_data, insights, risk_score) ->
         the_update_report_data w db_report processed_data insights risk_score = Raise e ->
         fst (run_upload w file fs)
         = Raise (HTTPException 500 ("Error processing report: " ++ str_exn e)))
  /\ (forall processed_data insights risk_score updated_report,
         run_pipeline w file = Ok (processed_data, insights, risk_score) ->
         the_update_report_data w db_report processed_data insights risk_score
         = Ok updated_report ->
         fst (run_upload w file fs) = Ok updated_report).
Proof.
  intros Hc. rewrite run_upload_cases. cbn zeta. rewrite Hc.
  repeat split.
  - now intros e ->.
  - now intros pd ins rs e -> ->.
  - now intros pd ins rs u -> ->.
Qed.
(** X15.  Once the report row is created, the temporary file is gone when the
    handler is done, whether the pipeline and the update return or
    raise, and also when a file of that name was there before. *)
Theorem upload_report_cleans_up (file : reports.UploadFile)
        (fs : reports.filesystem) (db_report : DbReport) :
  the_create_report w (reports.filename file) (reports.content_type file)
  = Ok db_report ->
  reports.exists_path (snd (run_upload w file fs)) (temp_path file) = false.
Proof.
  intros Hc. rewrite run_upload_cases. cbn zeta. rewrite Hc.
  pose proof (exists_path_write (temp_path file) fs) as Hw.
  destruct (os_remove_present _ _ Hw) as [_ Hgone].
  destruct (run_pipeline w file) as [[[pd ins] rs] | e]; [| exact Hgone].
  destruct (the_update_report_data w db_report pd ins rs); exact Hgone.
Qed.
End MoreHandler.

Lemma upload_report_touches_only_temp_file_witness :
  reports.exists_path (snd (run_upload plain_world pdf_upload ["temp_other.pdf"]))
                      "temp_other.pdf" = true.
Proof.
  apply (upload_report_touches_only_temp_file nat plain_world pdf_upload
           ["temp_other.pdf"] "temp_other.pdf").
  discriminate.
Defined.

Lemma upload_report_outcome_witness :
  fst (run_upload plain_world
         {| reports.filename := "notes.docx";
            reports.content_type := "application/msword" |} [])
  = Raise (HTTPException 500
             "Error processing report: Unsupported file type: application/msword").
Proof.
  apply (proj1 (upload_report_outcome nat plain_world
                  {| reports.filename := "notes.docx";
                     reports.content_type := "application/msword" |} [] 1%nat
                  eq_refl)
               (ValueError "Unsupported file type: application/msword")).
  reflexivity.
Defined.

Lemma upload_report_cleans_up_witness :
  reports.exists_path
    (snd (run_upload plain_world pdf_upload ["temp_report.pdf"; "temp_other.pdf"]))
    (temp_path pdf_upload) = false.
Proof.
  apply (upload_report_cleans_up nat plain_world pdf_upload
           ["temp_report.pdf"; "temp_other.pdf"] 1%nat).
  reflexivity.
Defined.

(** ** Reading, listing and updating reports *)

Section ReportAccess.
Import models_report.
Variable datetime : Type.

Lemma get_report_Some (db : list (Report datetime)) (report_id : Z)
      (r : Report datetime) :
  crud_report.get_report db report_id = Some r -> In r db /\ id r = report_id.
Proof.
  unfold crud_report.get_report. intros H. apply find_some in H as [Hin Hid].
  split; [exact Hin | now apply Z.eqb_eq].
Qed.

Lemma get_report_None (db : list (Report datetime)) (report_id : Z) :
  crud_report.get_report db report_id = None
  <-> forall r, In r db -> id r <> report_id.
Proof.
  unfold crud_report.get_report. split.
  - intros H r Hin Hid. apply (find_none _ _ H) in Hin.
    apply Z.eqb_neq in Hin. contradiction.
  - intros H. induction db as [| r db IH]; [reflexivity |]. cbn [find].
    destruct (Z.eqb_spec (id r) report_id) as [Hid | _].
    + exfalso. exact (H r (or_introl eq_refl) Hid).
    + apply IH. intros r' Hin. apply H. now right.
Qed.

(** X16.  [read_report] returns a report only to its owner: what it returns
    is a row of the table with the requested id whose [user_id] is the
    id of the current user; it answers 404 exactly when no row has the
    id, and 403 exactly when the first row with the id has another
    owner. *)
Theorem read_report_access (db : list (Report datetime)) (report_id : Z)
        (current_user : models_user.User) :
  (forall r, report_routes.read_report db report_id current_user = Ok r ->
             In r db /\ id r = report_id
             /\ user_id r = models_user.id current_user)
  /\ (report_routes.read_report db report_id current_user
      = Raise (HTTPException 404 "Report not found")
      <-> forall r, In r db -> id r <> report_id)
  /\ (report_routes.read_report db report_id current_user
      = Raise (HTTPException 403 "Not authorized to access this report")
      <-> exists r, crud_report.get_report db report_id = Some r
                    /\ user_id r <> models_user.id current_user).
Proof.
  unfold report_routes.read_report.
  destruct (crud_report.get_report db report_id) as [r0 |] eqn:G.
  - destruct (get_report_Some _ _ _ G) as [Hin Hid].
    destruct (Z.eqb_spec (user_id r0) (models_user.id current_user)) as [Hu | Hu];
      cbn [negb].
    + split; [| split].
      * intros r [= <-]. auto.
      * split; [discriminate |]. intros H. exfalso. exact (H r0 Hin Hid).
      * split; [discriminate |]. intros [r [[= <-] Hne]]. contradiction.
    + split; [| split].
      * discriminate.
      * split; [discriminate |]. intros H. exfalso. exact (H r0 Hin Hid).
      * split; [| reflexivity]. intros _. exists r0. auto.
  - split; [| split].
    + discriminate.
    + split; [| reflexivity]. intros _. now apply get_report_None.
    + split; [discriminate |]. intros [r [H _]]. discriminate H.
Qed.

(** X17.  [download_report] renders a report only for its owner, and the
    content of the response is the rendering of that very row. *)
Theorem download_report_access
        (str_int : Z -> string) (str_datetime : datetime -> string)
        (str_float format_2f : Q -> string)
        (build : list report_rendering.Flowable -> result string)
        (db : list (Report datetime)) (report_id : Z)
        (current_user : models_user.User) (response : report_routes.Response) :
  report_routes.download_report str_int str_datetime str_float format_2f build
                                db report_id current_user = Ok response ->
  exists r,
    In r db /\ id r = report_id /\ user_id r = models_user.id current_user
    /\ report_rendering.generate_pdf_report str_int str_datetime str_float
         format_2f build r = Ok (report_routes.content response)
    /\ report_routes.media_type response = "application/pdf".
Proof.
  unfold report_routes.download_report.
  destruct (crud_report.get_report db report_id) as [r0 |] eqn:G; [| discriminate].
  destruct (get_report_Some _ _ _ G) as [Hin Hid].
  destruct (Z.eqb_spec (user_id r0) (models_user.id current_user)) as [Hu | Hu];
    cbn [negb]; [| discriminate].
  destruct (report_rendering.generate_pdf_report _ _ _ _ _ r0) as [pdf |] eqn:P;
    cbn [bind]; [| discriminate].
  intros [= <-]. exists r0. cbn. auto.
Qed.

Lemma In_firstn {A : Type} (n : nat) (l : list A) (x : A) :
  In x (firstn n l) -> In x l.
Proof.
  intros H. rewrite <- (firstn_skipn n l). apply in_or_app. now left.
Qed.

Lemma In_skipn {A : Type} (n : nat) (l : list A) (x : A) :
  In x (skipn n l) -> In x l.
Proof.
  intros H. rewrite <- (firstn_skipn n l). apply in_or_app. now right.
Qed.

(** X18.  [get_reports_by_user] returns rows of the table that belong to the
    user, in the order of the table, and no more than [limit] of
    them. *)
Theorem get_reports_by_user_own (db : list (Report datetime)) (user : Z)
        (skip limit : nat) :
  (List.length (crud_report.get_reports_by_user db user skip limit) <= limit)%nat
  /\ (forall r, In r (crud_report.get_reports_by_user db user skip limit) ->
                In r db /\ user_id r = user)
  /\ (skip = 0%nat ->
      (List.length (filter (fun r => (user_id r =? user)%Z) db) <= limit)%nat ->
      crud_report.get_reports_by_user db user skip limit
      = filter (fun r => (user_id r =? user)%Z) db).
Proof.
  unfold crud_report.get_reports_by_user. split; [| split].
  - apply firstn_le_length.
  - intros r Hin. apply In_firstn in Hin. apply In_skipn in Hin.
    apply filter_In in Hin as [Hin Hu]. split; [exact Hin | now apply Z.eqb_eq].
  - intros -> Hl. cbn [skipn]. now apply firstn_all2.
Qed.

(** X19.  The history of a user holds at most 100 reports, all of them the
    user's own, and every entry of its trends comes from an item of one
    of these reports. *)
Theorem get_report_history_own (isoformat : datetime -> string)
        (db : list (Report datetime)) (current_user : models_user.User) :
  let history := report_routes.get_report_history isoformat db current_user in
  (List.length (report_routes.reports history) <= 100)%nat
  /\ (forall r, In r (report_routes.reports history) ->
                In r db /\ user_id r = models_user.id current_user)
  /\ (forall p s e,
         get (report_routes.trends history) p = Some s -> In e s ->
         exists r d,
           In r (report_routes.reports history)
           /\ processed_data r <> None
           /\ In d (items (as_trend_source r))
           /\ parameter d = p
           /\ e = entry_of isoformat (as_trend_source r) d).
Proof.
  cbn zeta. unfold report_routes.get_report_history.
  cbn [report_routes.reports report_routes.trends].
  destruct (get_reports_by_user_own db (models_user.id current_user) 0 100)
    as [Hl [Hown _]].
  split; [exact Hl |]. split; [exact Hown |].
  intros p s e Hg Hin. unfold generate_trends in Hg.
  rewrite generate_trends_get in Hg. cbn [get] in Hg.
  assert (He : In e (entries_of isoformat
                       (map as_trend_source
                            (crud_report.get_reports_by_user
                               db (models_user.id current_user) 0 100)) p)).
  { destruct (entries_of isoformat _ p) as [| x xs]; cbn [extend] in Hg;
      [discriminate Hg |]. injection Hg as <-. exact Hin. }
  unfold entries_of in He. apply in_flat_map in He as [tr [Htr He]].
  apply in_map_iff in Htr as [r [<- Hr]].
  apply in_map_iff in He as [d [<- Hd]].
  apply filter_In in Hd as [Hd Hp]. apply String.eqb_eq in Hp.
  exists r, d. split; [exact Hr |]. split; [| auto].
  unfold items, as_trend_source in Hd. cbn in Hd.
  destruct (processed_data r); [discriminate | contradiction].
Qed.

Lemma assign_nothing (r : Report datetime) :
  crud_report.assign_columns r None None None None = r.
Proof. now destruct r. Qed.

Lemma get_report_map (f : Report datetime -> Report datetime)
      (db : list (Report datetime)) (report_id : Z) :
  (forall r, id (f r) = id r) ->
  crud_report.get_report (map f db) report_id
  = option_map f (crud_report.get_report db report_id).
Proof.
  intros Hf. unfold crud_report.get_report.
  induction db as [| r db IH]; cbn [map find]; [reflexivity |].
  rewrite Hf. destruct (id r =? report_id)%Z; [reflexivity | exact IH].
Qed.

End ReportAccess.

Lemma read_report_access_witness :
  report_routes.read_report small_table 2 alice
  = Raise (HTTPException 403 "Not authorized to access this report")
  /\ models_report.user_id report_of_alice = models_user.id alice.
Proof.
  destruct (read_report_access string small_table 2 alice) as [_ [_ H403]].
  destruct (read_report_access string small_table 1 alice) as [Hok _].
  split.
  - apply H403. exists report_of_bob. split; [reflexivity | discriminate].
  - exact (proj2 (proj2 (Hok report_of_alice eq_refl))).
Defined.

Lemma download_report_access_witness :
  exists r,
    In r small_table /\ models_report.id r = 1%Z
    /\ models_report.user_id r = models_user.id alice
    /\ report_rendering.generate_pdf_report (fun _ => "1") (fun t => t)
         (fun _ => "250.0") (fun _ => "50.00") (fun _ => Ok "%PDF") r
       = Ok "%PDF"
    /\ "application/pdf" = "application/pdf".
Proof.
  exact (download_report_access string (fun _ => "1") (fun t => t)
           (fun _ => "250.0") (fun _ => "50.00") (fun _ => Ok "%PDF")
           small_table 1 alice
           {| report_routes.content := "%PDF";
              report_routes.media_type := "application/pdf";
              report_routes.headers :=
                [("Content-Disposition", "attachment; filename=report_1.pdf")] |}
           eq_refl).
Defined.

Lemma get_reports_by_user_own_witness :
  crud_report.get_reports_by_user small_table 7 0 100 = [report_of_alice].
Proof.
  apply (proj2 (proj2 (get_reports_by_user_own string small_table 7 0 100)));
    [reflexivity | cbn; lia].
Defined.

Lemma get_report_history_own_witness :
  models_report.user_id report_of_alice = models_user.id alice.
Proof.
  apply (proj1 (proj2 (get_report_history_own string (fun t => t) small_table alice))
               report_of_alice).
  left. reflexivity.
Defined.


(** ** Authentication *)

Section Authentication.
Variable jwt_decode : string -> result (dict string).

End Authentication.


(** ** The story of the rendered report *)

Section Story.
Import report_rendering.
Variable datetime : Type.
Variable str_int : Z -> string.
Variable str_datetime : datetime -> string.
Variable str_float : Q -> string.
Variable format_2f : Q -> string.

Lemma insight_flowables_no_heading (text : string) (l : list ReportInsight) :
  ~ In (Paragraph text "Heading2") (flat_map insight_flowables l).
Proof.
  intros H. apply in_flat_map in H as [i [_ H]].
  unfold insight_flowables in H. cbn [In] in H.
  destruct H as [H | [H | [H | []]]]; discriminate H.
Qed.

Lemma insight_flowables_no_table (data : list (list string)) (l : list ReportInsight) :
  ~ In (Table data) (flat_map insight_flowables l).
Proof.
  intros H. apply in_flat_map in H as [i [_ H]].
  unfold insight_flowables in H. cbn [In] in H.
  destruct H as [H | [H | [H | []]]]; discriminate H.
Qed.

Lemma insight_flowables_length (l : list ReportInsight) :
  List.length (flat_map insight_flowables l) = (3 * List.length l)%nat.
Proof.
  induction l as [| i l IH]; [reflexivity |].
  cbn [flat_map]. rewrite length_app, IH. cbn [insight_flowables List.length]. lia.
Qed.

Ltac story_cases report :=
  unfold story_of;
  destruct (models_report.processed_data report) as [[| item items] |];
  destruct (models_report.insights report) as [[| i l] |];
  destruct (models_report.risk_score report) as [score |].

Ltac in_story H :=
  repeat (apply in_app_or in H; destruct H as [H | H]);
  try unfold insight_flowables in H;
  cbn [In] in H;
  repeat match type of H with
         | _ \/ _ => destruct H as [H | H]
         | False => contradiction
         end;
  try discriminate H;
  try (exfalso; exact (insight_flowables_no_heading _ _ H));
  try (exfalso; exact (insight_flowables_no_table _ _ H)).

(** X22.  A section is in the story exactly when it has something to show:
    the heading "Test Results" when there are classified entries,
    "Health Insights" when there are insights, "Risk Score" when the
    score is not [None] (a score of 0.0 is shown); and the story has
    the four opening flowables and what the sections add. *)
Theorem story_sections (report : models_report.Report datetime) :
  let story := story_of str_int str_datetime str_float format_2f report in
  (In (Paragraph "Test Results" "Heading2") story
   <-> exists item items,
         models_report.processed_data report = Some (item :: items))
  /\ (In (Paragraph "Health Insights" "Heading2") story
      <-> exists i l, models_report.insights report = Some (i :: l))
  /\ (In (Paragraph "Risk Score" "Heading2") story
      <-> models_report.risk_score report <> None)
  /\ List.length story
     = (4 + results_size (models_report.processed_data report)
        + insights_size (models_report.insights report)
        + score_size (models_report.risk_score report))%nat.
Proof.
  cbn zeta. story_cases report;
    (split; [| split; [| split]]);
    try (rewrite ?length_app, ?insight_flowables_length;
         cbn [List.length results_size insights_size score_size]; lia);
    (split;
     [ intros H; in_story H; try (eexists; eexists; reflexivity); try discriminate
     | intros H;
       try (destruct H as [? [? H]]; discriminate H);
       try (exfalso; apply H; reflexivity);
       rewrite ?in_app_iff; cbn [In]; tauto ]).
Qed.

(** X23.  The one table of the story has the header row and then one row of
    five cells for each classified entry, in their order. *)
Theorem story_table (report : models_report.Report datetime)
        (data : list (list string)) :
  In (Table data) (story_of str_int str_datetime str_float format_2f report) ->
  exists item items,
    models_report.processed_data report = Some (item :: items)
    /\ data = table_header :: map (table_row str_float) (item :: items)
    /\ List.length data = S (List.length (item :: items))
    /\ (forall row, In row data -> List.length row = 5%nat).
Proof.
  story_cases report; intros H; in_story H;
    injection H as <-; exists item, items;
    (split; [reflexivity |]); (split; [reflexivity |]);
    (split; [cbn [List.length]; now rewrite length_map |]);
    intros row [<- | Hrow]; try reflexivity;
    change (In row (map (table_row str_float) (item :: items))) in Hrow;
    apply in_map_iff in Hrow as [d [<- _]]; reflexivity.
Qed.
End Story.

Lemma story_sections_witness :
  In (report_rendering.Paragraph "Health Insights" "Heading2")
     (report_rendering.story_of (fun _ => "1") (fun t => t) (fun _ => "250.0")
                                (fun _ => "50.00") report_of_alice).
Proof.
  apply (proj1 (proj2 (story_sections string (fun _ => "1") (fun t => t)
                         (fun _ => "250.0") (fun _ => "50.00") report_of_alice))).
  eexists. eexists. reflexivity.
Defined.

Lemma story_table_witness :
  exists item items,
    models_report.processed_data report_of_alice = Some (item :: items)
    /\ [table_header; ["Glucose"; "250.0"; "mg/dL"; "250.0-250.0"; "High"]]
       = table_header :: map (report_rendering.table_row (fun _ => "250.0")) (item :: items)
    /\ List.length [table_header; ["Glucose"; "250.0"; "mg/dL"; "250.0-250.0"; "High"]]
       = S (List.length (item :: items))
    /\ (forall row,
           In row [table_header; ["Glucose"; "250.0"; "mg/dL"; "250.0-250.0"; "High"]] ->
           List.length row = 5%nat).
Proof.
  apply (story_table string (fun _ => "1") (fun t => t) (fun _ => "250.0")
                     (fun _ => "50.00") report_of_alice).
  do 5 right. left. reflexivity.
Defined.

(** ** Saving and loading the model *)

(** X24.  A trained predictor that is saved and loaded again is the same
    predictor, so it gives the same score on every report; saving a
    predictor that is untrained or has no model writes nothing; saving
    leaves the other files alone; and loading a path that holds no file
    raises. *)
Theorem save_then_load (self other : ml_model.HealthRiskPredictor)
        (filepath : string) (files : model_store.disk) :
  (ml_model.is_trained self = true -> ml_model.model self <> None ->
   model_store.load_model other filepath
     (model_store.save_model self filepath files) = Ok self
   /\ forall loaded report_data,
        model_store.load_model other filepath
          (model_store.save_model self filepath files) = Ok loaded ->
        ml_model.predict_risk loaded report_data
        = ml_model.predict_risk self report_data)
  /\ (ml_model.is_trained self = false \/ ml_model.model self = None ->
      model_store.save_model self filepath files = files)
  /\ (forall path, path <> filepath ->
                   get (model_store.save_model self filepath files) path
                   = get files path)
  /\ (get files filepath = None ->
      model_store.load_model other filepath files
      = Raise (LibraryError "FileNotFoundError")).
Proof.
  unfold model_store.save_model, model_store.load_model.
  split; [| split; [| split]].
  - intros Ht Hm. rewrite Ht.
    destruct (ml_model.model self) as [m |] eqn:M; [| contradiction].
    cbn [andb]. rewrite get_set_same.
    assert (Hself : {| ml_model.model := Some m;
                       ml_model.scaler := ml_model.scaler self;
                       ml_model.is_trained := true |} = self).
    { destruct self as [m0 s0 t0]. cbn in *. now subst. }
    cbn. rewrite Hself. split; [reflexivity |]. now intros loaded d [= <-].
  - intros [-> | ->]; [reflexivity |]. now rewrite andb_false_r.
  - intros path Hne.
    destruct (ml_model.is_trained self
              && match ml_model.model self with Some _ => true | None => false end);
      [| reflexivity].
    apply get_set_other. congruence.
  - now intros ->.
Qed.

Lemma save_then_load_witness :
  model_store.load_model untrained "health_risk_model.pkl"
    (model_store.save_model trained "health_risk_model.pkl" []) = Ok trained
  /\ model_store.save_model untrained "health_risk_model.pkl" [] = [].
Proof.
  split.
  - apply (save_then_load trained untrained "health_risk_model.pkl" []);
      [reflexivity | discriminate].
  - apply (save_then_load untrained untrained "health_risk_model.pkl" []).
    left. reflexivity.
Defined.

(** ** The environment file *)

Lemma contains_eq_cons (c : ascii) (s : string) :
  contains "=" (String c s) = Ascii.eqb c "=" || contains "=" s.
Proof.
  cbn [contains String.prefix].
  destruct (Ascii.ascii_dec "=" c) as [<- | Hne].
  - now destruct s.
  - destruct (Ascii.eqb_spec c "=") as [-> | _]; [contradiction | reflexivity].
Qed.

Lemma split_once_nonempty (s : string) : init_db.split_once s <> [].
Proof.
  induction s as [| c s IH]; cbn [init_db.split_once]; [discriminate |].
  destruct (Ascii.eqb c "="); [discriminate |].
  destruct (init_db.split_once s); [contradiction | discriminate].
Qed.

(** [split("=", 1)] cuts at the first "=". *)
Lemma split_once_cut (key value : string) :
  contains "=" key = false ->
  init_db.split_once (key ++ String "=" value) = [key; value].
Proof.
  induction key as [| c key IH]; cbn [String.append init_db.split_once].
  - reflexivity.
  - rewrite contains_eq_cons. intros H. apply orb_false_iff in H as [Hc Hk].
    rewrite Hc, (IH Hk). reflexivity.
Qed.

Lemma split_once_two (s key value : string) :
  init_db.split_once s = [key; value] ->
  s = (key ++ String "=" value)%string /\ contains "=" key = false.
Proof.
  revert key. induction s as [| c s IH]; intros key; cbn [init_db.split_once].
  - discriminate.
  - destruct (Ascii.eqb_spec c "=") as [-> | Hne].
    + intros [= <- <-]. split; reflexivity.
    + destruct (init_db.split_once s) as [| first rest] eqn:E; [discriminate |].
      intros [= <- ->]. destruct (IH first eq_refl) as [-> Hk].
      split; [reflexivity |]. rewrite contains_eq_cons, Hk.
      destruct (Ascii.eqb_spec c "="); [contradiction | reflexivity].
Qed.

Lemma assigns_functional (line k v k' v' : string) :
  assigns line k v -> assigns line k' v' -> k = k' /\ v = v'.
Proof.
  intros [_ [_ [H Hk]]] [_ [_ [H' Hk']]].
  pose proof (split_once_cut k v Hk) as S.
  pose proof (split_once_cut k' v' Hk') as S'.
  rewrite <- H in S. rewrite <- H' in S'. rewrite S in S'.
  injection S' as <- <-. auto.
Qed.

Lemma environ_setitem_Ok (environ environ' : dict string) (key value : string) :
  init_db.environ_setitem environ key value = Ok environ' ->
  environ' = set environ key value /\ key <> EmptyString.
Proof.
  unfold init_db.environ_setitem.
  destruct (init_db.has_nul key || init_db.has_nul value); [discriminate |].
  destruct (String.eqb_spec key EmptyString) as [-> | Hne]; cbn [orb];
    [discriminate |].
  destruct (contains "=" key); [discriminate |].
  intros [= <-]. auto.
Qed.

(** One turn of the loop that does not raise. *)
Lemma load_lines_step (line : string) (rest : list string)
      (environ environ' : dict string) :
  init_db.load_lines (line :: rest) environ = (Ok tt, environ') ->
  (skipped line = true /\ init_db.load_lines rest environ = (Ok tt, environ'))
  \/ (exists key value,
         assigns line key value /\ key <> EmptyString
         /\ init_db.load_lines rest (set environ key value) = (Ok tt, environ')).
Proof.
  cbn [init_db.load_lines]. unfold skipped.
  destruct (String.eqb_spec (init_db.strip line) EmptyString) as [E | E];
    cbn [negb andb orb]; [now left |].
  destruct (startswith line "#") eqn:C; cbn [negb]; [now left |].
  destruct (init_db.split_once (init_db.strip line)) as [| key [| value [| x l]]] eqn:S;
    try discriminate.
  destruct (init_db.environ_setitem environ key value) as [env1 |] eqn:P;
    [| discriminate].
  destruct (environ_setitem_Ok _ _ _ _ P) as [-> Hk].
  destruct (split_once_two _ _ _ S) as [Hs Hne].
  intros H. right. exists key, value. repeat split; auto.
Qed.

Lemma skipped_assigns (line key value : string) :
  skipped line = true -> ~ assigns line key value.
Proof.
  unfold skipped. intros H [Hne [Hc _]]. apply orb_true_iff in H as [H | H].
  - apply String.eqb_eq in H. contradiction.
  - congruence.
Qed.

Lemma load_lines_keys (lines : list string) :
  forall environ environ',
    init_db.load_lines lines environ = (Ok tt, environ') ->
    (forall line, In line lines -> skipped line = false ->
                  exists key value, assigns line key value /\ key <> EmptyString)
    /\ (forall key,
           (forall line value, In line lines -> ~ assigns line key value) ->
           get environ' key = get environ key).
Proof.
  induction lines as [| l lines IH]; intros environ environ' H.
  - injection H as <-. split; [intros line [] | reflexivity].
  - apply load_lines_step in H as [[Hs H] | [k [v [Ha [Hk H]]]]];
      destruct (IH _ _ H) as [IH1 IH2]; split.
    + intros line [<- | Hin] Hn; [congruence | auto].
    + intros key Hno. apply IH2. intros line value Hin. apply Hno. now right.
    + intros line [<- | Hin] Hn; [eauto | auto].
    + intros key Hno. rewrite IH2.
      * apply get_set_other. intros ->. exact (Hno l v (or_introl eq_refl) Ha).
      * intros line value Hin. apply Hno. now right.
Qed.

Lemma load_lines_app (a b : list string) (environ : dict string) :
  init_db.load_lines (a ++ b) environ =
  match init_db.load_lines a environ with
  | (Ok _, environ') => init_db.load_lines b environ'
  | (Raise e, environ') => (Raise e, environ')
  end.
Proof.
  revert environ. induction a as [| l a IH]; intros environ; [reflexivity |].
  cbn [app init_db.load_lines].
  destruct (negb (String.eqb (init_db.strip l) EmptyString)
            && negb (startswith l "#")); [| apply IH].
  destruct (init_db.split_once (init_db.strip l)) as [| key [| value [| x r]]];
    try reflexivity.
  destruct (init_db.environ_setitem environ key value); [apply IH | reflexivity].
Qed.

Lemma contains_eq_app (key value : string) :
  contains "=" (key ++ String "=" value) = true.
Proof.
  induction key as [| c key IH]; cbn [String.append]; rewrite contains_eq_cons.
  - reflexivity.
  - rewrite IH. apply orb_true_r.
Qed.

(** X25.  A file that loads has, on every line that is neither blank nor
    starts with "#", an "=" after a key that is not empty; a line that
    is not skipped and has no "=", such as a comment that does not start
    in the first column, makes [load_env] raise. *)
Theorem load_env_needs_assignments (content : string) (environ : dict string) :
  (forall environ',
      init_db.load_env (Some content) environ = (Ok tt, environ') ->
      forall line,
        In line (init_db.file_lines content) -> skipped line = false ->
        exists key value, assigns line key value /\ key <> EmptyString)
  /\ (forall line,
         In line (init_db.file_lines content) -> skipped line = false ->
         contains "=" (init_db.strip line) = false ->
         exists e environ',
           init_db.load_env (Some content) environ = (Raise e, environ')).
Proof.
  unfold init_db.load_env. split.
  - intros environ' H. exact (proj1 (load_lines_keys _ _ _ H)).
  - intros line Hin Hs Hno.
    destruct (init_db.load_lines (init_db.file_lines content) environ)
      as [[[] | e] environ'] eqn:H; [| eauto].
    destruct (proj1 (load_lines_keys _ _ _ H) line Hin Hs)
      as [key [value [[_ [_ [Heq _]]] _]]].
    rewrite Heq, contains_eq_app in Hno. discriminate Hno.
Qed.

(** X26.  After a load without exception a key has the value of the last
    line that assigns it, and a key that no line assigns has the value
    it had before. *)
Theorem load_env_last_assignment (content : string)
        (environ environ' : dict string) :
  init_db.load_env (Some content) environ = (Ok tt, environ') ->
  (forall before line after key value,
      init_db.file_lines content = before ++ line :: after ->
      assigns line key value ->
      (forall later value', In later after -> ~ assigns later key value') ->
      get environ' key = Some value)
  /\ (forall key,
         (forall line value, In line (init_db.file_lines content) ->
                             ~ assigns line key value) ->
         get environ' key = get environ key).
Proof.
  unfold init_db.load_env. intros H.
  split; [| exact (proj2 (load_lines_keys _ _ _ H))].
  intros before line after key value Hsplit Ha Hafter.
  rewrite Hsplit, load_lines_app in H.
  destruct (init_db.load_lines before environ) as [[[] | e] env1];
    [| discriminate H].
  apply load_lines_step in H as [[Hs _] | [k [v [Ha' [_ H]]]]].
  - exfalso. exact (skipped_assigns _ _ _ Hs Ha).
  - destruct (assigns_functional _ _ _ _ _ Ha Ha') as [<- <-].
    rewrite (proj2 (load_lines_keys _ _ _ H) key).
    + apply get_set_same.
    + intros later value' Hin. now apply Hafter.
Qed.

Lemma load_env_needs_assignments_witness :
  (exists key value,
      assigns (" DEBUG = yes" ++ String newline "")%string key value /\ key <> EmptyString)
  /\ (exists e environ',
         init_db.load_env
           (Some ("PORT=8000" ++ String newline ("  # local settings" ++ String newline ""))%string)
           [] = (Raise e, environ')).
Proof.
  split.
  - apply (proj1 (load_env_needs_assignments
                    ("# settings" ++ String newline (" DEBUG = yes" ++ String newline ""))%string
                    [])
                 [("DEBUG ", " yes")] eq_refl).
    + right. left. reflexivity.
    + reflexivity.
  - apply (proj2 (load_env_needs_assignments
                    ("PORT=8000" ++ String newline ("  # local settings" ++ String newline ""))%string
                    [])
                 ("  # local settings" ++ String newline "")%string).
    + right. left. reflexivity.
    + reflexivity.
    + reflexivity.
Defined.

Lemma load_env_last_assignment_witness :
  get [("HOME", "/root"); ("PORT", "9000")] "PORT" = Some "9000"
  /\ get [("HOME", "/root"); ("PORT", "9000")] "HOME" = Some "/root".
Proof.
  destruct (load_env_last_assignment
              ("PORT=8000" ++ String newline ("PORT=9000" ++ String newline ""))
              [("HOME", "/root")] [("HOME", "/root"); ("PORT", "9000")] eq_refl)
    as [Hlast Hkeep].
  split.
  - apply (Hlast [("PORT=8000" ++ String newline "")%string]
                 ("PORT=9000" ++ String newline "")%string [] "PORT" "9000").
    + reflexivity.
    + split; [vm_compute; discriminate | split; [reflexivity | split; reflexivity]].
    + intros later value' [].
  - apply (Hkeep "HOME"). intros line value Hin [_ [_ [Hs _]]].
    destruct Hin as [<- | [<- | []]]; vm_compute in Hs; discriminate Hs.
Defined.

(** ** The feature matrix of the synthetic batch *)

Section Matrix.
Import ml_model.

Lemma stacked_rows_width (n : nat) :
  forall c1 c2 c3 c4 c5 c6 c7 c8 c9 : list Q,
    List.length c1 = n -> List.length c2 = n -> List.length c3 = n ->
    List.length c4 = n -> List.length c5 = n -> List.length c6 = n ->
    List.length c7 = n -> List.length c8 = n -> List.length c9 = n ->
    Forall (fun row => List.length row = 9%nat)
           (fold_right
              (fun col rows => map (fun p => fst p :: snd p) (combine col rows))
              (repeat [] n) [c1; c2; c3; c4; c5; c6; c7; c8; c9])
    /\ map (fun row => hd 0%Q row)
           (fold_right
              (fun col rows => map (fun p => fst p :: snd p) (combine col rows))
              (repeat [] n) [c1; c2; c3; c4; c5; c6; c7; c8; c9])
       = c1.
Proof.
  induction n as [| n IH];
    intros [| x1 c1] [| x2 c2] [| x3 c3] [| x4 c4] [| x5 c5] [| x6 c6]
           [| x7 c7] [| x8 c8] [| x9 c9];
    cbn [List.length]; intros H1 H2 H3 H4 H5 H6 H7 H8 H9;
    try discriminate.
  - split; [constructor | reflexivity].
  - injection H1 as H1. injection H2 as H2. injection H3 as H3.
    injection H4 as H4. injection H5 as H5. injection H6 as H6.
    injection H7 as H7. injection H8 as H8. injection H9 as H9.
    destruct (IH c1 c2 c3 c4 c5 c6 c7 c8 c9 H1 H2 H3 H4 H5 H6 H7 H8 H9)
      as [IHw IHc].
    cbn [fold_right repeat combine map fst snd hd] in IHw, IHc |- *.
    split; [constructor; [reflexivity | exact IHw] | now rewrite IHc].
Qed.

Variable rng : Type.
Variable seed : Z -> rng.
Variable normal : Q -> Q -> nat -> rng -> list Q * rng.

Hypothesis normal_size :
  forall loc scale size g, List.length (fst (normal loc scale size g)) = size.

(** X27.  Every row of the feature matrix has nine columns, as many as
    [predict_risk] builds features, and the first column is the
    hemoglobin draw, the first one after seeding with 42. *)
Theorem prepare_data_rows :
  let X := fst (prepare_data rng seed normal) in
  Forall
    (fun row =>
       forall report_data,
         List.length row = List.length (extract_features report_data))
    X
  /\ map (fun row => hd 0%Q row) X
     = fst (normal 14%Q 2%Q n_samples (seed 42%Z)).
Proof.
  cbn zeta. unfold prepare_data.
  repeat match goal with
         | |- context [normal ?a ?b ?c ?g] =>
             let H := fresh "L" in
             pose proof (normal_size a b c g) as H;
             destruct (normal a b c g); cbn [fst] in H
         end.
  cbn [fst snd column_stack].
  match goal with
  | |- context [fold_right _ (repeat [] (List.length ?h)) _] =>
      replace (List.length h) with n_samples by (symmetry; assumption)
  end.
  destruct (stacked_rows_width n_samples l l0 l1 l2 l3 l4 l5 l6 l7)
    as [Hw Hc]; try assumption.
  split; [| exact Hc].
  eapply Forall_impl; [| exact Hw].
  intros row Hrow report_data. rewrite Hrow. symmetry.
  rewrite extract_features_map. now rewrite length_map.
Qed.
End Matrix.

Lemma prepare_data_rows_witness :
  Forall
    (fun row =>
       forall report_data,
         List.length row = List.length (ml_model.extract_features report_data))
    (fst (ml_model.prepare_data nat (fun _ => 0%nat) cycle_normal)).
Proof.
  exact (proj1 (prepare_data_rows nat (fun _ => 0%nat) cycle_normal
                                  cycle_normal_size)).
Defined.


(** ** Lines that mention more than one name *)

Lemma find_app {A : Type} (f : A -> bool) (a b : list A) :
  find f (a ++ b) = match find f a with
                    | Some x => Some x
                    | None => find f b
                    end.
Proof.
  induction a as [| x a IH]; cbn [app find]; [reflexivity |].
  now destruct (f x).
Qed.

Lemma known_parameters_NoDup : NoDup known_parameters.
Proof.
  unfold known_parameters, NORMAL_RANGES, keys. cbn [map fst].
  repeat constructor; cbn [In]; intuition discriminate.
Qed.

Lemma NoDup_app_disjoint {A : Type} (a b : list A) (x : A) :
  NoDup (a ++ b) -> In x a -> In x b -> False.
Proof.
  induction a as [| y a IH]; cbn [app In]; intros Hnd Ha Hb; [contradiction |].
  inversion Hnd as [| ? ? Hy Hnd']; subst.
  destruct Ha as [-> | Ha]; [| now apply IH].
  apply Hy. apply in_or_app. now right.
Qed.

Lemma earlier_name_binds (before after : list string) (p q line : string) (v : Q) :
  known_parameters = before ++ p :: after ->
  In q after -> mentions line p = true -> ~ binds line q v.
Proof.
  intros Hk Hq Hp [Hf _]. unfold first_mentioned in Hf.
  pose proof known_parameters_NoDup as Hnd. rewrite Hk in Hf, Hnd.
  rewrite find_app in Hf.
  destruct (find (mentions line) before) as [x |] eqn:F.
  - injection Hf as ->. apply find_some in F as [Hin _].
    apply (NoDup_app_disjoint before (p :: after) q Hnd Hin). now right.
  - cbn [find] in Hf. rewrite Hp in Hf. injection Hf as ->.
    apply NoDup_remove_2 in Hnd. apply Hnd. apply in_or_app. now right.
Qed.

(** X28.  A name of the reference table stays without a value when
    every line that mentions it also mentions a name that is earlier in
    the table: the earlier name takes the number of the line.  So lines
    such as "HDL Cholesterol 45" give their number to Cholesterol and
    none to HDL. *)
Theorem earlier_name_takes_the_line (text : string) (data : dict Q)
        (before after : list string) (p q : string) :
  parse_medical_data text = Ok data ->
  known_parameters = before ++ p :: after ->
  In q after ->
  (forall line, In line (split_newline text) ->
                mentions line q = true -> mentions line p = true) ->
  get data q = None.
Proof.
  intros Hd Hk Hq Hlines.
  rewrite (scan_lines_keep (split_newline text) q) with (data := []) (data' := data);
    [reflexivity | | exact Hd].
  intros l v Hin Hb.
  assert (Hm : mentions l q = true).
  { destruct Hb as [Hf _]. unfold first_mentioned in Hf.
    now apply find_some in Hf. }
  exact (earlier_name_binds before after p q l v Hk Hq (Hlines l Hin Hm) Hb).
Qed.

Lemma earlier_name_takes_the_line_witness :
  get [("Cholesterol", 130%Q)] "HDL" = None.
Proof.
  apply (earlier_name_takes_the_line
           ("HDL Cholesterol 45" ++ String newline "LDL Cholesterol 130")%string
           [("Cholesterol", 130%Q)]
           ["Hemoglobin"; "RBC"; "WBC"; "Platelets"; "Glucose"]
           ["HDL"; "LDL"; "Triglycerides"] "Cholesterol" "HDL").
  - reflexivity.
  - reflexivity.
  - left. reflexivity.
  - intros line [<- | [<- | []]] _; reflexivity.
Defined.
